(** * Telemetry and alerting pipeline of the banking bot

    A shallow embedding of [monitoring/metrics_collector.py],
    [monitoring/performance_tracker.py], [monitoring/alerts.py] and the
    analyses of [monitoring/analytics_service.py].

    Conventions of the embedding:
    - Python [int] is [Z]; Python [float] is an exact rational [Q], except
      where rounding decides an integer: the index
      [int(len(durations) * 0.95)] and the millisecond
      [int(time.time() * 1000)] of a trace id are computed on the binary64
      product (module [Binary64]).  The float sum and quotient behind the
      averages of the analytics service are taken from the interpreter
      ([AnalyticsService.arithmetic]).
    - [time.time()] and [datetime.now()] are inputs of the operation that
      reads them.
    - A [dict] that the code only indexes is a [gmap]; a [dict] or [Counter]
      that the code iterates is an insertion-ordered association list
      (module [Dict]).
    - [hash] and the float format specifiers are fields of [Py.runtime].
    - One clock reading stands for every [datetime.now()] of one detector
      run or sweep; [start_trace] takes its two [time.time()] readings apart.
    - The logger's records are part of the state; the files written under
      the metrics, performance and alerts directories, and the background
      writer threads, are not. *)

From Stdlib Require Import ZArith QArith Qround Qabs List Ascii String DecimalString.
From Stdlib Require Import Sorting.Sorted Sorting.Permutation.
From Stdlib Require Import Lqa.
From Stdlib Require DecimalZ.
From stdpp Require Import base list strings gmap.

Local Open Scope Z_scope.

(** ** Python primitives *)

Module Py.

(** [datetime]: year 1..9999, month 1..12, day 1..31, hour 0..23,
    minute and second 0..59, microsecond 0..999999. *)
Record datetime := {
  year : Z; month : Z; day : Z;
  hour : Z; minute : Z; second : Z; microsecond : Z
}.

(** What the interpreter supplies and the code only calls. *)
Record runtime := {
  hash : string -> Z;            (* built-in hash() on str *)
  format_2f : Q -> string;       (* f"{x:.2f}" *)
  format_pct : Q -> string;      (* f"{x:.2%}" *)
  format_num : Q -> string;      (* f"{x}" *)
  fromtimestamp : Q -> datetime  (* datetime.fromtimestamp, local time *)
}.

(** [str(n)] for an [int]. *)
Definition str_int (z : Z) : string := NilZero.string_of_int (Z.to_int z).

(** [int(x)] for a [float]: truncation towards zero. *)
Definition int_of_float (q : Q) : Z := Z.quot (Qnum q) (Zpos (Qden q)).

Definition digit (n : Z) : ascii := ascii_of_nat (48 + Z.to_nat (n mod 10)).

(** Zero-padded decimal fields of [strftime]. *)
Definition pad2 (n : Z) : string :=
  String (digit (n / 10)) (String (digit n) EmptyString).

Definition pad4 (n : Z) : string :=
  String (digit (n / 1000)) (String (digit (n / 100)) (pad2 n)).

Definition pad6 (n : Z) : string :=
  String (digit (n / 100000)) (String (digit (n / 10000)) (pad4 n)).

(** [strftime('%Y%m%d%H%M%S')] *)
Definition strftime_YmdHMS (d : datetime) : string :=
  pad4 (year d) +:+ pad2 (month d) +:+ pad2 (day d) +:+
  pad2 (hour d) +:+ pad2 (minute d) +:+ pad2 (second d).

(** [strftime('%Y%m%d_%H')] *)
Definition strftime_Ymd_H (d : datetime) : string :=
  pad4 (year d) +:+ pad2 (month d) +:+ pad2 (day d) +:+ "_" +:+ pad2 (hour d).

(** [isoformat()] *)
Definition isoformat (d : datetime) : string :=
  pad4 (year d) +:+ "-" +:+ pad2 (month d) +:+ "-" +:+ pad2 (day d) +:+ "T" +:+
  pad2 (hour d) +:+ ":" +:+ pad2 (minute d) +:+ ":" +:+ pad2 (second d) +:+
  (if microsecond d =? 0 then "" else "." +:+ pad6 (microsecond d)).

(** [x > y] and [x < y] on floats. *)
Definition gt (x y : Q) : bool := negb (Qle_bool x y).
Definition lt (x y : Q) : bool := negb (Qle_bool y x).

(** Truthiness of a float and of a string. *)
Definition truthy (x : Q) : bool := negb (Qeq_bool x 0).
Definition nonempty (s : string) : bool := negb (String.eqb s "").

(** [sorted(l)] on floats: a stable ascending sort. *)
Fixpoint insert_sorted (x : Q) (l : list Q) : list Q :=
  match l with
  | [] => [x]
  | y :: l' => if Qle_bool x y then x :: y :: l' else y :: insert_sorted x l'
  end.

Definition sorted (l : list Q) : list Q := foldr insert_sorted [] l.

Definition sum (l : list Q) : Q := foldl Qplus 0%Q l.

(** [l.append(r)] followed by [if len(l) > cap: l.pop(0)]. *)
Definition append_capped {A : Type} (cap : Z) (l : list A) (r : A) : list A :=
  let l' := l ++ [r] in
  if cap <? Z.of_nat (length l') then drop 1 l' else l'.

(** [str.upper()] on ASCII letters. *)
Definition upper_char (c : ascii) : ascii :=
  let n := nat_of_ascii c in
  if (97 <=? n)%nat && (n <=? 122)%nat then ascii_of_nat (n - 32) else c.

Fixpoint upper (s : string) : string :=
  match s with
  | EmptyString => EmptyString
  | String c s' => String (upper_char c) (upper s')
  end.

(** A value stored under an open key of a metadata dictionary. *)
Inductive value :=
  | VNone
  | VBool (b : bool)
  | VInt (z : Z)
  | VFloat (q : Q)
  | VStr (s : string).

(** A record of the [logging] module: level and message. *)
Definition log_record : Type := string * string.

End Py.

(** ** Insertion-ordered dictionaries *)

Module Dict.
Section Dict.
Context {K V : Type} `{EqDecision K}.

Fixpoint get (k : K) (d : list (K * V)) : option V :=
  match d with
  | [] => None
  | (k', v) :: d' => if decide (k = k') then Some v else get k d'
  end.

(** [k in d] *)
Definition mem (k : K) (d : list (K * V)) : bool :=
  match get k d with Some _ => true | None => false end.

(** [d[k] = v]: an existing key keeps its position, a new key goes last. *)
Fixpoint set (k : K) (v : V) (d : list (K * V)) : list (K * V) :=
  match d with
  | [] => [(k, v)]
  | (k', v') :: d' =>
      if decide (k = k') then (k, v) :: d' else (k', v') :: set k v d'
  end.

(** The dictionary after [d.pop(k)]. *)
Fixpoint remove (k : K) (d : list (K * V)) : list (K * V) :=
  match d with
  | [] => []
  | (k', v') :: d' => if decide (k = k') then d' else (k', v') :: remove k d'
  end.

Definition keys (d : list (K * V)) : list K := d.*1.

End Dict.
End Dict.

(** [collections.Counter] over strings. *)
Module Counter.

Definition count (k : string) (c : list (string * Z)) : Z :=
  default 0 (Dict.get k c).

(** [c[k] += 1] *)
Definition incr (k : string) (c : list (string * Z)) : list (string * Z) :=
  Dict.set k (count k c + 1) c.

(** Stable descending order by count. *)
Fixpoint insert_desc (x : string * Z) (l : list (string * Z)) : list (string * Z) :=
  match l with
  | [] => [x]
  | y :: l' => if y.2 <=? x.2 then x :: y :: l' else y :: insert_desc x l'
  end.

(** [c.most_common(n)] *)
Definition most_common (n : nat) (c : list (string * Z)) : list (string * Z) :=
  take n (foldr insert_desc [] c).

End Counter.

(** ** The binary64 product behind the p95 index *)

Module Binary64.

(** The literal [0.95] is the double [mant_095 * 2^-53]. *)
Definition mant_095 : Z := 8556839292003942.

(** [x / 2^k] rounded to the nearest integer, ties to even. *)
Definition round_shift (x k : Z) : Z :=
  let q := Z.shiftr x k in
  let r := x - Z.shiftl q k in
  let half := Z.shiftl 1 (k - 1) in
  if r <? half then q
  else if half <? r then q + 1
  else if Z.even q then q else q + 1.

(** The numerator over [2^53] of the double [n * 0.95], for an [int]
    [0 <= n] that is itself a double: the exact product rounded to 53
    significant bits. *)
Definition mul_095_num (n : Z) : Z :=
  let x := n * mant_095 in
  let k := Z.log2 x + 1 - 53 in
  if k <=? 0 then x else Z.shiftl (round_shift x k) k.

(** [int(n * 0.95)] *)
Definition int_mul_095 (n : Z) : Z := Z.shiftr (mul_095_num n) 53.

(** The exponent [e] with [2^e <= q < 2^(e+1)], for [0 < q]. *)
Definition exponent (q : Q) : Z :=
  let e := Z.log2 (Qnum q) - Z.log2 (Zpos (Qden q)) in
  if Qle_bool (Qpower 2 e) q then e else e - 1.

(** The nearest integer to [0 <= q], ties to even. *)
Definition nearest_even (q : Q) : Z :=
  let f := Qfloor q in
  match (q - inject_Z f ?= 1 # 2)%Q with
  | Lt => f
  | Gt => f + 1
  | Eq => if Z.even f then f else f + 1
  end.

(** The double nearest to [q], ties to even: 53 significant bits.  Within
    the normal range of binary64, which holds every clock reading and its
    product with 1000. *)
Definition round (q : Q) : Q :=
  if Qeq_bool q 0 then 0%Q
  else
    let a := Qabs q in
    let e := exponent a - 52 in
    let r := (inject_Z (nearest_even (a / Qpower 2 e)) * Qpower 2 e)%Q in
    if Qle_bool 0 q then r else (- r)%Q.

(** [x * y] on doubles. *)
Definition mul (x y : Q) : Q := round (x * y).

End Binary64.

(** ** monitoring/metrics_collector.py *)

Module MetricsContext.

Record t := {
  request_id : string;
  user_id : string;
  session_id : string;
  start_time : Q;
  end_time : option Q;
  llm_call_count : Z;
  llm_tokens_in : Z;
  llm_tokens_out : Z;
  tool_calls : list (string * Z);
  agent_calls : list (string * Z);
  guardrail_blocks : Z;
  errors : list string;
  latency_ms : option Q
}.

(** The dataclass constructor; [now] is the [time.time()] of the default
    factory of [start_time]. *)
Definition new (rid uid sid : string) (now : Q) : t :=
  {| request_id := rid; user_id := uid; session_id := sid;
     start_time := now; end_time := None;
     llm_call_count := 0; llm_tokens_in := 0; llm_tokens_out := 0;
     tool_calls := []; agent_calls := [];
     guardrail_blocks := 0; errors := []; latency_ms := None |}.

Definition complete (c : t) (now : Q) : t :=
  {| request_id := request_id c; user_id := user_id c;
     session_id := session_id c;
     start_time := start_time c; end_time := Some now;
     llm_call_count := llm_call_count c;
     llm_tokens_in := llm_tokens_in c; llm_tokens_out := llm_tokens_out c;
     tool_calls := tool_calls c; agent_calls := agent_calls c;
     guardrail_blocks := guardrail_blocks c; errors := errors c;
     latency_ms := Some ((now - start_time c) * 1000)%Q |}.

Definition with_llm (c : t) (n tin tout : Z) : t :=
  {| request_id := request_id c; user_id := user_id c;
     session_id := session_id c;
     start_time := start_time c; end_time := end_time c;
     llm_call_count := n; llm_tokens_in := tin; llm_tokens_out := tout;
     tool_calls := tool_calls c; agent_calls := agent_calls c;
     guardrail_blocks := guardrail_blocks c; errors := errors c;
     latency_ms := latency_ms c |}.

Definition with_tool_calls (c : t) (tc : list (string * Z)) : t :=
  {| request_id := request_id c; user_id := user_id c;
     session_id := session_id c;
     start_time := start_time c; end_time := end_time c;
     llm_call_count := llm_call_count c;
     llm_tokens_in := llm_tokens_in c; llm_tokens_out := llm_tokens_out c;
     tool_calls := tc; agent_calls := agent_calls c;
     guardrail_blocks := guardrail_blocks c; errors := errors c;
     latency_ms := latency_ms c |}.

Definition with_agent_calls (c : t) (ac : list (string * Z)) : t :=
  {| request_id := request_id c; user_id := user_id c;
     session_id := session_id c;
     start_time := start_time c; end_time := end_time c;
     llm_call_count := llm_call_count c;
     llm_tokens_in := llm_tokens_in c; llm_tokens_out := llm_tokens_out c;
     tool_calls := tool_calls c; agent_calls := ac;
     guardrail_blocks := guardrail_blocks c; errors := errors c;
     latency_ms := latency_ms c |}.

Definition with_guardrail_blocks (c : t) (n : Z) : t :=
  {| request_id := request_id c; user_id := user_id c;
     session_id := session_id c;
     start_time := start_time c; end_time := end_time c;
     llm_call_count := llm_call_count c;
     llm_tokens_in := llm_tokens_in c; llm_tokens_out := llm_tokens_out c;
     tool_calls := tool_calls c; agent_calls := agent_calls c;
     guardrail_blocks := n; errors := errors c;
     latency_ms := latency_ms c |}.

Definition with_errors (c : t) (es : list string) : t :=
  {| request_id := request_id c; user_id := user_id c;
     session_id := session_id c;
     start_time := start_time c; end_time := end_time c;
     llm_call_count := llm_call_count c;
     llm_tokens_in := llm_tokens_in c; llm_tokens_out := llm_tokens_out c;
     tool_calls := tool_calls c; agent_calls := agent_calls c;
     guardrail_blocks := guardrail_blocks c; errors := es;
     latency_ms := latency_ms c |}.

End MetricsContext.

(** The [context_dict] that [complete_request] stores. *)
Module HistoricalRecord.

Record t := {
  request_id : string;
  user_id : string;
  session_id : string;
  timestamp : string;
  latency_ms : option Q;
  llm_call_count : Z;
  llm_tokens_in : Z;
  llm_tokens_out : Z;
  tool_calls : list (string * Z);
  agent_calls : list (string * Z);
  guardrail_blocks : Z;
  errors : list string;
  success : bool
}.

End HistoricalRecord.

Module MetricsCollector.

Record t := {
  active_contexts : gmap string MetricsContext.t;
  historical_metrics : list HistoricalRecord.t;
  max_historical : Z;
  total_requests : Z;
  successful_requests : Z;
  failed_requests : Z;
  total_latency_ms : Q;
  tool_usage : list (string * Z);
  agent_usage : list (string * Z);
  guardrail_blocks : Z
}.

(** [__init__] *)
Definition init : t :=
  {| active_contexts := ∅; historical_metrics := []; max_historical := 1000;
     total_requests := 0; successful_requests := 0; failed_requests := 0;
     total_latency_ms := 0%Q; tool_usage := []; agent_usage := [];
     guardrail_blocks := 0 |}.

Definition with_active (s : t) (a : gmap string MetricsContext.t) : t :=
  {| active_contexts := a; historical_metrics := historical_metrics s;
     max_historical := max_historical s;
     total_requests := total_requests s;
     successful_requests := successful_requests s;
     failed_requests := failed_requests s;
     total_latency_ms := total_latency_ms s;
     tool_usage := tool_usage s; agent_usage := agent_usage s;
     guardrail_blocks := guardrail_blocks s |}.

Definition start_request (s : t) (rid uid sid : string) (now : Q) : t * string :=
  let context := MetricsContext.new rid uid sid now in
  ({| active_contexts := <[rid := context]> (active_contexts s);
      historical_metrics := historical_metrics s;
      max_historical := max_historical s;
      total_requests := total_requests s + 1;
      successful_requests := successful_requests s;
      failed_requests := failed_requests s;
      total_latency_ms := total_latency_ms s;
      tool_usage := tool_usage s; agent_usage := agent_usage s;
      guardrail_blocks := guardrail_blocks s |}, rid).

Definition record_llm_call (s : t) (rid : string) (tokens_in tokens_out : Z) : t :=
  match active_contexts s !! rid with
  | Some context =>
      with_active s
        (<[rid := MetricsContext.with_llm context
                    (MetricsContext.llm_call_count context + 1)
                    (MetricsContext.llm_tokens_in context + tokens_in)
                    (MetricsContext.llm_tokens_out context + tokens_out)]>
           (active_contexts s))
  | None => s
  end.

Definition record_tool_call (s : t) (rid tool_name : string) : t :=
  match active_contexts s !! rid with
  | Some context =>
      {| active_contexts :=
           <[rid := MetricsContext.with_tool_calls context
                      (Counter.incr tool_name (MetricsContext.tool_calls context))]>
             (active_contexts s);
         historical_metrics := historical_metrics s;
         max_historical := max_historical s;
         total_requests := total_requests s;
         successful_requests := successful_requests s;
         failed_requests := failed_requests s;
         total_latency_ms := total_latency_ms s;
         tool_usage := Counter.incr tool_name (tool_usage s);
         agent_usage := agent_usage s;
         guardrail_blocks := guardrail_blocks s |}
  | None => s
  end.

Definition record_agent_call (s : t) (rid agent_name : string) : t :=
  match active_contexts s !! rid with
  | Some context =>
      {| active_contexts :=
           <[rid := MetricsContext.with_agent_calls context
                      (Counter.incr agent_name (MetricsContext.agent_calls context))]>
             (active_contexts s);
         historical_metrics := historical_metrics s;
         max_historical := max_historical s;
         total_requests := total_requests s;
         successful_requests := successful_requests s;
         failed_requests := failed_requests s;
         total_latency_ms := total_latency_ms s;
         tool_usage := tool_usage s;
         agent_usage := Counter.incr agent_name (agent_usage s);
         guardrail_blocks := guardrail_blocks s |}
  | None => s
  end.

Definition record_guardrail_block (s : t) (rid reason : string) : t :=
  match active_contexts s !! rid with
  | Some context =>
      {| active_contexts :=
           <[rid := MetricsContext.with_guardrail_blocks context
                      (MetricsContext.guardrail_blocks context + 1)]>
             (active_contexts s);
         historical_metrics := historical_metrics s;
         max_historical := max_historical s;
         total_requests := total_requests s;
         successful_requests := successful_requests s;
         failed_requests := failed_requests s;
         total_latency_ms := total_latency_ms s;
         tool_usage := tool_usage s; agent_usage := agent_usage s;
         guardrail_blocks := guardrail_blocks s + 1 |}
  | None => s
  end.

Definition record_error (s : t) (rid error_message : string) : t :=
  match active_contexts s !! rid with
  | Some context =>
      with_active s
        (<[rid := MetricsContext.with_errors context
                    (MetricsContext.errors context ++ [error_message])]>
           (active_contexts s))
  | None => s
  end.

(** The [context_dict] built from a completed context. *)
Definition context_dict (rt : Py.runtime) (context : MetricsContext.t)
    (success : bool) : HistoricalRecord.t :=
  {| HistoricalRecord.request_id := MetricsContext.request_id context;
     HistoricalRecord.user_id := MetricsContext.user_id context;
     HistoricalRecord.session_id := MetricsContext.session_id context;
     HistoricalRecord.timestamp :=
       Py.isoformat (Py.fromtimestamp rt (MetricsContext.start_time context));
     HistoricalRecord.latency_ms := MetricsContext.latency_ms context;
     HistoricalRecord.llm_call_count := MetricsContext.llm_call_count context;
     HistoricalRecord.llm_tokens_in := MetricsContext.llm_tokens_in context;
     HistoricalRecord.llm_tokens_out := MetricsContext.llm_tokens_out context;
     HistoricalRecord.tool_calls := MetricsContext.tool_calls context;
     HistoricalRecord.agent_calls := MetricsContext.agent_calls context;
     HistoricalRecord.guardrail_blocks := MetricsContext.guardrail_blocks context;
     HistoricalRecord.errors := MetricsContext.errors context;
     HistoricalRecord.success := success |}.

Definition complete_request (rt : Py.runtime) (s : t) (rid : string)
    (success : bool) (now : Q) : t * option MetricsContext.t :=
  match active_contexts s !! rid with
  | None => (s, None)
  | Some c =>
      let context := MetricsContext.complete c now in
      ({| active_contexts := delete rid (active_contexts s);
          historical_metrics :=
            Py.append_capped (max_historical s) (historical_metrics s)
              (context_dict rt context success);
          max_historical := max_historical s;
          total_requests := total_requests s;
          successful_requests :=
            if success then successful_requests s + 1 else successful_requests s;
          failed_requests :=
            if success then failed_requests s else failed_requests s + 1;
          total_latency_ms :=
            (total_latency_ms s + default 0 (MetricsContext.latency_ms context))%Q;
          tool_usage := tool_usage s; agent_usage := agent_usage s;
          guardrail_blocks := guardrail_blocks s |},
       Some context)
  end.

(** The dictionary [get_current_metrics] returns. *)
Record current_metrics := {
  cm_total_requests : Z;
  cm_successful_requests : Z;
  cm_failed_requests : Z;
  cm_success_rate : Q;
  cm_average_latency_ms : Q;
  cm_top_tools : list (string * Z);
  cm_top_agents : list (string * Z);
  cm_guardrail_blocks : Z;
  cm_active_requests : Z
}.

Definition get_current_metrics (s : t) : current_metrics :=
  let avg_latency :=
    if 0 <? total_requests s
    then (total_latency_ms s / inject_Z (total_requests s))%Q
    else 0%Q in
  {| cm_total_requests := total_requests s;
     cm_successful_requests := successful_requests s;
     cm_failed_requests := failed_requests s;
     cm_success_rate :=
       (inject_Z (successful_requests s) /
        inject_Z (Z.max 1 (total_requests s)))%Q;
     cm_average_latency_ms := avg_latency;
     cm_top_tools := Counter.most_common 5 (tool_usage s);
     cm_top_agents := Counter.most_common 5 (agent_usage s);
     cm_guardrail_blocks := guardrail_blocks s;
     cm_active_requests := Z.of_nat (size (active_contexts s)) |}.

(** The calls of the request-handling layer. *)
Inductive call :=
  | StartRequest (rid uid sid : string) (now : Q)
  | RecordLlmCall (rid : string) (tokens_in tokens_out : Z)
  | RecordToolCall (rid tool_name : string)
  | RecordAgentCall (rid agent_name : string)
  | RecordGuardrailBlock (rid reason : string)
  | RecordError (rid error_message : string)
  | CompleteRequest (rid : string) (success : bool) (now : Q).

(** One call: the state after it and the context [complete_request]
    returned, if the call was one that returned a context. *)
Definition step (rt : Py.runtime) (s : t) (c : call)
    : t * option (MetricsContext.t * bool) :=
  match c with
  | StartRequest rid uid sid now => ((start_request s rid uid sid now).1, None)
  | RecordLlmCall rid tin tout => (record_llm_call s rid tin tout, None)
  | RecordToolCall rid n => (record_tool_call s rid n, None)
  | RecordAgentCall rid n => (record_agent_call s rid n, None)
  | RecordGuardrailBlock rid r => (record_guardrail_block s rid r, None)
  | RecordError rid m => (record_error s rid m, None)
  | CompleteRequest rid success now =>
      let r := complete_request rt s rid success now in
      (r.1, (fun ctx => (ctx, success)) <$> r.2)
  end.

(** A sequence of calls: the final state and, in order, the completed
    contexts with their success flags. *)
Fixpoint run (rt : Py.runtime) (s : t) (cs : list call)
    : t * list (MetricsContext.t * bool) :=
  match cs with
  | [] => (s, [])
  | c :: cs' =>
      let r := step rt s c in
      let r' := run rt r.1 cs' in
      (r'.1, option_list r.2 ++ r'.2)
  end.

Definition is_record (c : call) : bool :=
  match c with
  | StartRequest _ _ _ _ | CompleteRequest _ _ _ => false
  | _ => true
  end.


End MetricsCollector.

(** ** monitoring/performance_tracker.py *)

Module PerformanceData.

Record t := {
  name : string;
  category : string;
  start_time : Q;
  end_time : option Q;
  duration_ms : option Q;
  metadata : option (list (string * Py.value));
  parent : option string
}.

Definition complete (d : t) (now : Q) : t :=
  {| name := name d; category := category d;
     start_time := start_time d; end_time := Some now;
     duration_ms := Some ((now - start_time d) * 1000)%Q;
     metadata := metadata d; parent := parent d |}.

Definition with_metadata (d : t) (m : list (string * Py.value)) : t :=
  {| name := name d; category := category d;
     start_time := start_time d; end_time := end_time d;
     duration_ms := duration_ms d;
     metadata := Some m; parent := parent d |}.

End PerformanceData.

Module PerformanceTracker.

Record t := {
  traces : gmap string PerformanceData.t;
  historical_data : list (string * list PerformanceData.t);
  thresholds : gmap string Q;
  log : list Py.log_record
}.

(** The entry of one category in [get_performance_metrics]. *)
Record category_metrics := {
  count : Z;
  average_ms : Q;
  median_ms : Q;
  p95_ms : option Q;
  min_ms : Q;
  max_ms : Q;
  threshold_ms : option Q;
  threshold_exceeded_count : Z
}.

Definition set_threshold (rt : Py.runtime) (s : t) (category : string)
    (threshold_ms : Q) : t :=
  {| traces := traces s; historical_data := historical_data s;
     thresholds := <[category := threshold_ms]> (thresholds s);
     log := log s ++
       [("INFO", "Set performance threshold for " +:+ category +:+ ": " +:+
                 Py.format_num rt threshold_ms +:+ "ms")] |}.

(** [__init__] *)
Definition init (rt : Py.runtime) (storage_dir : string) : t :=
  let s0 := {| traces := ∅; historical_data := []; thresholds := ∅; log := [] |} in
  let s1 := set_threshold rt s0 "api_request" 1000 in
  let s2 := set_threshold rt s1 "llm_call" 2000 in
  let s3 := set_threshold rt s2 "tool_execution" 500 in
  let s4 := set_threshold rt s3 "database_query" 100 in
  {| traces := traces s4; historical_data := historical_data s4;
     thresholds := thresholds s4;
     log := log s4 ++
       [("INFO", "Performance tracker initialized, storing data in " +:+ storage_dir)] |}.

(** The trace id: [f"{name}_{int(time.time() * 1000)}_{hash(name) % 10000}"],
    the product being the one of doubles. *)
Definition trace_id_of (rt : Py.runtime) (name : string) (now : Q) : string :=
  name +:+ "_" +:+ Py.str_int (Py.int_of_float (Binary64.mul now 1000)) +:+ "_" +:+
  Py.str_int (Py.hash rt name mod 10000).

(** [{"request_id": request_id, **(metadata or {})}] *)
Definition initial_metadata (request_id : option string)
    (metadata : option (list (string * Py.value))) : list (string * Py.value) :=
  foldl (fun d kv => Dict.set kv.1 kv.2 d)
    [("request_id", from_option Py.VStr Py.VNone request_id)]
    (default [] metadata).

(** [now_id] is the clock read for the id, [now_start] the one read for
    [start_time]. *)
Definition start_trace (rt : Py.runtime) (s : t) (name category : string)
    (request_id parent : option string)
    (metadata : option (list (string * Py.value)))
    (now_id now_start : Q) : t * string :=
  let trace_id := trace_id_of rt name now_id in
  ({| traces :=
        <[trace_id :=
            {| PerformanceData.name := name;
               PerformanceData.category := category;
               PerformanceData.start_time := now_start;
               PerformanceData.end_time := None;
               PerformanceData.duration_ms := None;
               PerformanceData.metadata :=
                 Some (initial_metadata request_id metadata);
               PerformanceData.parent := parent |}]> (traces s);
      historical_data := historical_data s;
      thresholds := thresholds s; log := log s |}, trace_id).

(** The warning of [_check_threshold], if the trace exceeds its threshold. *)
Definition _check_threshold (rt : Py.runtime) (s : t) (trace : PerformanceData.t)
    : list Py.log_record :=
  let category := PerformanceData.category trace in
  match thresholds s !! category, PerformanceData.duration_ms trace with
  | Some thr, Some d =>
      if Py.gt d thr then
        [("WARNING",
          "Performance threshold exceeded: " +:+ PerformanceData.name trace +:+
          " (" +:+ category +:+ ") took " +:+ Py.format_2f rt d +:+
          "ms, threshold is " +:+ Py.format_num rt thr +:+ "ms")]
      else []
  | _, _ => []
  end.

Definition end_trace (rt : Py.runtime) (s : t) (trace_id : string)
    (success : bool) (now : Q) : t * option PerformanceData.t :=
  match traces s !! trace_id with
  | None => (s, None)
  | Some tr =>
      let tr1 := PerformanceData.complete tr now in
      let trace :=
        PerformanceData.with_metadata tr1
          (Dict.set "success" (Py.VBool success)
             (default [] (PerformanceData.metadata tr1))) in
      let category := PerformanceData.category trace in
      let old := default [] (Dict.get category (historical_data s)) in
      ({| traces := delete trace_id (traces s);
          historical_data :=
            Dict.set category (Py.append_capped 1000 old trace) (historical_data s);
          thresholds := thresholds s;
          log := log s ++ _check_threshold rt s trace |},
       Some trace)
  end.

(** [statistics.mean] *)
Definition mean (l : list Q) : Q := (Py.sum l / inject_Z (Z.of_nat (length l)))%Q.

(** [statistics.median] *)
Definition median (l : list Q) : Q :=
  let data := Py.sorted l in
  let n := length data in
  if Nat.even n
  then ((nth (n / 2 - 1) data 0 + nth (n / 2) data 0) / 2)%Q
  else nth (n / 2) data 0%Q.

Definition minimum (l : list Q) : Q :=
  match l with
  | [] => 0%Q
  | x :: l' => foldl (fun m y => if Py.lt y m then y else m) x l'
  end.

Definition maximum (l : list Q) : Q :=
  match l with
  | [] => 0%Q
  | x :: l' => foldl (fun m y => if Py.gt y m then y else m) x l'
  end.

(** [sorted(durations)[int(len(durations) * 0.95)] if len(durations) >= 20
    else None] *)
Definition p95 (durations : list Q) : option Q :=
  if 20 <=? Z.of_nat (length durations)
  then Py.sorted durations !!
         Z.to_nat (Binary64.int_mul_095 (Z.of_nat (length durations)))
  else None.

(** [durations = [t.duration_ms for t in traces if t.duration_ms is not None]] *)
Definition durations_of (trs : list PerformanceData.t) : list Q :=
  omap PerformanceData.duration_ms trs.

(** The body of the loop of [get_performance_metrics] for one category:
    [None] where the loop continues without an entry. *)
Definition metrics_of_category (s : t) (category : string)
    (trs : list PerformanceData.t) : option category_metrics :=
  let durations := durations_of trs in
  match durations with
  | [] => None
  | _ =>
      Some {| count := Z.of_nat (length durations);
              average_ms := mean durations;
              median_ms := median durations;
              p95_ms := p95 durations;
              min_ms := minimum durations;
              max_ms := maximum durations;
              threshold_ms := thresholds s !! category;
              threshold_exceeded_count :=
                match thresholds s !! category with
                | Some thr =>
                    Z.of_nat (length (filter (fun d => Py.gt d thr = true) durations))
                | None => 0
                end |}
  end.

Definition get_performance_metrics (s : t) : list (string * category_metrics) :=
  omap (fun kv => (fun m => (kv.1, m)) <$> metrics_of_category s kv.1 kv.2)
       (historical_data s).

End PerformanceTracker.

(** ** monitoring/alerts.py *)

Module AlertSeverity.

Inductive t := INFO | WARNING | ERROR | CRITICAL.

Definition value (s : t) : string :=
  match s with
  | INFO => "info"
  | WARNING => "warning"
  | ERROR => "error"
  | CRITICAL => "critical"
  end.

(** [[s.value for s in AlertSeverity]] *)
Definition values : list string := map value [INFO; WARNING; ERROR; CRITICAL].

End AlertSeverity.

Module AlertType.

Inductive t := PERFORMANCE | ERROR_RATE | GUARDRAIL | USAGE | SECURITY | SYSTEM.

Definition value (a : t) : string :=
  match a with
  | PERFORMANCE => "performance"
  | ERROR_RATE => "error_rate"
  | GUARDRAIL => "guardrail"
  | USAGE => "usage"
  | SECURITY => "security"
  | SYSTEM => "system"
  end.

Definition all : list t :=
  [PERFORMANCE; ERROR_RATE; GUARDRAIL; USAGE; SECURITY; SYSTEM].

#[global] Instance eq_dec : EqDecision t.
Proof. solve_decision. Defined.

End AlertType.

Module Alert.

(** The [details] dictionary, by the keys the detectors write and the
    sweep reads; [other] holds what a caller adds besides. *)
Record details := {
  category : option string;
  p95_ms : option Q;
  threshold_ms : option Q;
  metrics : option PerformanceTracker.category_metrics;
  error_rate : option Q;
  threshold : option Q;
  failed_requests : option Z;
  total_requests : option Z;
  other : list (string * Py.value)
}.

(** [{}] *)
Definition no_details : details :=
  {| category := None; p95_ms := None; threshold_ms := None; metrics := None;
     error_rate := None; threshold := None; failed_requests := None;
     total_requests := None; other := [] |}.

Record t := {
  id : string;
  type : string;
  severity : string;
  message : string;
  det : details;
  timestamp : string;
  status : string;
  resolved_at : option string;
  resolution_message : option string
}.

(** The alert after [resolve_alert] has stamped it. *)
Definition resolved (a : t) (at_ : string) (msg : string) : t :=
  {| id := id a; type := type a; severity := severity a;
     message := message a; det := det a; timestamp := timestamp a;
     status := "resolved"; resolved_at := Some at_;
     resolution_message := Some msg |}.

End Alert.

Module AlertSystem.

(** A registered handler: the records it logs, or the text of the
    exception it raises. *)
Definition handler : Type := Alert.t -> list Py.log_record + string.

(** The file system under [alerts_dir], which [_save_alert] writes and
    nothing here reads, is outside the state. *)
Record t := {
  alert_handlers : list (AlertType.t * list handler);
  thresholds : list (AlertType.t * gmap string Q);
  active_alerts : list (string * Alert.t);
  resolved_alerts : list Alert.t;
  log : list Py.log_record
}.

Definition _log_alert_handler : handler := fun alert =>
  inl [("WARNING", "ALERT [" +:+ Py.upper (Alert.severity alert) +:+ "]: " +:+
                   Alert.message alert)].

Definition _email_critical_alert_handler : handler := fun alert =>
  if negb (String.eqb (Alert.severity alert)
             (AlertSeverity.value AlertSeverity.CRITICAL))
  then inl []
  else inl [("CRITICAL", "Would send email for CRITICAL alert: " +:+
                         Alert.message alert)].

Definition register_handler (s : t) (alert_type : AlertType.t) (h : handler) : t :=
  {| alert_handlers :=
       Dict.set alert_type
         (default [] (Dict.get alert_type (alert_handlers s)) ++ [h])
         (alert_handlers s);
     thresholds := thresholds s;
     active_alerts := active_alerts s;
     resolved_alerts := resolved_alerts s;
     log := log s ++
       [("INFO", "Registered handler for " +:+ AlertType.value alert_type +:+
                 " alerts")] |}.

Definition _register_default_handlers (s : t) : t :=
  let s1 := foldl (fun s a => register_handler s a _log_alert_handler)
              s AlertType.all in
  foldl (fun s a => register_handler s a _email_critical_alert_handler)
    s1 AlertType.all.

Definition default_thresholds : list (AlertType.t * gmap string Q) :=
  [(AlertType.PERFORMANCE,
      <["api_request_ms" := 2000%Q]>
        (<["llm_call_ms" := 5000%Q]> (<["tool_execution_ms" := 1000%Q]> ∅)));
   (AlertType.ERROR_RATE,
      <["max_error_rate" := (5 # 100)%Q]> (<["window_size" := 100%Q]> ∅));
   (AlertType.GUARDRAIL, <["max_block_rate" := (10 # 100)%Q]> ∅);
   (AlertType.USAGE,
      <["max_requests_per_minute" := 100%Q]>
        (<["max_tokens_per_minute" := 10000%Q]> ∅))].

(** [__init__] *)
Definition init (alerts_dir : string) : t :=
  let s := _register_default_handlers
    {| alert_handlers := map (fun a => (a, [])) AlertType.all;
       thresholds := default_thresholds;
       active_alerts := []; resolved_alerts := []; log := [] |} in
  {| alert_handlers := alert_handlers s; thresholds := thresholds s;
     active_alerts := active_alerts s; resolved_alerts := resolved_alerts s;
     log := log s ++
       [("INFO", "Alert system initialized, storing alerts in " +:+ alerts_dir)] |}.

Definition set_threshold (rt : Py.runtime) (s : t) (alert_type : AlertType.t)
    (key : string) (value : Q) : t :=
  {| alert_handlers := alert_handlers s;
     thresholds :=
       Dict.set alert_type
         (<[key := value]> (default ∅ (Dict.get alert_type (thresholds s))))
         (thresholds s);
     active_alerts := active_alerts s;
     resolved_alerts := resolved_alerts s;
     log := log s ++
       [("INFO", "Set " +:+ AlertType.value alert_type +:+ " threshold: " +:+
                 key +:+ "=" +:+ Py.format_num rt value)] |}.

(** [f"{alert_type.value}_{now.strftime('%Y%m%d%H%M%S')}_{hash(message) % 10000}"] *)
Definition alert_id_of (rt : Py.runtime) (alert_type : AlertType.t)
    (message : string) (now : Py.datetime) : string :=
  AlertType.value alert_type +:+ "_" +:+ Py.strftime_YmdHMS now +:+ "_" +:+
  Py.str_int (Py.hash rt message mod 10000).

(** The records the handlers of one alert leave in the log. *)
Definition run_handlers (hs : list handler) (alert : Alert.t) : list Py.log_record :=
  flat_map (fun h : handler =>
    match h alert with
    | inl records => records
    | inr e => [("ERROR", "Error in alert handler: " +:+ e)]
    end) hs.

Definition trigger_alert (rt : Py.runtime) (s : t) (alert_type : AlertType.t)
    (severity : AlertSeverity.t) (message : string)
    (details : option Alert.details) (now : Py.datetime) : t * string :=
  let alert_id := alert_id_of rt alert_type message now in
  let alert :=
    {| Alert.id := alert_id;
       Alert.type := AlertType.value alert_type;
       Alert.severity := AlertSeverity.value severity;
       Alert.message := message;
       Alert.det := default Alert.no_details details;
       Alert.timestamp := Py.isoformat now;
       Alert.status := "active";
       Alert.resolved_at := None;
       Alert.resolution_message := None |} in
  ({| alert_handlers := alert_handlers s;
      thresholds := thresholds s;
      active_alerts := Dict.set alert_id alert (active_alerts s);
      resolved_alerts := resolved_alerts s;
      log := log s ++
        run_handlers (default [] (Dict.get alert_type (alert_handlers s))) alert ++
        [("WARNING", "ALERT [" +:+ Py.upper (AlertSeverity.value severity) +:+
                     "]: " +:+ message)] |},
   alert_id).

Definition resolve_alert (s : t) (alert_id resolution_message : string)
    (now : Py.datetime) : t * bool :=
  match Dict.get alert_id (active_alerts s) with
  | None => (s, false)
  | Some a =>
      let alert := Alert.resolved a (Py.isoformat now) resolution_message in
      ({| alert_handlers := alert_handlers s;
          thresholds := thresholds s;
          active_alerts := Dict.remove alert_id (active_alerts s);
          resolved_alerts := Py.append_capped 1000 (resolved_alerts s) alert;
          log := log s ++
            [("INFO", "Resolved alert " +:+ alert_id +:+ ": " +:+
                      resolution_message)] |},
       true)
  end.

(** [severity_values.index(v)] *)
Fixpoint index_of (v : string) (l : list string) : nat :=
  match l with
  | [] => 0
  | x :: l' => if String.eqb x v then 0%nat else S (index_of v l')
  end.

Definition get_active_alerts (s : t) (alert_type : option AlertType.t)
    (min_severity : option AlertSeverity.t) : list Alert.t :=
  let alerts := (active_alerts s).*2 in
  let alerts :=
    match alert_type with
    | Some ty => filter (fun a => Alert.type a = AlertType.value ty) alerts
    | None => alerts
    end in
  match min_severity with
  | Some sev =>
      let min_idx := index_of (AlertSeverity.value sev) AlertSeverity.values in
      filter (fun a =>
        (min_idx <= index_of (Alert.severity a) AlertSeverity.values)%nat) alerts
  | None => alerts
  end.

(** The key the performance detector looks up before it triggers. *)
Definition performance_alert_key (category : string) (now : Py.datetime) : string :=
  "performance_" +:+ category +:+ "_" +:+ Py.strftime_Ymd_H now.

Definition performance_message (rt : Py.runtime) (category : string)
    (p95_ms threshold_ms : Q) : string :=
  "Performance degradation in " +:+ category +:+ ": p95 latency " +:+
  Py.format_2f rt p95_ms +:+ "ms exceeds threshold " +:+
  Py.format_num rt threshold_ms +:+ "ms".

(** The body of the loop of [_check_performance_alerts] for one category. *)
Definition check_category (rt : Py.runtime) (now : Py.datetime) (s : t)
    (entry : string * PerformanceTracker.category_metrics) : t :=
  let category := entry.1 in
  let metrics := entry.2 in
  let threshold_key := category +:+ "_ms" in
  match Dict.get AlertType.PERFORMANCE (thresholds s) with
  | None => s
  | Some th =>
      match th !! threshold_key, PerformanceTracker.p95_ms metrics with
      | Some threshold_ms, Some p95_ms =>
          if Py.truthy p95_ms && Py.gt p95_ms threshold_ms then
            let alert_key := performance_alert_key category now in
            if negb (Dict.mem alert_key (active_alerts s)) then
              (trigger_alert rt s AlertType.PERFORMANCE AlertSeverity.WARNING
                 (performance_message rt category p95_ms threshold_ms)
                 (Some {| Alert.category := Some category;
                          Alert.p95_ms := Some p95_ms;
                          Alert.threshold_ms := Some threshold_ms;
                          Alert.metrics := Some metrics;
                          Alert.error_rate := None; Alert.threshold := None;
                          Alert.failed_requests := None;
                          Alert.total_requests := None;
                          Alert.other := [] |})
                 now).1
            else s
          else s
      | _, _ => s
      end
  end.

Definition _check_performance_alerts (rt : Py.runtime) (s : t)
    (pt : PerformanceTracker.t) (now : Py.datetime) : t :=
  foldl (check_category rt now) s (PerformanceTracker.get_performance_metrics pt).

(** The key the error-rate detector looks up before it triggers. *)
Definition error_rate_alert_key (now : Py.datetime) : string :=
  "error_rate_" +:+ Py.strftime_Ymd_H now.

Definition error_rate_message (rt : Py.runtime) (error_rate max_rate : Q) : string :=
  "High error rate: " +:+ Py.format_pct rt error_rate +:+
  " exceeds threshold " +:+ Py.format_pct rt max_rate.

(** [failed_requests / max(1, total_requests)] *)
Definition error_rate_of (m : MetricsCollector.current_metrics) : Q :=
  (inject_Z (MetricsCollector.cm_failed_requests m) /
   inject_Z (Z.max 1 (MetricsCollector.cm_total_requests m)))%Q.

Definition _check_error_rate_alerts (rt : Py.runtime) (s : t)
    (mc : MetricsCollector.t) (now : Py.datetime) : t :=
  let current_metrics := MetricsCollector.get_current_metrics mc in
  match Dict.get AlertType.ERROR_RATE (thresholds s) with
  | None => s
  | Some th =>
      let max_rate := default (5 # 100)%Q (th !! "max_error_rate") in
      let error_rate := error_rate_of current_metrics in
      if Py.gt error_rate max_rate &&
         (10 <=? MetricsCollector.cm_total_requests current_metrics) then
        let alert_key := error_rate_alert_key now in
        if negb (Dict.mem alert_key (active_alerts s)) then
          (trigger_alert rt s AlertType.ERROR_RATE AlertSeverity.ERROR
             (error_rate_message rt error_rate max_rate)
             (Some {| Alert.category := None; Alert.p95_ms := None;
                      Alert.threshold_ms := None; Alert.metrics := None;
                      Alert.error_rate := Some error_rate;
                      Alert.threshold := Some max_rate;
                      Alert.failed_requests :=
                        Some (MetricsCollector.cm_failed_requests current_metrics);
                      Alert.total_requests :=
                        Some (MetricsCollector.cm_total_requests current_metrics);
                      Alert.other := [] |})
             now).1
        else s
      else s
  end.

Definition recovery_message (rt : Py.runtime) (category : string)
    (p95_ms threshold_ms : Q) : string :=
  "Performance recovered: " +:+ category +:+ " p95 latency now " +:+
  Py.format_2f rt p95_ms +:+ "ms (below threshold " +:+
  Py.format_num rt threshold_ms +:+ "ms)".

(** The test of the sweep on one alert: the recovered p95 and the recorded
    threshold when the alert is to be resolved. *)
Definition recovered (pt : PerformanceTracker.t) (alert : Alert.t)
    : option (string * Q * Q) :=
  if String.eqb (Alert.type alert) (AlertType.value AlertType.PERFORMANCE) then
    match Alert.category (Alert.det alert) with
    | Some category =>
        if Py.nonempty category then
          match Dict.get category (PerformanceTracker.get_performance_metrics pt) with
          | Some m =>
              match PerformanceTracker.p95_ms m, Alert.threshold_ms (Alert.det alert) with
              | Some p95_ms, Some threshold_ms =>
                  if Py.truthy p95_ms && Py.truthy threshold_ms &&
                     Py.lt p95_ms threshold_ms
                  then Some (category, p95_ms, threshold_ms)
                  else None
              | _, _ => None
              end
          | None => None
          end
        else None
    | None => None
    end
  else None.

(** The body of the loop of [_auto_resolve_alerts] for one item of the
    snapshot [list(self.active_alerts.items())]. *)
Definition sweep_item (rt : Py.runtime) (pt : PerformanceTracker.t)
    (now : Py.datetime) (s : t) (item : string * Alert.t) : t :=
  match recovered pt item.2 with
  | Some (category, p95_ms, threshold_ms) =>
      (resolve_alert s item.1
         (recovery_message rt category p95_ms threshold_ms) now).1
  | None => s
  end.

Definition _auto_resolve_alerts (rt : Py.runtime) (s : t)
    (pt : PerformanceTracker.t) (now : Py.datetime) : t :=
  foldl (sweep_item rt pt now) s (active_alerts s).

(** One cycle of [_background_monitor]. *)
Definition monitor_cycle (rt : Py.runtime) (s : t) (pt : PerformanceTracker.t)
    (mc : MetricsCollector.t) (now : Py.datetime) : t :=
  let s1 := _check_performance_alerts rt s pt now in
  let s2 := _check_error_rate_alerts rt s1 mc now in
  _auto_resolve_alerts rt s2 pt now.

End AlertSystem.

(** ** A runtime to evaluate the model on *)

Module Sample.

Definition rt : Py.runtime :=
  {| Py.hash := fun s => 7919 * Z.of_nat (String.length s);
     Py.format_2f := fun q => Py.str_int (Qfloor q) +:+ ".00";
     Py.format_pct := fun q => Py.str_int (Qfloor (q * 100)) +:+ ".00%";
     Py.format_num := fun q => Py.str_int (Qfloor q);
     Py.fromtimestamp := fun q =>
       {| Py.year := 1970; Py.month := 1; Py.day := 1 + Qfloor q / 86400;
          Py.hour := (Qfloor q / 3600) mod 24;
          Py.minute := (Qfloor q / 60) mod 60;
          Py.second := Qfloor q mod 60;
          Py.microsecond := 0 |} |}.

(** 2025-03-14, at the given time of day. *)
Definition at_time (h m sec : Z) : Py.datetime :=
  {| Py.year := 2025; Py.month := 3; Py.day := 14;
     Py.hour := h; Py.minute := m; Py.second := sec; Py.microsecond := 0 |}.

(** A tracker whose only history is twenty completed spans of [d] ms in
    one category. *)
Definition steady (category : string) (d : Z) : PerformanceTracker.t :=
  {| PerformanceTracker.traces := ∅;
     PerformanceTracker.historical_data :=
       [(category,
         replicate 20
           {| PerformanceData.name := "op";
              PerformanceData.category := category;
              PerformanceData.start_time := 0%Q;
              PerformanceData.end_time := Some (inject_Z d / 1000)%Q;
              PerformanceData.duration_ms := Some (inject_Z d);
              PerformanceData.metadata :=
                Some [("request_id", Py.VNone); ("success", Py.VBool true)];
              PerformanceData.parent := None |})];
     PerformanceTracker.thresholds := ∅;
     PerformanceTracker.log := [] |}.

(** A collector that has seen [total] requests, [failed] of them failed. *)
Definition tally (total failed : Z) : MetricsCollector.t :=
  {| MetricsCollector.active_contexts := ∅;
     MetricsCollector.historical_metrics := [];
     MetricsCollector.max_historical := 1000;
     MetricsCollector.total_requests := total;
     MetricsCollector.successful_requests := total - failed;
     MetricsCollector.failed_requests := failed;
     MetricsCollector.total_latency_ms := 0%Q;
     MetricsCollector.tool_usage := []; MetricsCollector.agent_usage := [];
     MetricsCollector.guardrail_blocks := 0 |}.

(** A collector whose history keeps two records. *)
Definition small_collector : MetricsCollector.t :=
  {| MetricsCollector.active_contexts := ∅;
     MetricsCollector.historical_metrics := [];
     MetricsCollector.max_historical := 2;
     MetricsCollector.total_requests := 0;
     MetricsCollector.successful_requests := 0;
     MetricsCollector.failed_requests := 0;
     MetricsCollector.total_latency_ms := 0%Q;
     MetricsCollector.tool_usage := []; MetricsCollector.agent_usage := [];
     MetricsCollector.guardrail_blocks := 0 |}.

(** A completed span of [d] ms in category ["api"]. *)
Definition span (d : Z) : PerformanceData.t :=
  {| PerformanceData.name := "op"; PerformanceData.category := "api";
     PerformanceData.start_time := 0%Q;
     PerformanceData.end_time := Some (inject_Z d / 1000)%Q;
     PerformanceData.duration_ms := Some (inject_Z d);
     PerformanceData.metadata := Some [("request_id", Py.VNone);
                                       ("success", Py.VBool true)];
     PerformanceData.parent := None |}.

(** A tracker holding, in category ["api"], twenty completed spans of
    1 ms, 2 ms, ..., 20 ms. *)
Definition twenty_spans : PerformanceTracker.t :=
  {| PerformanceTracker.traces := ∅;
     PerformanceTracker.historical_data :=
       [("api", map span [1; 2; 3; 4; 5; 6; 7; 8; 9; 10; 11; 12;
                          13; 14; 15; 16; 17; 18; 19; 20])];
     PerformanceTracker.thresholds := ∅; PerformanceTracker.log := [] |}.

(** The alert system after one detector run over a tracker whose
    [api_request] p95 is 3000 ms: one active performance alert, recorded
    threshold 2000 ms. *)
Definition degraded : AlertSystem.t :=
  AlertSystem._check_performance_alerts rt (AlertSystem.init "alerts")
    (steady "api_request" 3000) (at_time 12 0 0).

End Sample.

(** ** monitoring/analytics_service.py *)

(** The analyses read the [historical_metrics] of the collector.  A stored
    [latency_ms] may be [None]; arithmetic on it raises [TypeError], an
    index out of range raises [IndexError] and a timestamp that
    [datetime.fromisoformat] rejects raises [ValueError]: an analysis that
    raises returns [None] here. *)

Module AnalyticsService.

(** What an analysis returns: [{"message": "No metrics available"}] or
    its report. *)
Inductive result (A : Type) :=
  | NoMetrics
  | Report (a : A).
Arguments NoMetrics {A}.
Arguments Report {A} a.

(** The float arithmetic of the interpreter that the averages of latencies
    go through: the built-in [sum] on a list of floats and the quotient of a
    float by an [int]. *)
Record arithmetic := {
  float_sum : list Q -> Q;
  float_div : Q -> Z -> Q
}.

(** [sum(l) / len(l) if l else 0] on floats. *)
Definition average (ar : arithmetic) (l : list Q) : Q :=
  match l with
  | [] => 0%Q
  | _ => float_div ar (float_sum ar l) (Z.of_nat (length l))
  end.

(** [sum] over [int]s. *)
Definition sum_int (l : list Z) : Z := foldl Z.add 0 l.

(** [sum(l) / len(metrics) if metrics else 0] on [int]s. *)
Definition average_int (l : list Z) (n : nat) : Q :=
  match n with
  | O => 0%Q
  | _ => (inject_Z (sum_int l) / inject_Z (Z.of_nat n))%Q
  end.

(** The floats of a list of stored latencies. *)
Definition floats (l : list (option Q)) : option (list Q) := mapM id l.

(** An entry of ["tool_performance"]. *)
Record tool_performance := {
  tp_count : Z;
  tp_average_latency_ms : Q;
  tp_p95_latency_ms : option Q
}.

Record performance := {
  average_latency_ms : Q;
  median_latency_ms : Q;
  p95_latency_ms : Q;
  min_latency_ms : Q;
  max_latency_ms : Q;
  total_llm_tokens_in : Z;
  total_llm_tokens_out : Z;
  average_tokens_in : Q;
  average_tokens_out : Q;
  tool_performance_by_tool : list (string * tool_performance)
}.

(** [tool_latencies[tool].append(m["latency_ms"])] for every tool of every
    record. *)
Definition tool_latencies (metrics : list HistoricalRecord.t)
    : list (string * list (option Q)) :=
  foldl (fun d m =>
           foldl (fun d tool =>
                    Dict.set tool
                      (default [] (Dict.get tool d) ++
                       [HistoricalRecord.latency_ms m]) d)
                 d (Dict.keys (HistoricalRecord.tool_calls m)))
        [] metrics.

Definition tool_entry (ar : arithmetic) (latencies : list (option Q))
    : option tool_performance :=
  lat ← floats latencies;
  Some {| tp_count := Z.of_nat (length lat);
          tp_average_latency_ms := average ar lat;
          tp_p95_latency_ms := PerformanceTracker.p95 lat |}.

(** [sorted(l)[i] if l else 0] *)
Definition sorted_at (l : list Q) (i : nat) : option Q :=
  match l with
  | [] => Some 0%Q
  | _ => Py.sorted l !! i
  end.

Definition _analyze_performance (ar : arithmetic)
    (metrics : list HistoricalRecord.t) : option (result performance) :=
  match metrics with
  | [] => Some NoMetrics
  | _ =>
      latencies ← floats (map HistoricalRecord.latency_ms metrics);
      median ← sorted_at latencies (length latencies / 2);
      p95 ← sorted_at latencies
               (Z.to_nat (Binary64.int_mul_095 (Z.of_nat (length latencies))));
      tools ← mapM (fun kv : string * list (option Q) =>
                      (fun e => (kv.1, e)) <$> tool_entry ar kv.2)
                   (tool_latencies metrics);
      Some (Report
        {| average_latency_ms := average ar latencies;
           median_latency_ms := median;
           p95_latency_ms := p95;
           min_latency_ms := PerformanceTracker.minimum latencies;
           max_latency_ms := PerformanceTracker.maximum latencies;
           total_llm_tokens_in :=
             sum_int (map HistoricalRecord.llm_tokens_in metrics);
           total_llm_tokens_out :=
             sum_int (map HistoricalRecord.llm_tokens_out metrics);
           average_tokens_in :=
             average_int (map HistoricalRecord.llm_tokens_in metrics)
               (length metrics);
           average_tokens_out :=
             average_int (map HistoricalRecord.llm_tokens_out metrics)
               (length metrics);
           tool_performance_by_tool := tools |})
  end.

(** An entry of [_calculate_hourly_stats]. *)
Record period_stats := {
  ps_total_requests : Z;
  ps_successful_requests : Z;
  ps_failed_requests : Z;
  ps_success_rate : Q;
  ps_average_latency_ms : Q
}.

(** The grouping loop: [key] stands for
    [datetime.fromisoformat(m["timestamp"]).strftime(fmt)], [None] where it
    raises. *)
Definition group_by (key : string -> option string)
    (metrics : list HistoricalRecord.t)
    : option (list (string * list HistoricalRecord.t)) :=
  foldl (fun acc m =>
           d ← acc;
           k ← key (HistoricalRecord.timestamp m);
           Some (Dict.set k (default [] (Dict.get k d) ++ [m]) d))
        (Some []) metrics.

(** [sum(1 for m in ms if m["success"])] *)
Definition successful_of (ms : list HistoricalRecord.t) : Z :=
  Z.of_nat (length (filter (fun m => HistoricalRecord.success m = true) ms)).

Definition period_entry (ar : arithmetic) (ms : list HistoricalRecord.t)
    : option period_stats :=
  latencies ← floats (map HistoricalRecord.latency_ms ms);
  Some {| ps_total_requests := Z.of_nat (length ms);
          ps_successful_requests := successful_of ms;
          ps_failed_requests := Z.of_nat (length ms) - successful_of ms;
          ps_success_rate :=
            match ms with
            | [] => 0%Q
            | _ => (inject_Z (successful_of ms) /
                    inject_Z (Z.of_nat (length ms)))%Q
            end;
          ps_average_latency_ms := average ar latencies |}.

(** [hour_key] is [fromisoformat(ts).strftime("%Y-%m-%d %H:00")]. *)
Definition _calculate_hourly_stats (ar : arithmetic)
    (hour_key : string -> option string) (metrics : list HistoricalRecord.t)
    : option (result (list (string * period_stats))) :=
  match metrics with
  | [] => Some NoMetrics
  | _ =>
      by_hour ← group_by hour_key metrics;
      stats ← mapM (fun kv : string * list HistoricalRecord.t =>
                      (fun e => (kv.1, e)) <$> period_entry ar kv.2) by_hour;
      Some (Report stats)
  end.

End AnalyticsService.

(** ** Sequences of tracker operations *)

Module TrackerRun.
Import PerformanceTracker.

(** The calls of instrumented code. *)
Inductive call :=
  | StartTrace (name category : string) (request_id parent : option string)
      (metadata : option (list (string * Py.value))) (now_id now_start : Q)
  | EndTrace (trace_id : string) (success : bool) (now : Q)
  | SetThreshold (category : string) (threshold_ms : Q).

Definition step (rt : Py.runtime) (s : t) (c : call) : t :=
  match c with
  | StartTrace name category request_id parent metadata now_id now_start =>
      (start_trace rt s name category request_id parent metadata
         now_id now_start).1
  | EndTrace trace_id success now => (end_trace rt s trace_id success now).1
  | SetThreshold category threshold_ms => set_threshold rt s category threshold_ms
  end.

Definition run (rt : Py.runtime) (s : t) (cs : list call) : t :=
  foldl (step rt) s cs.

End TrackerRun.

(** * Notions used in the statements *)

(** ** Counting separators in identifiers *)

Module StrSpec.

(** Number of ["_"] characters of a string. *)
Fixpoint underscores (s : string) : nat :=
  match s with
  | EmptyString => 0
  | String c s' => (if Ascii.eqb c "_" then 1 else 0) + underscores s'
  end.

End StrSpec.

(** ** Runs of the metrics collector *)

Module CollectorSpec.
Import MetricsCollector.

(** What a [record_*] call leaves alone. *)
Definition same_aggregates (s s' : t) : Prop :=
  historical_metrics s' = historical_metrics s /\
  max_historical s' = max_historical s /\
  total_requests s' = total_requests s /\
  successful_requests s' = successful_requests s /\
  failed_requests s' = failed_requests s /\
  total_latency_ms s' = total_latency_ms s /\
  forall rid c, active_contexts s !! rid = Some c ->
    exists c', active_contexts s' !! rid = Some c' /\
               MetricsContext.start_time c' = MetricsContext.start_time c.

(** The records stored for the completed contexts of a run. *)
Definition records_of (rt : Py.runtime) (l : list (MetricsContext.t * bool))
    : list HistoricalRecord.t :=
  map (fun x => context_dict rt x.1 x.2) l.

(** The history holds the last [max_historical] records of [pre]. *)
Definition holds_last (s : t) (pre : list HistoricalRecord.t) : Prop :=
  historical_metrics s =
  drop (length pre - Z.to_nat (max_historical s)) pre.


Definition latencies (l : list (MetricsContext.t * bool)) : list Q :=
  map (fun x => default 0%Q (MetricsContext.latency_ms x.1)) l.



End CollectorSpec.

(** ** The tracker's history bound and timestamps *)

Module TrackerSpec.
Import PerformanceTracker.

(** The history bound that [end_trace] maintains. *)
Definition within_capacity (s : t) : Prop :=
  Forall (fun kv : string * list PerformanceData.t => (length kv.2 <= 1000)%nat)
    (historical_data s).

(** The millisecond timestamp in a trace id: [int(now * 1000)]. *)
Definition ms_of (now : Q) : Z := Py.int_of_float (Binary64.mul now 1000).

(** The span [start_trace] opens. *)
Definition opened (name category : string) (request_id parent : option string)
    (metadata : option (list (string * Py.value))) (start_time : Q)
    : PerformanceData.t :=
  {| PerformanceData.name := name;
     PerformanceData.category := category;
     PerformanceData.start_time := start_time;
     PerformanceData.end_time := None;
     PerformanceData.duration_ms := None;
     PerformanceData.metadata := Some (initial_metadata request_id metadata);
     PerformanceData.parent := parent |}.

End TrackerSpec.

(** ** States and sweeps of the alert system *)

Module AlertSpec.
Import AlertSystem.

(** The shape of every id [trigger_alert] produces. *)
Definition is_alert_id (k : string) : Prop :=
  exists (rt : Py.runtime) (ty : AlertType.t) (msg : string) (dt : Py.datetime),
    k = alert_id_of rt ty msg dt.

(** What every state reached through the operations satisfies. *)
Definition inv (s : t) : Prop :=
  NoDup (Dict.keys (active_alerts s)) /\
  Forall is_alert_id (Dict.keys (active_alerts s)) /\
  is_Some (Dict.get AlertType.ERROR_RATE (thresholds s)) /\
  Z.of_nat (length (resolved_alerts s)) <= 1000.

(** The states of an alert system driven through its operations. *)
Inductive reachable (rt : Py.runtime) : t -> Prop :=
  | reach_init dir : reachable rt (init dir)
  | reach_register_handler s ty h :
      reachable rt s -> reachable rt (register_handler s ty h)
  | reach_set_threshold s ty key v :
      reachable rt s -> reachable rt (set_threshold rt s ty key v)
  | reach_trigger s ty sev msg det now :
      reachable rt s -> reachable rt (trigger_alert rt s ty sev msg det now).1
  | reach_resolve s alert_id msg now :
      reachable rt s -> reachable rt (resolve_alert s alert_id msg now).1
  | reach_cycle s pt mc now :
      reachable rt s -> reachable rt (monitor_cycle rt s pt mc now).

(** The resolved record the sweep archives for an item, if it resolves it. *)
Definition resolution (rt : Py.runtime) (pt : PerformanceTracker.t)
    (now : Py.datetime) (item : string * Alert.t) : option Alert.t :=
  match recovered pt item.2 with
  | Some (c, p, thr) =>
      Some (Alert.resolved item.2 (Py.isoformat now) (recovery_message rt c p thr))
  | None => None
  end.

(** The items the sweep leaves active. *)
Definition stays (pt : PerformanceTracker.t) (item : string * Alert.t) : Prop :=
  ~ is_Some (recovered pt item.2).


(** The current p95 of a category, if the tracker reports one. *)
Definition p95_now (pt : PerformanceTracker.t) (category : string) : option Q :=
  Dict.get category (PerformanceTracker.get_performance_metrics pt) ≫=
    PerformanceTracker.p95_ms.

End AlertSpec.

(** ** What a sequence of calls records for one request *)

Module CollectorTrace.
Import MetricsCollector.

(** The messages of the [record_error] calls on [rid], in call order. *)
Definition errors_for (rid : string) (cs : list call) : list string :=
  omap (fun c => match c with
                 | RecordError r m => if decide (r = rid) then Some m else None
                 | _ => None
                 end) cs.

(** The token pairs of the [record_llm_call] calls on [rid]. *)
Definition llm_calls_for (rid : string) (cs : list call) : list (Z * Z) :=
  omap (fun c => match c with
                 | RecordLlmCall r tin tout =>
                     if decide (r = rid) then Some (tin, tout) else None
                 | _ => None
                 end) cs.

(** Number of [record_guardrail_block] calls on [rid]. *)
Definition guardrail_blocks_for (rid : string) (cs : list call) : Z :=
  Z.of_nat (length (omap (fun c => match c with
                                   | RecordGuardrailBlock r _ =>
                                       if decide (r = rid) then Some tt else None
                                   | _ => None
                                   end) cs)).

(** Number of [record_tool_call] calls on [rid] for [tool]. *)
Definition tool_calls_for (rid tool : string) (cs : list call) : Z :=
  Z.of_nat (length (omap (fun c => match c with
                                   | RecordToolCall r n =>
                                       if decide (r = rid /\ n = tool)
                                       then Some tt else None
                                   | _ => None
                                   end) cs)).

(** Number of [record_agent_call] calls on [rid] for [agent]. *)
Definition agent_calls_for (rid agent : string) (cs : list call) : Z :=
  Z.of_nat (length (omap (fun c => match c with
                                   | RecordAgentCall r n =>
                                       if decide (r = rid /\ n = agent)
                                       then Some tt else None
                                   | _ => None
                                   end) cs)).

Definition total (l : list Z) : Z := foldr Z.add 0 l.

(** What the calls [cs] add to the context [c] of [rid], giving [c']. *)
Definition accumulated (rid : string) (cs : list call)
    (c c' : MetricsContext.t) : Prop :=
  MetricsContext.request_id c' = MetricsContext.request_id c /\
  MetricsContext.user_id c' = MetricsContext.user_id c /\
  MetricsContext.session_id c' = MetricsContext.session_id c /\
  MetricsContext.start_time c' = MetricsContext.start_time c /\
  MetricsContext.errors c' = MetricsContext.errors c ++ errors_for rid cs /\
  MetricsContext.llm_call_count c' =
    MetricsContext.llm_call_count c + Z.of_nat (length (llm_calls_for rid cs)) /\
  MetricsContext.llm_tokens_in c' =
    MetricsContext.llm_tokens_in c + total (llm_calls_for rid cs).*1 /\
  MetricsContext.llm_tokens_out c' =
    MetricsContext.llm_tokens_out c + total (llm_calls_for rid cs).*2 /\
  MetricsContext.guardrail_blocks c' =
    MetricsContext.guardrail_blocks c + guardrail_blocks_for rid cs /\
  (forall tool, Counter.count tool (MetricsContext.tool_calls c') =
     Counter.count tool (MetricsContext.tool_calls c) + tool_calls_for rid tool cs) /\
  (forall agent, Counter.count agent (MetricsContext.agent_calls c') =
     Counter.count agent (MetricsContext.agent_calls c) +
     agent_calls_for rid agent cs).

(** The bookkeeping every call keeps. *)
Definition balanced (s : t) (completed : Z) : Prop :=
  Z.of_nat (size (active_contexts s)) + completed <= total_requests s /\
  successful_requests s + failed_requests s = completed /\
  0 <= successful_requests s /\ 0 <= failed_requests s.

(** [a] is listed before [b]: its count is not smaller. *)
Definition no_less (a b : string * Z) : Prop := b.2 <= a.2.

End CollectorTrace.

(** ** What the tracker stores *)

Module TrackerTrace.
Import PerformanceTracker.

(** The span [end_trace] returns for an open trace. *)
Definition ended (tr : PerformanceData.t) (success : bool) (now : Q)
    : PerformanceData.t :=
  PerformanceData.with_metadata (PerformanceData.complete tr now)
    (Dict.set "success" (Py.VBool success)
       (default [] (PerformanceData.metadata (PerformanceData.complete tr now)))).

End TrackerTrace.

(** ** The spans a tracker holds *)

Module TrackerHistory.
Import PerformanceTracker.

(** A span as [end_trace] files it under [category]. *)
Definition completed (category : string) (d : PerformanceData.t) : Prop :=
  PerformanceData.category d = category /\
  exists e, PerformanceData.end_time d = Some e /\
            PerformanceData.duration_ms d =
              Some ((e - PerformanceData.start_time d) * 1000)%Q.

(** A span as [start_trace] opens it. *)
Definition open (d : PerformanceData.t) : Prop :=
  PerformanceData.end_time d = None /\ PerformanceData.duration_ms d = None.

(** Every category of the history has a list of one to 1000 completed spans
    of that category, and every open trace is unfinished. *)
Definition filed (s : t) : Prop :=
  NoDup (Dict.keys (historical_data s)) /\
  Forall (fun kv : string * list PerformanceData.t =>
            kv.2 <> [] /\ (length kv.2 <= 1000)%nat /\
            Forall (completed kv.1) kv.2)
         (historical_data s) /\
  map_Forall (fun _ d => open d) (traces s).

End TrackerHistory.

(** ** The records an alert system holds *)

Module AlertHistory.
Import AlertSystem.

(** The position of a severity in [AlertSeverity]. *)
Definition rank (sev : AlertSeverity.t) : nat :=
  match sev with
  | AlertSeverity.INFO => 0
  | AlertSeverity.WARNING => 1
  | AlertSeverity.ERROR => 2
  | AlertSeverity.CRITICAL => 3
  end.

(** The type and severity of an alert are values of the enumerations. *)
Definition classified (a : Alert.t) : Prop :=
  (exists ty, Alert.type a = AlertType.value ty) /\
  (exists sev, Alert.severity a = AlertSeverity.value sev).

(** An entry of [active_alerts] as [trigger_alert] stores it. *)
Definition stored_active (kv : string * Alert.t) : Prop :=
  Alert.id kv.2 = kv.1 /\ Alert.status kv.2 = "active" /\
  Alert.resolved_at kv.2 = None /\ Alert.resolution_message kv.2 = None /\
  classified kv.2.

(** An entry of [resolved_alerts] as [resolve_alert] archives it. *)
Definition archived (a : Alert.t) : Prop :=
  Alert.status a = "resolved" /\ is_Some (Alert.resolved_at a) /\
  is_Some (Alert.resolution_message a) /\ classified a.

Definition kept (s : t) : Prop :=
  NoDup (Dict.keys (active_alerts s)) /\
  Forall stored_active (active_alerts s) /\
  Forall archived (resolved_alerts s) /\
  (length (resolved_alerts s) <= 1000)%nat.

(** The log line of an alert, as [_log_alert_handler] and [trigger_alert]
    both write it. *)
Definition alert_line (sev : AlertSeverity.t) (message : string) : Py.log_record :=
  ("WARNING", "ALERT [" +:+ Py.upper (AlertSeverity.value sev) +:+ "]: " +:+ message).

(** What the filters of [get_active_alerts] let through. *)
Definition passes (alert_type : option AlertType.t)
    (min_severity : option AlertSeverity.t) (a : Alert.t) : Prop :=
  (forall ty, alert_type = Some ty -> Alert.type a = AlertType.value ty) /\
  (forall sev, min_severity = Some sev ->
     exists sev', Alert.severity a = AlertSeverity.value sev' /\
                  (rank sev <= rank sev')%nat).

End AlertHistory.

(** ** Threshold warnings of the tracker *)

Module TrackerWarnings.
Import PerformanceTracker.

(** Number of records of level WARNING in a log. *)
Definition warnings (l : list Py.log_record) : Z :=
  Z.of_nat (length (filter (fun r : Py.log_record => r.1 = "WARNING") l)).

(** The sum of [threshold_exceeded_count] over the categories reported. *)
Definition exceeded_total (s : t) : Z :=
  foldr Z.add 0 (threshold_exceeded_count <$> (get_performance_metrics s).*2).

(** The calls of a run that leave the thresholds alone. *)
Definition keeps_thresholds (c : TrackerRun.call) : bool :=
  match c with
  | TrackerRun.SetThreshold _ _ => false
  | _ => true
  end.

(** No category of the history is at its bound of 1000 spans. *)
Definition below_capacity (s : t) : Prop :=
  Forall (fun kv : string * list PerformanceData.t => (length kv.2 < 1000)%nat)
    (historical_data s).

(** The durations of [trs] above the threshold that [thresholds] holds for
    [category], and their number over a whole history. *)
Definition exceeding (thresholds : gmap string Q) (category : string)
    (trs : list PerformanceData.t) : Z :=
  match thresholds !! category with
  | Some thr =>
      Z.of_nat (length (filter (fun d => Py.gt d thr = true) (durations_of trs)))
  | None => 0
  end.

Definition exceeding_all (thresholds : gmap string Q)
    (h : list (string * list PerformanceData.t)) : Z :=
  foldr Z.add 0 ((fun kv => exceeding thresholds kv.1 kv.2) <$> h).

(** Warnings logged beyond the exceeding durations still held. *)
Definition gap (s : t) : Z :=
  warnings (log s) - exceeding_all (thresholds s) (historical_data s).

End TrackerWarnings.

(** ** The history the analyses read *)

Module AnalyticsSpec.
Import MetricsCollector.

(** A stored record whose latency is a number. *)
Definition timed (r : HistoricalRecord.t) : Prop :=
  is_Some (HistoricalRecord.latency_ms r).

(** The history of a collector created by [__init__]: at most 1000 records,
    each with its latency. *)
Definition recorded (s : t) : Prop :=
  max_historical s = 1000 /\
  (length (historical_metrics s) <= 1000)%nat /\
  Forall timed (historical_metrics s).

(** The sum of a field over the periods of a report. *)
Definition over_periods (f : AnalyticsService.period_stats -> Z)
    (stats : list (string * AnalyticsService.period_stats)) : Z :=
  foldr Z.add 0 ((fun kv => f kv.2) <$> stats).

(** An entry of a period report adds up. *)
Definition consistent (e : AnalyticsService.period_stats) : Prop :=
  1 <= AnalyticsService.ps_total_requests e /\
  0 <= AnalyticsService.ps_successful_requests e /\
  0 <= AnalyticsService.ps_failed_requests e /\
  AnalyticsService.ps_successful_requests e +
    AnalyticsService.ps_failed_requests e =
    AnalyticsService.ps_total_requests e /\
  (0 <= AnalyticsService.ps_success_rate e)%Q /\
  (AnalyticsService.ps_success_rate e <= 1)%Q.

End AnalyticsSpec.

(** * Properties *)

(** ** Strings: identifiers and the keys they are compared with *)

Module StrFacts.
Import StrSpec.

Lemma app_cons (c : ascii) (a b : string) :
  String c a +:+ b = String c (a +:+ b).
Proof. reflexivity. Qed.

Lemma app_nil_l (b : string) : "" +:+ b = b.
Proof. reflexivity. Qed.

Lemma app_assoc (a b c : string) : (a +:+ b) +:+ c = a +:+ b +:+ c.
Proof.
  induction a as [|x a IH]; [reflexivity|].
  rewrite !app_cons. now rewrite IH.
Qed.

Lemma underscores_app (a b : string) :
  underscores (a +:+ b) = (underscores a + underscores b)%nat.
Proof.
  induction a as [|x a IH]; [reflexivity|].
  rewrite app_cons. simpl. rewrite IH. lia.
Qed.

Lemma digit_cases (n : Z) :
  In (Py.digit n) ["0"; "1"; "2"; "3"; "4"; "5"; "6"; "7"; "8"; "9"]%char.
Proof.
  unfold Py.digit.
  pose proof (Z.mod_pos_bound n 10 ltac:(lia)) as Hb.
  assert (Hc : n mod 10 = 0 \/ n mod 10 = 1 \/ n mod 10 = 2 \/ n mod 10 = 3 \/
               n mod 10 = 4 \/ n mod 10 = 5 \/ n mod 10 = 6 \/ n mod 10 = 7 \/
               n mod 10 = 8 \/ n mod 10 = 9) by lia.
  destruct Hc as [-> | [-> | [-> | [-> | [-> | [-> | [-> | [-> | [-> | ->]]]]]]]]];
    cbn; tauto.
Qed.

Lemma digit_not_underscore (n : Z) : Ascii.eqb (Py.digit n) "_" = false.
Proof.
  pose proof (digit_cases n) as H. cbn in H.
  destruct H as [<- | [<- | [<- | [<- | [<- | [<- | [<- | [<- | [<- | [<- | []]]]]]]]]]];
    reflexivity.
Qed.

Lemma underscores_pad2 (n : Z) : underscores (Py.pad2 n) = 0%nat.
Proof. unfold Py.pad2. cbn [underscores]. now rewrite !digit_not_underscore. Qed.

Lemma underscores_pad4 (n : Z) : underscores (Py.pad4 n) = 0%nat.
Proof.
  unfold Py.pad4. cbn [underscores].
  now rewrite !digit_not_underscore, underscores_pad2.
Qed.

Lemma underscores_YmdHMS (d : Py.datetime) :
  underscores (Py.strftime_YmdHMS d) = 0%nat.
Proof.
  unfold Py.strftime_YmdHMS.
  now rewrite !underscores_app, underscores_pad4, !underscores_pad2.
Qed.

Lemma underscores_Ymd_H (d : Py.datetime) :
  underscores (Py.strftime_Ymd_H d) = 1%nat.
Proof.
  unfold Py.strftime_Ymd_H.
  now rewrite !underscores_app, underscores_pad4, !underscores_pad2.
Qed.

Lemma underscores_uint (d : Decimal.uint) :
  underscores (NilEmpty.string_of_uint d) = 0%nat.
Proof. induction d; simpl; auto. Qed.

Lemma underscores_str_int (z : Z) : underscores (Py.str_int z) = 0%nat.
Proof.
  unfold Py.str_int.
  destruct (Z.to_int z) as [d | d]; simpl; destruct d; simpl;
    auto using underscores_uint.
Qed.

(** A string splits in one way at its last underscore. *)
Lemma split_last_underscore (a b x y : string) :
  underscores x = 0%nat -> underscores y = 0%nat ->
  a +:+ "_" +:+ x = b +:+ "_" +:+ y -> a = b /\ x = y.
Proof.
  intros Hx Hy. revert b.
  induction a as [|c a IH]; intros [|c' b] H;
    rewrite ?app_cons, ?app_nil_l in H.
  - injection H as ->. auto.
  - injection H as <- ->.
    rewrite underscores_app in Hx. simpl in Hx. lia.
  - injection H as -> <-.
    rewrite underscores_app in Hy. simpl in Hy. lia.
  - injection H as -> H. destruct (IH _ H) as [-> ->]. auto.
Qed.

Lemma to_int_not_nil (z : Z) :
  Z.to_int z <> Decimal.Pos Decimal.Nil /\ Z.to_int z <> Decimal.Neg Decimal.Nil.
Proof.
  pose proof (DecimalZ.to_of (Z.to_int z)) as H.
  rewrite DecimalZ.of_to in H.
  split; intros E; rewrite E in H; discriminate H.
Qed.

(** [str] is injective on [int]. *)
Lemma str_int_inj (z1 z2 : Z) : Py.str_int z1 = Py.str_int z2 -> z1 = z2.
Proof.
  unfold Py.str_int. intros H.
  apply DecimalZ.to_int_inj.
  destruct (to_int_not_nil z1) as [P1 N1], (to_int_not_nil z2) as [P2 N2].
  pose proof (NilZero.isi _ P1 N1) as E1.
  pose proof (NilZero.isi _ P2 N2) as E2.
  rewrite H in E1. congruence.
Qed.

End StrFacts.

(** ** Bounded lists *)

Module CapFacts.

Lemma append_capped_length {A : Type} (cap : Z) (l : list A) (r : A) :
  0 <= cap -> Z.of_nat (length l) <= cap ->
  Z.of_nat (length (Py.append_capped cap l r)) <= cap.
Proof.
  intros Hc Hl. unfold Py.append_capped.
  destruct (Z.ltb_spec cap (Z.of_nat (length (l ++ [r])))) as [H | H].
  - rewrite length_drop, length_app. simpl. lia.
  - exact H.
Qed.

(** Appending to the last [cap] elements of [pre] leaves the last [cap]
    elements of the extended list. *)
Lemma append_capped_drop {A : Type} (cap : Z) (pre : list A) (r : A) :
  0 <= cap ->
  Py.append_capped cap (drop (length pre - Z.to_nat cap) pre) r =
  drop (length (pre ++ [r]) - Z.to_nat cap) (pre ++ [r]).
Proof.
  intros Hc. unfold Py.append_capped.
  rewrite <- (drop_app_le pre [r]) by lia.
  rewrite length_drop, length_app. simpl length.
  destruct (Z.ltb_spec cap
              (Z.of_nat (length pre + 1 - (length pre - Z.to_nat cap)))) as [H | H].
  - rewrite drop_drop. f_equal. lia.
  - f_equal. lia.
Qed.

Lemma foldl_append_capped_drop {A : Type} (cap : Z) (new pre : list A) :
  0 <= cap ->
  foldl (Py.append_capped cap) (drop (length pre - Z.to_nat cap) pre) new =
  drop (length (pre ++ new) - Z.to_nat cap) (pre ++ new).
Proof.
  intros Hc. revert pre. induction new as [|r new IH]; intros pre; simpl.
  - now rewrite app_nil_r.
  - rewrite append_capped_drop by exact Hc. rewrite IH.
    now rewrite <- app_assoc.
Qed.

(** Appending one by one to a list within its capacity keeps the last
    [cap] elements of the whole. *)
Lemma foldl_append_capped {A : Type} (cap : Z) (l new : list A) :
  0 <= cap -> Z.of_nat (length l) <= cap ->
  foldl (Py.append_capped cap) l new =
  drop (length (l ++ new) - Z.to_nat cap) (l ++ new).
Proof.
  intros Hc Hl. rewrite <- foldl_append_capped_drop by exact Hc.
  replace (length l - Z.to_nat cap)%nat with 0%nat by lia. reflexivity.
Qed.

End CapFacts.

(** ** The metrics collector *)

Module CollectorFacts.
Import MetricsCollector CollectorSpec.

Lemma same_aggregates_refl (s : t) : same_aggregates s s.
Proof. repeat split; eauto. Qed.

Lemma same_aggregates_trans (s1 s2 s3 : t) :
  same_aggregates s1 s2 -> same_aggregates s2 s3 -> same_aggregates s1 s3.
Proof.
  intros (A1 & A2 & A3 & A4 & A5 & A6 & A7) (B1 & B2 & B3 & B4 & B5 & B6 & B7).
  repeat split; try congruence.
  intros rid c Hc. destruct (A7 _ _ Hc) as (c' & Hc' & E).
  destruct (B7 _ _ Hc') as (c'' & Hc'' & E'). exists c''. split; congruence.
Qed.

(** Replacing the context of [rid0] by one with the same start time. *)
Lemma insert_keeps_start (m : gmap string MetricsContext.t) (rid0 : string)
    (c0 c1 : MetricsContext.t) :
  m !! rid0 = Some c0 ->
  MetricsContext.start_time c1 = MetricsContext.start_time c0 ->
  forall rid c, m !! rid = Some c ->
    exists c', <[rid0 := c1]> m !! rid = Some c' /\
               MetricsContext.start_time c' = MetricsContext.start_time c.
Proof.
  intros H0 E rid c Hc. destruct (decide (rid0 = rid)) as [<- | Hne].
  - rewrite lookup_insert_eq. exists c1. split; congruence.
  - rewrite lookup_insert_ne by done. eauto.
Qed.

Lemma step_record (rt : Py.runtime) (s : t) (c : call) :
  is_record c = true -> same_aggregates s (step rt s c).1 /\ (step rt s c).2 = None.
Proof.
  destruct c; simpl; try discriminate; intros _; split; try reflexivity.
  - unfold record_llm_call.
    destruct (active_contexts s !! rid) as [c0|] eqn:E;
      [|apply same_aggregates_refl].
    repeat split; simpl; try reflexivity. now apply insert_keeps_start with c0.
  - unfold record_tool_call.
    destruct (active_contexts s !! rid) as [c0|] eqn:E;
      [|apply same_aggregates_refl].
    repeat split; simpl; try reflexivity. now apply insert_keeps_start with c0.
  - unfold record_agent_call.
    destruct (active_contexts s !! rid) as [c0|] eqn:E;
      [|apply same_aggregates_refl].
    repeat split; simpl; try reflexivity. now apply insert_keeps_start with c0.
  - unfold record_guardrail_block.
    destruct (active_contexts s !! rid) as [c0|] eqn:E;
      [|apply same_aggregates_refl].
    repeat split; simpl; try reflexivity. now apply insert_keeps_start with c0.
  - unfold record_error.
    destruct (active_contexts s !! rid) as [c0|] eqn:E;
      [|apply same_aggregates_refl].
    repeat split; simpl; try reflexivity. now apply insert_keeps_start with c0.
Qed.

Lemma run_records (rt : Py.runtime) (cs : list call) (s : t) :
  forallb is_record cs = true ->
  same_aggregates s (run rt s cs).1 /\ (run rt s cs).2 = [].
Proof.
  revert s. induction cs as [|c cs IH]; intros s H; simpl.
  - split; [apply same_aggregates_refl | reflexivity].
  - simpl in H. apply andb_prop in H as [Hc Hcs].
    destruct (step_record rt s c Hc) as [A E].
    destruct (IH (step rt s c).1 Hcs) as [B E'].
    split; [eapply same_aggregates_trans; eauto|].
    rewrite E, E'. reflexivity.
Qed.

Lemma last_append_capped {A : Type} (cap : Z) (l : list A) (r : A) :
  1 <= cap -> last (Py.append_capped cap l r) = Some r.
Proof.
  intros Hc. unfold Py.append_capped.
  destruct (Z.ltb_spec cap (Z.of_nat (length (l ++ [r])))) as [H | H].
  - rewrite length_app in H. simpl in H.
    rewrite drop_app_le by lia. apply last_snoc.
  - apply last_snoc.
Qed.

Lemma step_history (rt : Py.runtime) (s : t) (c : call)
    (pre : list HistoricalRecord.t) :
  0 <= max_historical s -> holds_last s pre ->
  max_historical (step rt s c).1 = max_historical s /\
  holds_last (step rt s c).1 (pre ++ records_of rt (option_list (step rt s c).2)).
Proof.
  intros Hm Hh.
  destruct (is_record c) eqn:Hr.
  - destruct (step_record rt s c Hr) as [(A1 & A2 & _) E].
    rewrite E. simpl. rewrite app_nil_r. unfold holds_last in *.
    split; [exact A2 | congruence].
  - destruct c; try discriminate Hr; simpl.
    + rewrite app_nil_r. split; [reflexivity | exact Hh].
    + unfold complete_request.
      destruct (active_contexts s !! rid) as [c0|]; simpl.
      * split; [reflexivity|]. unfold holds_last in *. simpl.
        rewrite Hh. now apply CapFacts.append_capped_drop.
      * rewrite app_nil_r. split; [reflexivity | exact Hh].
Qed.

Lemma run_history (rt : Py.runtime) (cs : list call) (s : t)
    (pre : list HistoricalRecord.t) :
  0 <= max_historical s -> holds_last s pre ->
  max_historical (run rt s cs).1 = max_historical s /\
  holds_last (run rt s cs).1 (pre ++ records_of rt (run rt s cs).2).
Proof.
  revert s pre. induction cs as [|c cs IH]; intros s pre Hm Hh; simpl.
  - rewrite app_nil_r. auto.
  - destruct (step_history rt s c pre Hm Hh) as [M1 H1].
    destruct (IH (step rt s c).1 _ ltac:(lia) H1) as [M2 H2].
    split; [congruence|].
    unfold records_of in *. rewrite map_app, app_assoc. exact H2.
Qed.






End CollectorFacts.

(** ** Claims on the metrics collector *)

Module CollectorClaims.
Import MetricsCollector CollectorSpec CollectorFacts.

(** C5. After [start_request], any number of [record_*] calls and one
    [complete_request(success)] on the same request id, the record appended
    to the history has [latency_ms = (end_time - start_time) * 1000], and
    [successful_requests + failed_requests] has grown by exactly one, the
    flag selecting the counter. *)
Theorem C5_latency_and_completion_count (rt : Py.runtime) (s : t)
    (rid uid sid : string) (t0 t1 : Q) (recs : list call) (success : bool) :
  forallb is_record recs = true ->
  1 <= max_historical s ->
  let s1 := (start_request s rid uid sid t0).1 in
  let s2 := (run rt s1 recs).1 in
  let r := complete_request rt s2 rid success t1 in
  exists ctx,
    r.2 = Some ctx /\
    MetricsContext.start_time ctx = t0 /\
    MetricsContext.end_time ctx = Some t1 /\
    last (historical_metrics r.1) = Some (context_dict rt ctx success) /\
    HistoricalRecord.latency_ms (context_dict rt ctx success) =
      Some ((t1 - t0) * 1000)%Q /\
    successful_requests r.1 + failed_requests r.1 =
      successful_requests s + failed_requests s + 1 /\
    successful_requests r.1 =
      successful_requests s + (if success then 1 else 0) /\
    failed_requests r.1 = failed_requests s + (if success then 0 else 1).
Proof.
  intros Hrecs Hmax s1 s2 r.
  destruct (run_records rt recs s1 Hrecs) as [(A1 & A2 & A3 & A4 & A5 & A6 & A7) _].
  fold s2 in A1, A2, A3, A4, A5, A6, A7.
  destruct (A7 rid (MetricsContext.new rid uid sid t0)) as (c & Hc & Hst).
  { subst s1. simpl. apply lookup_insert_eq. }
  simpl in Hst.
  subst r. unfold complete_request. rewrite Hc.
  exists (MetricsContext.complete c t1). cbn [fst snd].
  cbn [historical_metrics successful_requests failed_requests].
  rewrite A4, A5.
  repeat split.
  - simpl. exact Hst.
  - apply last_append_capped. simpl in A2. lia.
  - simpl. now rewrite Hst.
  - subst s1. simpl. destruct success; lia.
  - subst s1. simpl. destruct success; lia.
  - subst s1. simpl. destruct success; lia.
Qed.

(** C6. A second [complete_request] on an id whose first completion
    returned a context returns [None] and leaves the whole state, so every
    aggregate counter and the history, as it was. *)
Theorem C6_second_complete_is_not_found (rt : Py.runtime) (s s1 : t)
    (rid : string) (success1 success2 : bool) (t1 t2 : Q)
    (ctx : MetricsContext.t) :
  complete_request rt s rid success1 t1 = (s1, Some ctx) ->
  complete_request rt s1 rid success2 t2 = (s1, None).
Proof.
  unfold complete_request. intros H.
  destruct (active_contexts s !! rid) as [c|]; [|discriminate H].
  injection H as <- _. simpl. now rewrite lookup_delete_eq.
Qed.

(** A completed request is no longer active. *)
Lemma complete_request_deactivates (rt : Py.runtime) (s s1 : t) (rid : string)
    (success : bool) (now : Q) (ctx : MetricsContext.t) :
  complete_request rt s rid success now = (s1, Some ctx) ->
  active_contexts s1 !! rid = None.
Proof.
  unfold complete_request. intros H.
  destruct (active_contexts s !! rid) as [c|]; [|discriminate H].
  injection H as <- _. simpl. apply lookup_delete_eq.
Qed.

(** C7. On a request id that is not active, every [record_*] call returns
    the state unchanged. *)
Theorem C7_record_on_inactive_id_is_noop (s : t) (rid : string)
    (tokens_in tokens_out : Z) (tool_name agent_name reason error_message : string) :
  active_contexts s !! rid = None ->
  record_llm_call s rid tokens_in tokens_out = s /\
  record_tool_call s rid tool_name = s /\
  record_agent_call s rid agent_name = s /\
  record_guardrail_block s rid reason = s /\
  record_error s rid error_message = s.
Proof.
  intros H.
  unfold record_llm_call, record_tool_call, record_agent_call,
    record_guardrail_block, record_error.
  rewrite H. auto.
Qed.

(** C8. Starting from an empty history, once more records than
    [max_historical] have been inserted the history holds exactly
    [max_historical] of them: the last ones, in insertion order, so that
    its first record is the [(N - max_historical + 1)]-th inserted. *)
Theorem C8_history_keeps_last_max (rt : Py.runtime) (s : t) (cs : list call) :
  historical_metrics s = [] ->
  0 <= max_historical s ->
  let r := run rt s cs in
  let inserted := records_of rt r.2 in
  let cap := Z.to_nat (max_historical s) in
  (cap < length inserted)%nat ->
  length (historical_metrics r.1) = cap /\
  historical_metrics r.1 = drop (length inserted - cap) inserted /\
  head (historical_metrics r.1) = inserted !! (length inserted - cap)%nat.
Proof.
  intros Hh Hm r inserted cap HN.
  destruct (run_history rt cs s [] Hm) as [M H].
  { unfold holds_last. now rewrite Hh, drop_nil. }
  unfold holds_last in H. rewrite M in H. simpl in H.
  fold r in H. fold inserted in H. fold cap in H.
  split; [|split].
  - rewrite H, length_drop. lia.
  - exact H.
  - rewrite H, head_lookup, lookup_drop. f_equal. lia.
Qed.


(** C5 on a request with a tool call and an LLM call, started at 10 s and
    completed at 12 s. *)
Lemma C5_witness :
  let recs := [RecordToolCall "r1" "get_balance"; RecordLlmCall "r1" 100 200] in
  let r := complete_request Sample.rt
             (run Sample.rt (start_request init "r1" "u1" "s1" 10).1 recs).1
             "r1" true 12 in
  forallb is_record recs = true /\ 1 <= max_historical init /\
  exists ctx,
    r.2 = Some ctx /\
    HistoricalRecord.latency_ms (context_dict Sample.rt ctx true) =
      Some ((12 - 10) * 1000)%Q /\
    successful_requests r.1 + failed_requests r.1 = 1.
Proof.
  intros recs r.
  assert (H1 : forallb is_record recs = true) by reflexivity.
  assert (H2 : 1 <= max_historical init) by (simpl; lia).
  split; [exact H1 | split; [exact H2 |]].
  destruct (C5_latency_and_completion_count Sample.rt init "r1" "u1" "s1"
              10 12 recs true H1 H2) as (ctx & E1 & _ & _ & _ & E2 & E3 & _).
  exists ctx. split; [exact E1 | split; [exact E2 | exact E3]].
Defined.

(** C6 on a request started and completed once. *)
Lemma C6_witness :
  let s0 := (start_request init "r1" "u1" "s1" 10).1 in
  let r := complete_request Sample.rt s0 "r1" true 12 in
  complete_request Sample.rt r.1 "r1" false 13 = (r.1, None).
Proof.
  intros s0 r.
  destruct r as [s1 o] eqn:E. destruct o as [ctx|].
  - exact (C6_second_complete_is_not_found Sample.rt s0 s1 "r1" true false
             12 13 ctx E).
  - vm_compute in E. discriminate E.
Defined.

(** C7 on an id that was never started. *)
Lemma C7_witness :
  active_contexts init !! "ghost" = None /\
  record_tool_call init "ghost" "get_balance" = init /\
  record_error init "ghost" "boom" = init.
Proof.
  assert (H : active_contexts init !! "ghost" = None) by reflexivity.
  split; [exact H|].
  destruct (C7_record_on_inactive_id_is_noop init "ghost" 1 2
              "get_balance" "root" "policy" "boom" H) as (_ & E1 & _ & _ & E2).
  split; [exact E1 | exact E2].
Defined.

(** C8 on three requests completed into a history of capacity two. *)
Lemma C8_witness :
  let cs := [StartRequest "a" "u" "s" 1; CompleteRequest "a" true 2;
             StartRequest "b" "u" "s" 3; CompleteRequest "b" false 4;
             StartRequest "c" "u" "s" 5; CompleteRequest "c" true 6] in
  let r := run Sample.rt Sample.small_collector cs in
  length (records_of Sample.rt r.2) = 3%nat /\
  length (historical_metrics r.1) = 2%nat /\
  head (historical_metrics r.1) = records_of Sample.rt r.2 !! 1%nat.
Proof.
  intros cs r.
  assert (H0 : historical_metrics Sample.small_collector = []) by reflexivity.
  assert (H1 : 0 <= max_historical Sample.small_collector) by (simpl; lia).
  assert (H2 : length (records_of Sample.rt r.2) = 3%nat) by (vm_compute; reflexivity).
  assert (H3 : (Z.to_nat (max_historical Sample.small_collector) <
                length (records_of Sample.rt (run Sample.rt Sample.small_collector cs).2))%nat).
  { fold r. rewrite H2. simpl. lia. }
  destruct (C8_history_keeps_last_max Sample.rt Sample.small_collector cs H0 H1 H3)
    as (E1 & _ & E2).
  fold r in E1, E2. rewrite H2 in E2.
  split; [exact H2 | split; [exact E1 | exact E2]].
Defined.

End CollectorClaims.

(** ** Dictionaries *)

Module DictFacts.
Section DictFacts.
Context {K V : Type} `{EqDecision K}.
Implicit Types (d : list (K * V)) (k : K) (v : V).

Lemma get_elem_of k v d : Dict.get k d = Some v -> (k, v) ∈ d.
Proof.
  induction d as [|[k' v'] d IH]; simpl; [discriminate|].
  destruct (decide (k = k')) as [-> | Hne].
  - intros [= ->]. apply list_elem_of_here.
  - intros Hd. apply list_elem_of_further. auto.
Qed.

Lemma get_None_not_key k d : Dict.get k d = None <-> k ∉ Dict.keys d.
Proof.
  unfold Dict.keys. induction d as [|[k' v'] d IH]; simpl.
  - split; [intros _; apply not_elem_of_nil | reflexivity].
  - rewrite not_elem_of_cons. destruct (decide (k = k')) as [-> | Hne].
    + split; [discriminate | intros [Hc _]; congruence].
    + rewrite IH. tauto.
Qed.

Lemma get_elem_of_NoDup k v d :
  NoDup (Dict.keys d) -> (k, v) ∈ d -> Dict.get k d = Some v.
Proof.
  unfold Dict.keys. induction d as [|[k' v'] d IH]; simpl; intros Hnd Hin.
  - now apply elem_of_nil in Hin.
  - apply NoDup_cons in Hnd as [Hk Hnd].
    apply elem_of_cons in Hin as [[= -> ->] | Hin].
    + now rewrite decide_True.
    + destruct (decide (k = k')) as [-> | Hne]; [|auto].
      exfalso. apply Hk. apply (list_elem_of_fmap_2 fst) in Hin. exact Hin.
Qed.

Lemma Forall_set (P : K * V -> Prop) k v d :
  Forall P d -> P (k, v) -> Forall P (Dict.set k v d).
Proof.
  intros Hd Hp. induction Hd as [|[k' v'] d Hx Hd IH]; simpl.
  - repeat constructor. exact Hp.
  - destruct (decide (k = k')); constructor; auto.
Qed.

Lemma keys_set k v d :
  Dict.keys (Dict.set k v d) =
  if Dict.mem k d then Dict.keys d else Dict.keys d ++ [k].
Proof.
  unfold Dict.keys, Dict.mem. induction d as [|[k' v'] d IH]; [reflexivity|].
  cbn [Dict.set Dict.get].
  destruct (decide (k = k')) as [-> | Hne]; [reflexivity|].
  rewrite !fmap_cons, IH. now destruct (Dict.get k d).
Qed.

Lemma keys_remove_subseteq k d : Dict.keys (Dict.remove k d) ⊆ Dict.keys d.
Proof.
  unfold Dict.keys. induction d as [|[k' v'] d IH]; simpl; [reflexivity|].
  destruct (decide (k = k')); simpl.
  - intros x Hx. now apply list_elem_of_further.
  - intros x Hx. apply elem_of_cons in Hx as [-> | Hx].
    + apply list_elem_of_here.
    + apply list_elem_of_further. auto.
Qed.

Lemma get_set k k' v d :
  Dict.get k (Dict.set k' v d) =
  if decide (k = k') then Some v else Dict.get k d.
Proof.
  induction d as [|[k0 v0] d IH]; simpl.
  - reflexivity.
  - destruct (decide (k' = k0)) as [-> | Hne]; simpl.
    + destruct (decide (k = k0)); reflexivity.
    + rewrite IH. destruct (decide (k = k0)) as [-> | ?]; [|reflexivity].
      now rewrite decide_False by congruence.
Qed.

Lemma NoDup_keys_set k v d :
  NoDup (Dict.keys d) -> NoDup (Dict.keys (Dict.set k v d)).
Proof.
  intros Hd. rewrite keys_set. unfold Dict.mem.
  destruct (Dict.get k d) eqn:E; [exact Hd|].
  apply get_None_not_key in E.
  apply NoDup_app. split; [exact Hd|]. split; [|apply NoDup_singleton].
  intros x Hx Hx'. apply list_elem_of_singleton in Hx'. congruence.
Qed.

Lemma NoDup_keys_remove k d :
  NoDup (Dict.keys d) -> NoDup (Dict.keys (Dict.remove k d)).
Proof.
  unfold Dict.keys. induction d as [|[k' v'] d IH]; simpl; intros Hd; [exact Hd|].
  apply NoDup_cons in Hd as [Hk Hd].
  destruct (decide (k = k')); [exact Hd|].
  rewrite fmap_cons. apply NoDup_cons. split; [|auto].
  intros Hin. apply Hk. now apply (keys_remove_subseteq k d).
Qed.

Lemma get_app_notin k d1 d2 :
  k ∉ Dict.keys d1 -> Dict.get k (d1 ++ d2) = Dict.get k d2.
Proof.
  unfold Dict.keys. induction d1 as [|[k' v'] d1 IH]; simpl; intros Hk; [reflexivity|].
  apply not_elem_of_cons in Hk as [Hne Hk].
  rewrite decide_False by exact Hne. auto.
Qed.

Lemma remove_app_notin k d1 d2 :
  k ∉ Dict.keys d1 -> Dict.remove k (d1 ++ d2) = d1 ++ Dict.remove k d2.
Proof.
  unfold Dict.keys. induction d1 as [|[k' v'] d1 IH]; simpl; intros Hk; [reflexivity|].
  apply not_elem_of_cons in Hk as [Hne Hk].
  rewrite decide_False by exact Hne. f_equal. auto.
Qed.

Lemma get_here k v d : Dict.get k ((k, v) :: d) = Some v.
Proof. simpl. now rewrite decide_True. Qed.

Lemma remove_here k v d : Dict.remove k ((k, v) :: d) = d.
Proof. simpl. now rewrite decide_True. Qed.

End DictFacts.
End DictFacts.

(** ** The performance tracker *)

Module TrackerFacts.
Import PerformanceTracker TrackerSpec.

Lemma Qle_bool_total (x y : Q) : Qle_bool x y = false -> (y <= x)%Q.
Proof.
  intros H. destruct (Qlt_le_dec x y) as [Hlt | Hle]; [|exact Hle].
  apply Qlt_le_weak in Hlt. apply Qle_bool_iff in Hlt. congruence.
Qed.

Lemma insert_sorted_perm (x : Q) (l : list Q) :
  Permutation (Py.insert_sorted x l) (x :: l).
Proof.
  induction l as [|y l IH]; simpl; [reflexivity|].
  destruct (Qle_bool x y); [reflexivity|].
  rewrite IH. apply perm_swap.
Qed.

Lemma insert_sorted_HdRel (a x : Q) (l : list Q) :
  (a <= x)%Q -> HdRel Qle a l -> HdRel Qle a (Py.insert_sorted x l).
Proof.
  intros Hax Hl. destruct l as [|y l]; simpl.
  - now constructor.
  - destruct (Qle_bool x y); constructor; [exact Hax|].
    now inversion Hl.
Qed.

Lemma insert_sorted_Sorted (x : Q) (l : list Q) :
  Sorted Qle l -> Sorted Qle (Py.insert_sorted x l).
Proof.
  induction 1 as [|y l Hs IH Hd]; simpl.
  - repeat constructor.
  - destruct (Qle_bool x y) eqn:E.
    + constructor; [now constructor|]. constructor. now apply Qle_bool_iff.
    + constructor; [exact IH|].
      apply insert_sorted_HdRel; [now apply Qle_bool_total | exact Hd].
Qed.

(** [sorted] returns its argument in ascending order. *)
Lemma sorted_Sorted (l : list Q) : Sorted Qle (Py.sorted l).
Proof.
  unfold Py.sorted. induction l as [|x l IH]; simpl; [constructor|].
  now apply insert_sorted_Sorted.
Qed.

Lemma sorted_perm (l : list Q) : Permutation (Py.sorted l) l.
Proof.
  unfold Py.sorted. induction l as [|x l IH]; simpl; [reflexivity|].
  rewrite insert_sorted_perm. now constructor.
Qed.

Lemma sorted_length (l : list Q) : length (Py.sorted l) = length l.
Proof. apply Permutation_length, sorted_perm. Qed.

(** On a list no longer than the history bound, the double product
    truncates to [floor(0.95 * n)]. *)
Lemma int_mul_095_floor (n : nat) :
  (n <= 1000)%nat ->
  Binary64.int_mul_095 (Z.of_nat n) = 95 * Z.of_nat n / 100.
Proof.
  intros Hn.
  assert (Hall : forallb (fun k : nat =>
            Binary64.int_mul_095 (Z.of_nat k) =? 95 * Z.of_nat k / 100)
            (seq 0 1001) = true) by (vm_compute; reflexivity).
  rewrite forallb_forall in Hall.
  apply Z.eqb_eq, Hall, in_seq. lia.
Qed.

Lemma durations_length (trs : list PerformanceData.t) :
  (length (durations_of trs) <= length trs)%nat.
Proof.
  unfold durations_of. induction trs as [|x trs IH]; simpl; [lia|].
  change (list_omap _ _ PerformanceData.duration_ms trs)
    with (omap PerformanceData.duration_ms trs).
  destruct (PerformanceData.duration_ms x); simpl; lia.
Qed.

Lemma init_within_capacity (rt : Py.runtime) (dir : string) :
  within_capacity (init rt dir).
Proof. constructor. Qed.

Lemma end_trace_within_capacity (rt : Py.runtime) (s : t) (trace_id : string)
    (success : bool) (now : Q) :
  within_capacity s -> within_capacity (end_trace rt s trace_id success now).1.
Proof.
  unfold within_capacity, end_trace. intros Hs.
  destruct (traces s !! trace_id) as [tr|]; [|exact Hs].
  cbn [fst historical_data]. apply DictFacts.Forall_set; [exact Hs|].
  cbn [snd].
  set (cat := PerformanceData.category _).
  assert (Hold : (length (default [] (Dict.get cat (historical_data s))) <= 1000)%nat).
  { destruct (Dict.get cat (historical_data s)) as [old|] eqn:E; simpl; [|lia].
    apply DictFacts.get_elem_of in E.
    rewrite Forall_forall in Hs. apply (Hs _ E). }
  assert (Hz : Z.of_nat (length (default [] (Dict.get cat (historical_data s))))
               <= 1000) by lia.
  match goal with
  | |- (length (Py.append_capped 1000 ?l ?r) <= 1000)%nat =>
      pose proof (CapFacts.append_capped_length 1000 l r ltac:(lia) Hz) as Hc
  end.
  lia.
Qed.

(** The millisecond of a trace id is taken from the rounded product: at the
    clock reading nearest to 1741953600.001 the product of doubles is the
    full millisecond 1741953600001, which the exact product just misses. *)
Lemma ms_of_rounds_the_product :
  let now := Binary64.round (1741953600001 # 1000) in
  ms_of now = 1741953600001 /\ Py.int_of_float (now * 1000) = 1741953600000.
Proof. vm_compute. split; reflexivity. Qed.

Lemma start_trace_within_capacity (rt : Py.runtime) (s : t) (name category : string)
    (request_id parent : option string)
    (metadata : option (list (string * Py.value))) (now_id now_start : Q) :
  within_capacity s ->
  within_capacity
    (start_trace rt s name category request_id parent metadata now_id now_start).1.
Proof. intros Hs. exact Hs. Qed.

End TrackerFacts.

(** ** Claims on the performance tracker *)

Module TrackerClaims.
Import PerformanceTracker TrackerSpec TrackerFacts.

(** C2. For every category reported by [get_performance_metrics], over a
    history within the bound [end_trace] keeps: with fewer than 20
    durations p95 is absent; otherwise it is the element at zero-based index
    [floor(0.95 * count)] of the durations sorted ascending.  For the twenty
    values 1..20 that is index 19, the value 20. *)
Theorem C2_p95_is_sorted_element_at_floor_095 (s : t) (category : string)
    (m : category_metrics) :
  within_capacity s ->
  (category, m) ∈ get_performance_metrics s ->
  (exists trs,
     (category, trs) ∈ historical_data s /\
     let durations := durations_of trs in
     let n := length durations in
     count m = Z.of_nat n /\
     Sorted Qle (Py.sorted durations) /\
     Permutation (Py.sorted durations) durations /\
     ((n < 20)%nat -> p95_ms m = None) /\
     ((20 <= n)%nat ->
      exists v, p95_ms m = Some v /\
                Py.sorted durations !! Z.to_nat (95 * Z.of_nat n / 100) = Some v)) /\
  p95 (map inject_Z [1; 2; 3; 4; 5; 6; 7; 8; 9; 10; 11; 12; 13; 14; 15; 16; 17;
                     18; 19; 20]) = Some (inject_Z 20).
Proof.
  intros Hcap Hin. split; [|reflexivity].
  unfold get_performance_metrics in Hin.
  apply list_elem_of_omap in Hin as ([cat trs] & Hin & Hm).
  simpl in Hm. unfold metrics_of_category in Hm.
  destruct (durations_of trs) as [|d0 ds] eqn:Ed; [discriminate Hm|].
  simpl in Hm. injection Hm as <- <-.
  exists trs. split; [exact Hin|]. rewrite Ed.
  cbn [count p95_ms]. cbn zeta.
  set (durations := d0 :: ds).
  assert (Hn : (length durations <= 1000)%nat).
  { unfold within_capacity in Hcap. rewrite Forall_forall in Hcap.
    pose proof (Hcap _ Hin) as Hl. simpl in Hl.
    pose proof (durations_length trs) as Hd. rewrite Ed in Hd.
    fold durations in Hd. lia. }
  split; [reflexivity|].
  split; [apply sorted_Sorted|].
  split; [apply sorted_perm|].
  unfold p95. split.
  - intros Hlt. destruct (Z.leb_spec 20 (Z.of_nat (length durations))); [lia | reflexivity].
  - intros Hge. destruct (Z.leb_spec 20 (Z.of_nat (length durations))); [|lia].
    rewrite (int_mul_095_floor _ Hn).
    destruct (lookup_lt_is_Some_2 (Py.sorted durations)
                (Z.to_nat (95 * Z.of_nat (length durations) / 100))) as [v Hv].
    { rewrite sorted_length.
      assert (95 * Z.of_nat (length durations) / 100 < Z.of_nat (length durations)).
      { apply Z.div_lt_upper_bound; lia. }
      assert (0 <= 95 * Z.of_nat (length durations) / 100).
      { apply Z.div_pos; lia. }
      lia. }
    exists v. split; exact Hv.
Qed.

(** C2 on the tracker with the twenty spans of 1 ms .. 20 ms. *)
Lemma C2_witness :
  within_capacity Sample.twenty_spans /\
  exists m, Dict.get "api" (get_performance_metrics Sample.twenty_spans) = Some m /\
            p95_ms m = Some (inject_Z 20) /\
            exists v, p95_ms m = Some v /\
                      Py.sorted (map inject_Z [1; 2; 3; 4; 5; 6; 7; 8; 9; 10; 11;
                                               12; 13; 14; 15; 16; 17; 18; 19; 20])
                        !! 19%nat = Some v.
Proof.
  assert (Hcap : within_capacity Sample.twenty_spans).
  { constructor; [simpl; lia | constructor]. }
  split; [exact Hcap|].
  destruct (Dict.get "api" (get_performance_metrics Sample.twenty_spans)) as [m|] eqn:E;
    [|vm_compute in E; discriminate E].
  exists m. split; [reflexivity|].
  destruct (C2_p95_is_sorted_element_at_floor_095 Sample.twenty_spans "api" m Hcap
              (DictFacts.get_elem_of _ _ _ E)) as [(trs & Hin & _ & _ & _ & _ & Hp) _].
  assert (Et : trs = map Sample.span [1; 2; 3; 4; 5; 6; 7; 8; 9; 10; 11; 12; 13; 14; 15;
                               16; 17; 18; 19; 20]).
  { apply list_elem_of_singleton in Hin. now injection Hin. }
  subst trs. destruct (Hp ltac:(simpl; lia)) as (v & E1 & E2).
  split.
  - vm_compute in E. now injection E as <-.
  - exists v. split; [exact E1 | exact E2].
Defined.

(** C3, as the code has it.  The id returned by [start_trace] is built
    from the name, the millisecond timestamp [int(time.time() * 1000)] and a
    hash of the name, and two calls return the same id exactly when they
    give the same name within the same millisecond.  Each call leaves its
    span open under the id it returns; so when the second call returns the
    id of a span that is still open, its span replaces that one: the id
    denotes the second span and no entry is added to the open traces. *)
Theorem C3_trace_id_determined_by_name_and_ms (rt : Py.runtime) (s1 s2 : t)
    (name1 name2 category1 category2 : string)
    (request_id1 request_id2 parent1 parent2 : option string)
    (metadata1 metadata2 : option (list (string * Py.value)))
    (now1 start1 now2 start2 : Q) :
  let r1 := start_trace rt s1 name1 category1 request_id1 parent1 metadata1
              now1 start1 in
  let r2 := start_trace rt s2 name2 category2 request_id2 parent2 metadata2
              now2 start2 in
  r1.2 = name1 +:+ "_" +:+ Py.str_int (ms_of now1) +:+ "_" +:+
         Py.str_int (Py.hash rt name1 mod 10000) /\
  (r1.2 = r2.2 <-> name1 = name2 /\ ms_of now1 = ms_of now2) /\
  traces r1.1 !! r1.2 =
    Some (opened name1 category1 request_id1 parent1 metadata1 start1) /\
  (r1.2 = r2.2 -> is_Some (traces s2 !! r1.2) ->
   traces r2.1 !! r1.2 =
     Some (opened name2 category2 request_id2 parent2 metadata2 start2) /\
   size (traces r2.1) = size (traces s2) /\
   forall k, k <> r1.2 -> traces r2.1 !! k = traces s2 !! k).
Proof.
  cbn zeta. cbn [start_trace fst snd traces]. unfold opened.
  split; [reflexivity|]. split; [|split].
  - unfold trace_id_of, ms_of. split.
    + intros H.
      assert (R : forall n d h : string,
                n +:+ "_" +:+ d +:+ "_" +:+ h = (n +:+ "_" +:+ d) +:+ "_" +:+ h).
      { intros. now rewrite !StrFacts.app_assoc. }
      rewrite (R name1), (R name2) in H.
      apply StrFacts.split_last_underscore in H as [H _];
        try apply StrFacts.underscores_str_int.
      apply StrFacts.split_last_underscore in H as [H1 H2];
        try apply StrFacts.underscores_str_int.
      split; [exact H1 | now apply StrFacts.str_int_inj].
    + intros [-> ->]. reflexivity.
  - apply lookup_insert_eq.
  - intros E Hopen. rewrite <- E. repeat apply conj.
    + apply lookup_insert_eq.
    + now apply map_size_insert_Some.
    + intros k Hk. now apply lookup_insert_ne.
Qed.

(** Two [start_trace] calls with the same name a quarter of a millisecond
    apart, at clock readings 1000 + 1/4096 s and 1000 + 2/4096 s, both in
    millisecond 1000000: the ids coincide and the second span has replaced
    the first. *)
Lemma C3_same_name_same_ms_collide :
  let s0 := init Sample.rt "performance" in
  let r1 := start_trace Sample.rt s0 "op" "api" None None None
              (4096001 # 4096) (4096001 # 4096) in
  let r2 := start_trace Sample.rt r1.1 "op" "api" None None None
              (4096002 # 4096) (4096002 # 4096) in
  r1.2 = r2.2 /\ r1.2 = "op_1000000_5838" /\ size (traces r2.1) = 1%nat /\
  PerformanceData.start_time <$> (traces r2.1 !! r1.2) = Some (4096002 # 4096).
Proof. vm_compute. auto. Qed.

End TrackerClaims.

(** ** Alert ids and detector keys *)

Module KeyFacts.
Import AlertSystem AlertSpec.

(** No alert id is a key of the performance detector. *)
Lemma alert_id_ne_performance_key (k category : string) (now : Py.datetime) :
  is_alert_id k -> k <> performance_alert_key category now.
Proof.
  intros (rt & ty & msg & dt & ->) H.
  unfold alert_id_of, performance_alert_key in H.
  destruct ty; unfold AlertType.value in H;
    try (rewrite !StrFacts.app_cons in H; discriminate H).
  change ("performance" +:+ "_" +:+ Py.strftime_YmdHMS dt +:+ "_" +:+
          Py.str_int (Py.hash rt msg mod 10000))
    with ("performance_" +:+ Py.strftime_YmdHMS dt +:+ "_" +:+
          Py.str_int (Py.hash rt msg mod 10000)) in H.
  apply (inj (String.app "performance_")) in H.
  apply (f_equal StrSpec.underscores) in H.
  rewrite !StrFacts.underscores_app, StrFacts.underscores_YmdHMS,
    StrFacts.underscores_str_int, StrFacts.underscores_Ymd_H in H.
  simpl in H. lia.
Qed.


Lemma not_mem_performance_key (d : list (string * Alert.t)) (category : string)
    (now : Py.datetime) :
  Forall is_alert_id (Dict.keys d) ->
  Dict.mem (performance_alert_key category now) d = false.
Proof.
  intros Hd. unfold Dict.mem.
  destruct (Dict.get _ d) as [a|] eqn:E; [|reflexivity].
  apply DictFacts.get_elem_of in E.
  apply (list_elem_of_fmap_2 fst) in E. simpl in E.
  rewrite Forall_forall in Hd.
  now destruct (alert_id_ne_performance_key _ category now (Hd _ E)).
Qed.


End KeyFacts.

(** ** The alert system *)

Module AlertFacts.
Import AlertSystem AlertSpec KeyFacts.

Lemma trigger_inv (rt : Py.runtime) (s : t) ty sev msg det now :
  inv s -> inv (trigger_alert rt s ty sev msg det now).1.
Proof.
  intros (H1 & H2 & H3 & H4). unfold inv, trigger_alert. cbn [fst active_alerts
    thresholds resolved_alerts].
  split; [now apply DictFacts.NoDup_keys_set|].
  split; [|split; assumption].
  rewrite DictFacts.keys_set. destruct (Dict.mem _ _); [exact H2|].
  apply Forall_app. split; [exact H2|]. constructor; [|constructor].
  now exists rt, ty, msg, now.
Qed.

Lemma resolve_inv (s : t) alert_id msg now :
  inv s -> inv (resolve_alert s alert_id msg now).1.
Proof.
  intros (H1 & H2 & H3 & H4). unfold inv, resolve_alert.
  destruct (Dict.get alert_id (active_alerts s)) as [a|]; [|now repeat split].
  cbn [fst active_alerts thresholds resolved_alerts].
  split; [now apply DictFacts.NoDup_keys_remove|].
  split; [|split; [assumption|]].
  - rewrite Forall_forall in *. intros k Hk. apply H2.
    now apply (DictFacts.keys_remove_subseteq alert_id).
  - apply CapFacts.append_capped_length; lia.
Qed.

Lemma foldl_inv {A : Type} (f : t -> A -> t) (l : list A) (s : t) :
  (forall s x, inv s -> inv (f s x)) -> inv s -> inv (foldl f s l).
Proof.
  intros Hf. revert s. induction l as [|x l IH]; simpl; auto.
Qed.

Lemma check_category_inv rt now s entry :
  inv s -> inv (check_category rt now s entry).
Proof.
  intros Hs. unfold check_category.
  destruct (Dict.get AlertType.PERFORMANCE (thresholds s)) as [th|]; [|exact Hs].
  destruct (th !! _) as [thr|]; [|exact Hs].
  destruct (PerformanceTracker.p95_ms entry.2) as [p|]; [|exact Hs].
  destruct (_ && _); [|exact Hs].
  destruct (negb _); [|exact Hs].
  now apply trigger_inv.
Qed.

Lemma check_error_rate_inv rt s mc now :
  inv s -> inv (_check_error_rate_alerts rt s mc now).
Proof.
  intros Hs. unfold _check_error_rate_alerts.
  destruct (Dict.get AlertType.ERROR_RATE (thresholds s)) as [th|]; [|exact Hs].
  destruct (_ && _); [|exact Hs].
  destruct (negb _); [|exact Hs].
  now apply trigger_inv.
Qed.

Lemma sweep_item_inv rt pt now s item :
  inv s -> inv (sweep_item rt pt now s item).
Proof.
  intros Hs. unfold sweep_item.
  destruct (recovered pt item.2) as [[[c p] thr]|]; [|exact Hs].
  now apply resolve_inv.
Qed.

Lemma cycle_inv rt s pt mc now : inv s -> inv (monitor_cycle rt s pt mc now).
Proof.
  intros Hs. unfold monitor_cycle, _auto_resolve_alerts, _check_performance_alerts.
  set (s1 := foldl (check_category rt now) s _).
  assert (H1 : inv s1) by (apply foldl_inv; auto using check_category_inv).
  set (s2 := _check_error_rate_alerts rt s1 mc now).
  assert (H2 : inv s2) by now apply check_error_rate_inv.
  generalize (active_alerts s2). intros l.
  apply foldl_inv; auto using sweep_item_inv.
Qed.

Lemma register_handler_inv s ty h : inv s -> inv (register_handler s ty h).
Proof. intros Hs. exact Hs. Qed.

Lemma set_threshold_inv rt s ty key v : inv s -> inv (set_threshold rt s ty key v).
Proof.
  intros (H1 & H2 & H3 & H4). unfold inv, set_threshold.
  cbn [active_alerts thresholds resolved_alerts].
  repeat split; try assumption.
  rewrite DictFacts.get_set. destruct (decide _); [eauto | exact H3].
Qed.

Lemma init_inv (dir : string) : inv (init dir).
Proof.
  unfold inv. cbn. repeat split.
  - constructor.
  - constructor.
  - eauto.
  - lia.
Qed.

Lemma reachable_inv (rt : Py.runtime) (s : t) : reachable rt s -> inv s.
Proof.
  induction 1;
    auto using init_inv, register_handler_inv, set_threshold_inv, trigger_inv,
      resolve_inv, cycle_inv.
Qed.


Lemma sweep_fold (rt : Py.runtime) (pt : PerformanceTracker.t) (now : Py.datetime)
    (l : list (string * Alert.t)) :
  forall (s : t) (kept : list (string * Alert.t)),
    active_alerts s = kept ++ l ->
    NoDup (Dict.keys (kept ++ l)) ->
    active_alerts (foldl (sweep_item rt pt now) s l) = kept ++ filter (stays pt) l /\
    resolved_alerts (foldl (sweep_item rt pt now) s l) =
      foldl (Py.append_capped 1000) (resolved_alerts s) (omap (resolution rt pt now) l).
Proof.
  induction l as [|[k a] l IH]; intros s kept Hact Hnd.
  - simpl. rewrite Hact. auto.
  - assert (Hk : (k ∉ Dict.keys kept) /\ NoDup (Dict.keys (kept ++ l))).
    { unfold Dict.keys in *. rewrite fmap_app, fmap_cons in Hnd.
      apply NoDup_app in Hnd as (N1 & N2 & N3). apply NoDup_cons in N3 as [N3 N4].
      split.
      - intros Hin. apply (N2 _ Hin). apply list_elem_of_here.
      - rewrite fmap_app. apply NoDup_app. split; [exact N1|]. split; [|exact N4].
        intros x Hx Hx'. apply (N2 _ Hx). now apply list_elem_of_further. }
    destruct Hk as [Hk Hnd'].
    assert (Eo : omap (resolution rt pt now) ((k, a) :: l) =
                 match resolution rt pt now (k, a) with
                 | Some y => y :: omap (resolution rt pt now) l
                 | None => omap (resolution rt pt now) l
                 end) by reflexivity.
    rewrite Eo. clear Eo.
    cbn [foldl]. unfold sweep_item at 2 4, resolution at 1. cbn [fst snd].
    destruct (recovered pt a) as [[[c p] thr]|] eqn:Er.
    + rewrite filter_cons_False
        by (unfold stays; cbn [snd]; rewrite Er; intros H; apply H; eauto).
      unfold resolve_alert. rewrite Hact.
      rewrite DictFacts.get_app_notin, DictFacts.get_here by exact Hk.
      cbn [fst foldl].
      match goal with |- context [foldl (sweep_item rt pt now) ?s0 l] =>
        set (s1 := s0) end.
      destruct (IH s1 kept) as [A R].
      { subst s1. cbn [active_alerts].
        now rewrite DictFacts.remove_app_notin, DictFacts.remove_here by exact Hk. }
      { exact Hnd'. }
      split; [exact A | exact R].
    + rewrite filter_cons_True
        by (unfold stays; cbn [snd]; rewrite Er; intros [x Hx]; discriminate Hx).
      destruct (IH s (kept ++ [(k, a)])) as [A R].
      { rewrite Hact, <- app_assoc. reflexivity. }
      { rewrite <- app_assoc. exact Hnd. }
      rewrite <- app_assoc in A. split; [exact A | exact R].
Qed.

Lemma gt_true_iff (x y : Q) : Py.gt x y = true <-> (y < x)%Q.
Proof.
  unfold Py.gt. rewrite negb_true_iff. split.
  - intros H. apply Qnot_le_lt. intros Hle. apply Qle_bool_iff in Hle. congruence.
  - intros H. destruct (Qle_bool x y) eqn:E; [|reflexivity].
    apply Qle_bool_iff in E. exfalso. exact (Qlt_not_le _ _ H E).
Qed.

Lemma lt_true_iff (x y : Q) : Py.lt x y = true <-> (x < y)%Q.
Proof. apply gt_true_iff. Qed.

Lemma truthy_true_iff (x : Q) : Py.truthy x = true <-> ~ (x == 0)%Q.
Proof.
  unfold Py.truthy. rewrite negb_true_iff. split.
  - intros H E. apply Qeq_bool_iff in E. congruence.
  - intros H. destruct (Qeq_bool x 0) eqn:E; [|reflexivity].
    apply Qeq_bool_iff in E. contradiction.
Qed.

End AlertFacts.

(** ** Claims on the alert system *)

Module AlertClaims.
Import AlertSystem AlertSpec KeyFacts AlertFacts.

(** The detector's key is never a key of [active_alerts], so on a category
    over its threshold the detector triggers whatever is already active. *)
Lemma check_category_never_skips (rt : Py.runtime) (now : Py.datetime) (s : t)
    (category : string) (m : PerformanceTracker.category_metrics)
    (th : gmap string Q) (thr p : Q) :
  inv s ->
  Dict.get AlertType.PERFORMANCE (thresholds s) = Some th ->
  th !! (category +:+ "_ms") = Some thr ->
  PerformanceTracker.p95_ms m = Some p ->
  Py.truthy p && Py.gt p thr = true ->
  exists det,
    check_category rt now s (category, m) =
    (trigger_alert rt s AlertType.PERFORMANCE AlertSeverity.WARNING
       (performance_message rt category p thr) (Some det) now).1 /\
    Alert.category det = Some category.
Proof.
  intros (_ & Hk & _) Hth Hthr Hp Hc. unfold check_category. cbn [fst snd].
  rewrite Hth, Hthr, Hp, Hc.
  rewrite (not_mem_performance_key _ category now Hk). cbn [negb].
  eexists. split; reflexivity.
Qed.

(** C1, evaluated.  The p95 of [api_request] stays over its threshold; the
    detector runs at 12:00:00 and again at 12:01:00.  Both runs compute the
    same key for the hour, yet the second run triggers again: two
    performance alerts for the category are active. *)
Theorem C1_second_cycle_triggers_again :
  let pt := Sample.steady "api_request" 3000 in
  let s1 := _check_performance_alerts Sample.rt (init "alerts") pt
              (Sample.at_time 12 0 0) in
  let s2 := _check_performance_alerts Sample.rt s1 pt (Sample.at_time 12 1 0) in
  performance_alert_key "api_request" (Sample.at_time 12 0 0) =
    performance_alert_key "api_request" (Sample.at_time 12 1 0) /\
  Dict.keys (active_alerts s1) = ["performance_20250314120000_1034"] /\
  Dict.keys (active_alerts s2) =
    ["performance_20250314120000_1034"; "performance_20250314120100_1034"] /\
  map (fun kv => (Alert.type kv.2, Alert.category (Alert.det kv.2), Alert.status kv.2))
      (active_alerts s2) =
    [("performance", Some "api_request", "active");
     ("performance", Some "api_request", "active")].
Proof. vm_compute. auto. Qed.



Lemma recovered_Some (pt : PerformanceTracker.t) (a : Alert.t) (c : string)
    (p thr : Q) :
  Alert.type a = "performance" ->
  Alert.category (Alert.det a) = Some c -> c <> "" ->
  p95_now pt c = Some p ->
  Alert.threshold_ms (Alert.det a) = Some thr ->
  ~ (p == 0)%Q -> ~ (thr == 0)%Q -> (p < thr)%Q ->
  recovered pt a = Some (c, p, thr).
Proof.
  intros Ht Hc Hne Hp Hthr Hp0 Hthr0 Hlt. unfold recovered, p95_now in *.
  rewrite Ht, Hc, Hthr. cbn [AlertType.value]. rewrite String.eqb_refl.
  unfold Py.nonempty. rewrite (proj2 (String.eqb_neq c "") Hne). cbn [negb].
  destruct (Dict.get c _) as [m|]; [|discriminate Hp]. simpl in Hp. rewrite Hp.
  rewrite (proj2 (truthy_true_iff p) Hp0), (proj2 (truthy_true_iff thr) Hthr0),
    (proj2 (lt_true_iff p thr) Hlt).
  reflexivity.
Qed.

Lemma recovered_None (pt : PerformanceTracker.t) (a : Alert.t) :
  Alert.type a <> "performance" \/
  (exists c, Alert.category (Alert.det a) = Some c /\
     (p95_now pt c = None \/
      exists p thr, p95_now pt c = Some p /\
                    Alert.threshold_ms (Alert.det a) = Some thr /\ (thr <= p)%Q)) ->
  recovered pt a = None.
Proof.
  unfold recovered, p95_now. intros [Ht | (c & Hc & H)].
  - cbn [AlertType.value]. now rewrite (proj2 (String.eqb_neq _ _) Ht).
  - rewrite Hc. destruct (String.eqb _ _); [|reflexivity].
    destruct (Py.nonempty c); [|reflexivity].
    destruct (Dict.get c _) as [m|]; [|reflexivity]. simpl in H.
    destruct H as [-> | (p & thr & -> & -> & Hle)]; [reflexivity|].
    destruct (Py.lt p thr) eqn:E.
    + apply lt_true_iff in E. exfalso. exact (Qlt_not_le _ _ E Hle).
    + now rewrite andb_false_r.
Qed.

(** The sweep where its guards let it through.  It resolves every active
    performance alert with a non-empty recorded category whose current p95
    is present, not zero and below the recorded, non-zero threshold: the
    alert leaves the active set and its record, stamped with a message
    citing the recovered p95, is appended to the resolved list, which keeps
    its newest 1000 entries.  A performance alert whose category has no
    p95, or a p95 at or above the recorded threshold, stays active, as does
    an alert of another type. *)
Lemma sweep_resolves_recovered_alerts (rt : Py.runtime) (s : t)
    (pt : PerformanceTracker.t) (now : Py.datetime) (alert_id : string)
    (a : Alert.t) :
  NoDup (Dict.keys (active_alerts s)) ->
  Z.of_nat (length (resolved_alerts s)) <= 1000 ->
  (alert_id, a) ∈ active_alerts s ->
  let s' := _auto_resolve_alerts rt s pt now in
  let appended := omap (resolution rt pt now) (active_alerts s) in
  resolved_alerts s' =
    drop (length (resolved_alerts s ++ appended) - 1000)
      (resolved_alerts s ++ appended) /\
  (forall c p thr,
     Alert.type a = "performance" ->
     Alert.category (Alert.det a) = Some c -> c <> "" ->
     p95_now pt c = Some p ->
     Alert.threshold_ms (Alert.det a) = Some thr ->
     ~ (p == 0)%Q -> ~ (thr == 0)%Q -> (p < thr)%Q ->
     Dict.get alert_id (active_alerts s') = None /\
     Alert.resolved a (Py.isoformat now) (recovery_message rt c p thr) ∈ appended) /\
  (Alert.type a <> "performance" \/
   (exists c, Alert.category (Alert.det a) = Some c /\
      (p95_now pt c = None \/
       exists p thr, p95_now pt c = Some p /\
                     Alert.threshold_ms (Alert.det a) = Some thr /\ (thr <= p)%Q)) ->
   Dict.get alert_id (active_alerts s') = Some a).
Proof.
  intros Hnd Hlen Hin s' appended.
  destruct (sweep_fold rt pt now (active_alerts s) s [] eq_refl Hnd) as [A R].
  fold (_auto_resolve_alerts rt s pt now) in A, R. fold s' in A, R.
  simpl in A.
  assert (Hsub : NoDup (Dict.keys (filter (stays pt) (active_alerts s)))).
  { eapply sublist_NoDup; [exact Hnd|].
    unfold Dict.keys. apply fmap_sublist, sublist_filter. }
  split; [|split].
  - rewrite R. now apply (CapFacts.foldl_append_capped 1000).
  - intros c p thr Ht Hc Hne Hp Hthr Hp0 Hthr0 Hlt.
    pose proof (recovered_Some pt a c p thr Ht Hc Hne Hp Hthr Hp0 Hthr0 Hlt) as Er.
    split.
    + rewrite A. apply DictFacts.get_None_not_key. intros Hk.
      unfold Dict.keys in Hk. apply list_elem_of_fmap in Hk as ([k a'] & Ek & Hk).
      simpl in Ek. subst k.
      apply list_elem_of_filter in Hk as [Hst Hk].
      pose proof (DictFacts.get_elem_of_NoDup _ _ _ Hnd Hin) as E1.
      pose proof (DictFacts.get_elem_of_NoDup _ _ _ Hnd Hk) as E2.
      assert (a' = a) by congruence. subst a'.
      apply Hst. simpl. rewrite Er. eauto.
    + apply list_elem_of_omap. exists (alert_id, a). split; [exact Hin|].
      unfold resolution. simpl. now rewrite Er.
  - intros H. pose proof (recovered_None pt a H) as Er.
    rewrite A. apply DictFacts.get_elem_of_NoDup; [exact Hsub|].
    apply list_elem_of_filter. split; [|exact Hin].
    unfold stays. simpl. rewrite Er. intros [x Hx]. discriminate Hx.
Qed.

(** On [Sample.degraded], swept when the p95 of [api_request] is back at
    100 ms: the alert is resolved with the message of the recovery. *)
Lemma sweep_resolves_at_100ms :
  let s' := _auto_resolve_alerts Sample.rt Sample.degraded
              (Sample.steady "api_request" 100) (Sample.at_time 12 2 0) in
  Dict.get "performance_20250314120000_1034" (active_alerts s') = None /\
  map Alert.resolution_message (resolved_alerts s') =
    [Some "Performance recovered: api_request p95 latency now 100.00ms (below threshold 2000ms)"].
Proof.
  intros s'.
  destruct (Dict.get "performance_20250314120000_1034" (active_alerts Sample.degraded))
    as [a|] eqn:Ea; [|vm_compute in Ea; discriminate Ea].
  assert (Hnd : NoDup (Dict.keys (active_alerts Sample.degraded))).
  { vm_compute. apply NoDup_singleton. }
  assert (Hlen : Z.of_nat (length (resolved_alerts Sample.degraded)) <= 1000)
    by (vm_compute; discriminate).
  destruct (sweep_resolves_recovered_alerts Sample.rt Sample.degraded
              (Sample.steady "api_request" 100) (Sample.at_time 12 2 0)
              _ a Hnd Hlen (DictFacts.get_elem_of _ _ _ Ea)) as (_ & H & _).
  vm_compute in Ea. injection Ea as <-.
  destruct (H "api_request" 100%Q 2000%Q) as [H1 _];
    try (vm_compute; reflexivity); try discriminate.
  split; [exact H1 | vm_compute; reflexivity].
Qed.

(** The test of the sweep rejects a p95 of zero. *)
Lemma recovered_zero (pt : PerformanceTracker.t) (a : Alert.t) (c : string)
    (p : Q) :
  Alert.category (Alert.det a) = Some c ->
  p95_now pt c = Some p -> (p == 0)%Q ->
  recovered pt a = None.
Proof.
  intros Hc Hp Hp0. unfold recovered, p95_now in *. rewrite Hc.
  destruct (String.eqb _ _); [|reflexivity].
  destruct (Py.nonempty c); [|reflexivity].
  destruct (Dict.get c _) as [m|]; [|reflexivity]. simpl in Hp. rewrite Hp.
  destruct (Alert.threshold_ms (Alert.det a)) as [thr|]; [|reflexivity].
  assert (E : Py.truthy p = false).
  { unfold Py.truthy. apply negb_false_iff. now apply Qeq_bool_iff. }
  now rewrite E.
Qed.

(** C4 fails in the code.  An active performance alert whose category's
    current p95 is 0, below the threshold it recorded, is not resolved by
    the sweep: the guard [if p95_ms and threshold_ms and p95_ms <
    threshold_ms], written against a missing p95, takes the p95 of 0.0 for
    a missing one.  The alert stays active and the sweep archives nothing
    for it. *)
Theorem C4_zero_p95_is_not_resolved (rt : Py.runtime) (s : t)
    (pt : PerformanceTracker.t) (now : Py.datetime) (alert_id : string)
    (a : Alert.t) (c : string) (p thr : Q) :
  NoDup (Dict.keys (active_alerts s)) ->
  (alert_id, a) ∈ active_alerts s ->
  Alert.type a = "performance" ->
  Alert.category (Alert.det a) = Some c ->
  Alert.threshold_ms (Alert.det a) = Some thr ->
  p95_now pt c = Some p -> (p == 0)%Q -> (p < thr)%Q ->
  let s' := _auto_resolve_alerts rt s pt now in
  Dict.get alert_id (active_alerts s') = Some a /\
  resolution rt pt now (alert_id, a) = None.
Proof.
  intros Hnd Hin Ht Hc Hthr Hp Hp0 Hlt s'.
  pose proof (recovered_zero pt a c p Hc Hp Hp0) as Er.
  destruct (sweep_fold rt pt now (active_alerts s) s [] eq_refl Hnd) as [A _].
  fold (_auto_resolve_alerts rt s pt now) in A. fold s' in A. simpl in A.
  assert (Hsub : NoDup (Dict.keys (filter (stays pt) (active_alerts s)))).
  { eapply sublist_NoDup; [exact Hnd|].
    unfold Dict.keys. apply fmap_sublist, sublist_filter. }
  split.
  - rewrite A. apply DictFacts.get_elem_of_NoDup; [exact Hsub|].
    apply list_elem_of_filter. split; [|exact Hin].
    unfold stays. simpl. rewrite Er. intros [x Hx]. discriminate Hx.
  - unfold resolution. simpl. now rewrite Er.
Qed.

(** C4 on [Sample.degraded], whose one active alert recorded the category
    [api_request] and the threshold 2000 ms, swept when the twenty spans of
    [api_request] all took 0 ms: the p95 of 0 is below 2000, the alert is
    still active and the resolved list is still empty. *)
Lemma C4_witness :
  let pt := Sample.steady "api_request" 0 in
  let s' := _auto_resolve_alerts Sample.rt Sample.degraded pt (Sample.at_time 12 2 0) in
  map (fun kv => (kv.1, Alert.type kv.2, Alert.category (Alert.det kv.2),
                  Alert.threshold_ms (Alert.det kv.2)))
      (active_alerts Sample.degraded) =
    [("performance_20250314120000_1034", "performance", Some "api_request",
      Some 2000%Q)] /\
  p95_now pt "api_request" = Some 0%Q /\
  (0 < 2000)%Q /\
  Dict.get "performance_20250314120000_1034" (active_alerts s') =
    Dict.get "performance_20250314120000_1034" (active_alerts Sample.degraded) /\
  is_Some (Dict.get "performance_20250314120000_1034" (active_alerts s')) /\
  resolved_alerts s' = [].
Proof.
  intros pt s'.
  destruct (Dict.get "performance_20250314120000_1034" (active_alerts Sample.degraded))
    as [a|] eqn:Ea; [|vm_compute in Ea; discriminate Ea].
  assert (Hnd : NoDup (Dict.keys (active_alerts Sample.degraded))).
  { vm_compute. apply NoDup_singleton. }
  assert (Hp : p95_now pt "api_request" = Some 0%Q) by (vm_compute; reflexivity).
  assert (Hlt : (0 < 2000)%Q) by reflexivity.
  assert (Ha : Alert.type a = "performance" /\
               Alert.category (Alert.det a) = Some "api_request" /\
               Alert.threshold_ms (Alert.det a) = Some 2000%Q).
  { vm_compute in Ea. injection Ea as <-. repeat split. }
  destruct Ha as (Ht & Hc & Hthr).
  destruct (C4_zero_p95_is_not_resolved Sample.rt Sample.degraded pt
              (Sample.at_time 12 2 0) _ a "api_request" 0%Q 2000%Q Hnd
              (DictFacts.get_elem_of _ _ _ Ea) Ht Hc Hthr Hp (Qeq_refl 0) Hlt)
    as [Hact _].
  fold s' in Hact.
  repeat apply conj.
  - vm_compute. reflexivity.
  - exact Hp.
  - exact Hlt.
  - exact Hact.
  - rewrite Hact. eauto.
  - vm_compute. reflexivity.
Defined.

End AlertClaims.

(** ** Further properties of the metrics collector *)

Module CollectorExtras.
Import MetricsCollector CollectorSpec CollectorFacts CollectorTrace.

Lemma count_incr_eq (k : string) (c : list (string * Z)) :
  Counter.count k (Counter.incr k c) = Counter.count k c + 1.
Proof.
  unfold Counter.incr, Counter.count at 1.
  rewrite DictFacts.get_set, decide_True by reflexivity. reflexivity.
Qed.

Lemma count_incr_ne (k k' : string) (c : list (string * Z)) :
  k <> k' -> Counter.count k (Counter.incr k' c) = Counter.count k c.
Proof.
  intros Hne. unfold Counter.incr, Counter.count at 1.
  rewrite DictFacts.get_set, decide_False by exact Hne. reflexivity.
Qed.

Lemma total_app (l1 l2 : list Z) : total (l1 ++ l2) = total l1 + total l2.
Proof. unfold total. induction l1 as [|x l1 IH]; simpl; lia. Qed.

Lemma accumulated_nil (rid : string) (c : MetricsContext.t) :
  accumulated rid [] c c.
Proof.
  unfold accumulated, guardrail_blocks_for, tool_calls_for, agent_calls_for.
  simpl. rewrite app_nil_r. repeat apply conj; intros; lia || reflexivity.
Qed.

Lemma accumulated_app (rid : string) (cs1 cs2 : list call)
    (c c1 c2 : MetricsContext.t) :
  accumulated rid cs1 c c1 -> accumulated rid cs2 c1 c2 ->
  accumulated rid (cs1 ++ cs2) c c2.
Proof.
  unfold accumulated, errors_for, llm_calls_for, guardrail_blocks_for,
    tool_calls_for, agent_calls_for.
  intros (A1 & A2 & A3 & A4 & A5 & A6 & A7 & A8 & A9 & A10 & A11)
         (B1 & B2 & B3 & B4 & B5 & B6 & B7 & B8 & B9 & B10 & B11).
  rewrite !omap_app, !fmap_app, !total_app, !length_app.
  repeat apply conj; try congruence.
  - rewrite B5, A5. now rewrite app_assoc.
  - lia.
  - lia.
  - lia.
  - lia.
  - intros tool. rewrite omap_app, length_app, B10, A10. lia.
  - intros agent. rewrite omap_app, length_app, B11, A11. lia.
Qed.

(** The effect of one [record_*] call on the context of [rid]. *)
Lemma step_accumulated (rt : Py.runtime) (s : t) (cl : call) (rid : string)
    (c : MetricsContext.t) :
  is_record cl = true -> active_contexts s !! rid = Some c ->
  exists c', active_contexts (step rt s cl).1 !! rid = Some c' /\
             accumulated rid [cl] c c'.
Proof.
  intros Hr Hc.
  destruct cl as [| r tin tout | r n | r n | r rs | r m |]; try discriminate Hr;
    cbn [step fst];
    unfold record_llm_call, record_tool_call, record_agent_call,
      record_guardrail_block, record_error;
    (destruct (decide (r = rid)) as [-> | Hne];
     [ rewrite Hc; cbn [active_contexts with_active]; rewrite lookup_insert_eq;
       eexists; split; [reflexivity|]
     | exists c; split;
       [ destruct (active_contexts s !! r); cbn [active_contexts with_active];
         rewrite ?lookup_insert_ne by exact Hne; exact Hc | ] ]);
    unfold accumulated, errors_for, llm_calls_for, guardrail_blocks_for,
      tool_calls_for, agent_calls_for, total;
    cbn [omap list_omap MetricsContext.request_id MetricsContext.user_id
         MetricsContext.session_id MetricsContext.start_time
         MetricsContext.errors MetricsContext.llm_call_count
         MetricsContext.llm_tokens_in MetricsContext.llm_tokens_out
         MetricsContext.guardrail_blocks MetricsContext.tool_calls
         MetricsContext.agent_calls MetricsContext.with_llm
         MetricsContext.with_tool_calls MetricsContext.with_agent_calls
         MetricsContext.with_guardrail_blocks MetricsContext.with_errors];
    rewrite ?decide_True by reflexivity;
    rewrite ?decide_False by exact Hne;
    cbn [fmap list_fmap foldr length fst snd];
    rewrite ?app_nil_r;
    repeat apply conj; try reflexivity; try lia;
    intros x;
    try (destruct (decide (n = x)) as [-> | Hx];
         [ rewrite decide_True by auto; rewrite count_incr_eq; simpl; lia
         | rewrite decide_False by (intros [_ ?]; congruence);
           rewrite count_incr_ne by congruence; simpl; lia ]);
    try (rewrite decide_False by (intros [? _]; congruence); simpl; lia);
    simpl; lia.
Qed.

Lemma run_accumulated (rt : Py.runtime) (cs : list call) (rid : string) :
  forall (s : t) (c : MetricsContext.t),
    forallb is_record cs = true -> active_contexts s !! rid = Some c ->
    exists c', active_contexts (run rt s cs).1 !! rid = Some c' /\
               accumulated rid cs c c'.
Proof.
  induction cs as [|cl cs IH]; intros s c Hr Hc.
  - exists c. split; [exact Hc | apply accumulated_nil].
  - simpl in Hr. apply andb_prop in Hr as [Hr1 Hr2].
    destruct (step_accumulated rt s cl rid c Hr1 Hc) as (c1 & Hc1 & A1).
    destruct (IH _ _ Hr2 Hc1) as (c2 & Hc2 & A2).
    exists c2. split; [exact Hc2|].
    change (cl :: cs) with ([cl] ++ cs). eapply accumulated_app; eauto.
Qed.

(** X1. After [start_request], any [record_*] calls and
    [complete_request] on the same id, the completed context carries the
    ids given at the start and exactly what the calls on that id recorded:
    the error messages in call order, the number of LLM calls and the sums
    of their tokens, the number of guardrail blocks and, per tool and per
    agent, the number of calls; calls on other ids leave no trace in it. *)
Theorem X1_completed_context_holds_what_was_recorded (rt : Py.runtime) (s : t)
    (rid uid sid : string) (t0 t1 : Q) (recs : list call) (success : bool) :
  forallb is_record recs = true ->
  let s2 := (run rt (start_request s rid uid sid t0).1 recs).1 in
  let r := complete_request rt s2 rid success t1 in
  exists ctx,
    r.2 = Some ctx /\
    MetricsContext.request_id ctx = rid /\
    MetricsContext.user_id ctx = uid /\
    MetricsContext.session_id ctx = sid /\
    MetricsContext.errors ctx = errors_for rid recs /\
    MetricsContext.llm_call_count ctx = Z.of_nat (length (llm_calls_for rid recs)) /\
    MetricsContext.llm_tokens_in ctx = total (llm_calls_for rid recs).*1 /\
    MetricsContext.llm_tokens_out ctx = total (llm_calls_for rid recs).*2 /\
    MetricsContext.guardrail_blocks ctx = guardrail_blocks_for rid recs /\
    (forall tool, Counter.count tool (MetricsContext.tool_calls ctx) =
                  tool_calls_for rid tool recs) /\
    (forall agent, Counter.count agent (MetricsContext.agent_calls ctx) =
                   agent_calls_for rid agent recs).
Proof.
  intros Hr s2 r.
  destruct (run_accumulated rt recs rid (start_request s rid uid sid t0).1
              (MetricsContext.new rid uid sid t0) Hr) as (c & Hc & A).
  { simpl. apply lookup_insert_eq. }
  fold s2 in Hc. subst r. unfold complete_request. rewrite Hc.
  destruct A as (A1 & A2 & A3 & A4 & A5 & A6 & A7 & A8 & A9 & A10 & A11).
  exists (MetricsContext.complete c t1). simpl in *.
  repeat apply conj; assumption || reflexivity.
Qed.

(** X1 on a request with two errors, one of them recorded on another id. *)
Lemma X1_witness :
  let recs := [RecordError "r1" "first"; RecordError "r2" "other";
               RecordLlmCall "r1" 100 40; RecordError "r1" "second"] in
  let r := complete_request Sample.rt
             (run Sample.rt (start_request init "r1" "u1" "s1" 10).1 recs).1
             "r1" false 12 in
  forallb is_record recs = true /\
  exists ctx, r.2 = Some ctx /\
              MetricsContext.errors ctx = ["first"; "second"] /\
              MetricsContext.llm_tokens_in ctx = 100.
Proof.
  intros recs r.
  assert (H : forallb is_record recs = true) by reflexivity.
  split; [exact H|].
  destruct (X1_completed_context_holds_what_was_recorded Sample.rt init
              "r1" "u1" "s1" 10 12 recs false H)
    as (ctx & E & _ & _ & _ & E1 & _ & E2 & _).
  exists ctx. split; [exact E | split; [exact E1 | exact E2]].
Defined.

(** While [rid] is active, every [record_tool_call] on it is counted in the
    aggregate [tool_usage], and no [record_*] call lowers a count there. *)
Lemma run_tool_usage_ge (rt : Py.runtime) (cs : list call) (rid tool : string) :
  forall (s : t) (c : MetricsContext.t),
    forallb is_record cs = true -> active_contexts s !! rid = Some c ->
    Counter.count tool (tool_usage s) + tool_calls_for rid tool cs <=
    Counter.count tool (tool_usage (run rt s cs).1).
Proof.
  induction cs as [|cl cs IH]; intros s c Hr Hc.
  - unfold tool_calls_for. simpl. lia.
  - simpl in Hr. apply andb_prop in Hr as [Hr1 Hr2].
    destruct (step_accumulated rt s cl rid c Hr1 Hc) as (c1 & Hc1 & _).
    specialize (IH _ _ Hr2 Hc1). cbn [run fst].
    assert (Hstep : Counter.count tool (tool_usage s) + tool_calls_for rid tool [cl]
                    <= Counter.count tool (tool_usage (step rt s cl).1)).
    { unfold tool_calls_for.
      destruct cl as [| r tin tout | r n | r n | r rs | r m |];
        try discriminate Hr1; cbn [step fst omap list_omap];
        unfold record_llm_call, record_tool_call, record_agent_call,
          record_guardrail_block, record_error.
      - destruct (active_contexts s !! r); simpl; lia.
      - destruct (decide (r = rid /\ n = tool)) as [[-> ->] | Hn].
        + rewrite Hc. cbn [tool_usage]. rewrite count_incr_eq. simpl. lia.
        + destruct (active_contexts s !! r); cbn [tool_usage length]; [|lia].
          destruct (decide (tool = n)) as [-> | Hne].
          * rewrite count_incr_eq. lia.
          * rewrite count_incr_ne by exact Hne. lia.
      - destruct (active_contexts s !! r); simpl; lia.
      - destruct (active_contexts s !! r); simpl; lia.
      - destruct (active_contexts s !! r); simpl; lia. }
    change (cl :: cs) with ([cl] ++ cs).
    unfold tool_calls_for in *. rewrite omap_app, length_app. lia.
Qed.

(** X2. Starting a request again under an id that is still active discards
    what its context had recorded: the context completed afterwards has no
    tool calls, errors or LLM calls and measures its latency from the second
    start.  The aggregates keep both: [total_requests] has counted two
    requests and [tool_usage] still counts every tool call recorded before
    the restart. *)
Theorem X2_restart_discards_context_not_aggregates (rt : Py.runtime) (s : t)
    (rid uid sid uid' sid' : string) (t0 t1 t2 : Q) (recs : list call)
    (success : bool) :
  forallb is_record recs = true ->
  let s1 := (run rt (start_request s rid uid sid t0).1 recs).1 in
  let s2 := (start_request s1 rid uid' sid' t1).1 in
  let r := complete_request rt s2 rid success t2 in
  r.2 = Some (MetricsContext.complete (MetricsContext.new rid uid' sid' t1) t2) /\
  size (active_contexts s2) = size (active_contexts s1) /\
  total_requests r.1 = total_requests s + 2 /\
  successful_requests r.1 + failed_requests r.1 =
    successful_requests s + failed_requests s + 1 /\
  forall tool,
    Counter.count tool (tool_usage s) + tool_calls_for rid tool recs <=
    Counter.count tool (tool_usage r.1).
Proof.
  intros Hr s1 s2 r.
  pose proof (lookup_insert_eq (active_contexts s) rid
                (MetricsContext.new rid uid sid t0)) as H0.
  destruct (run_accumulated rt recs rid (start_request s rid uid sid t0).1 _ Hr H0)
    as (c & Hc & _).
  fold s1 in Hc.
  destruct (run_records rt recs (start_request s rid uid sid t0).1 Hr)
    as [(_ & _ & A3 & A4 & A5 & _) _].
  fold s1 in A3, A4, A5. simpl in A3, A4, A5.
  subst r s2. unfold complete_request. cbn [start_request fst active_contexts].
  rewrite lookup_insert_eq. cbn [fst snd].
  repeat apply conj.
  - reflexivity.
  - apply map_size_insert_Some. eauto.
  - simpl. lia.
  - simpl. destruct success; lia.
  - intros tool. cbn [tool_usage].
    apply (run_tool_usage_ge rt recs rid tool
             (start_request s rid uid sid t0).1 _ Hr H0).
Qed.

(** X2 on a request restarted after one tool call. *)
Lemma X2_witness :
  let recs := [RecordToolCall "r1" "get_balance"] in
  let s1 := (run Sample.rt (start_request init "r1" "u1" "s1" 10).1 recs).1 in
  let r := complete_request Sample.rt (start_request s1 "r1" "u1" "s1" 11).1
             "r1" true 12 in
  forallb is_record recs = true /\
  MetricsContext.tool_calls <$> r.2 = Some [] /\
  1 <= Counter.count "get_balance" (tool_usage r.1) /\
  total_requests r.1 = 2.
Proof.
  intros recs s1 r.
  assert (H : forallb is_record recs = true) by reflexivity.
  split; [exact H|].
  destruct (X2_restart_discards_context_not_aggregates Sample.rt init
              "r1" "u1" "s1" "u1" "s1" 10 11 12 recs true H)
    as (E1 & _ & E2 & _ & E3).
  fold s1 in E1, E2, E3. fold r in E1, E2, E3.
  split; [now rewrite E1|]. split; [exact (E3 "get_balance") | exact E2].
Defined.

Lemma step_balanced (rt : Py.runtime) (s : t) (cl : call) (n : Z) :
  balanced s n ->
  balanced (step rt s cl).1 (n + Z.of_nat (length (option_list (step rt s cl).2))).
Proof.
  intros (B1 & B2 & B3 & B4). unfold balanced.
  destruct cl as [r u ss now | r tin tout | r nm | r nm | r rs | r m | r ok now];
    cbn [step fst snd];
    unfold record_llm_call, record_tool_call, record_agent_call,
      record_guardrail_block, record_error, complete_request.
  - cbn. pose proof (map_size_insert r (MetricsContext.new r u ss now)
                       (active_contexts s)) as Hs.
    destruct (active_contexts s !! r); simpl in Hs; lia.
  - destruct (active_contexts s !! r) eqn:E; cbn;
      rewrite ?map_size_insert_Some by eauto; lia.
  - destruct (active_contexts s !! r) eqn:E; cbn;
      rewrite ?map_size_insert_Some by eauto; lia.
  - destruct (active_contexts s !! r) eqn:E; cbn;
      rewrite ?map_size_insert_Some by eauto; lia.
  - destruct (active_contexts s !! r) eqn:E; cbn;
      rewrite ?map_size_insert_Some by eauto; lia.
  - destruct (active_contexts s !! r) eqn:E; cbn;
      rewrite ?map_size_insert_Some by eauto; lia.
  - destruct (active_contexts s !! r) eqn:E; cbn; [|lia].
    pose proof (map_size_delete_Some r (active_contexts s) ltac:(eauto)) as Hs.
    assert (0 < size (active_contexts s))%nat.
    { destruct (decide (size (active_contexts s) = 0%nat)) as [Hz|]; [|lia].
      apply map_size_empty_inv in Hz. rewrite Hz, lookup_empty in E. discriminate E. }
    destruct ok; lia.
Qed.

Lemma run_balanced (rt : Py.runtime) (cs : list call) :
  forall (s : t) (n : Z),
    balanced s n ->
    balanced (run rt s cs).1 (n + Z.of_nat (length (run rt s cs).2)).
Proof.
  induction cs as [|cl cs IH]; intros s n Hb.
  - simpl. now rewrite Z.add_0_r.
  - cbn [run fst snd]. rewrite length_app, Nat2Z.inj_add, Z.add_assoc.
    apply IH. now apply step_balanced.
Qed.

Lemma ratio_bounds (a b : Z) :
  0 <= a <= b -> 1 <= b -> (0 <= inject_Z a / inject_Z b)%Q /\
                           (inject_Z a / inject_Z b <= 1)%Q.
Proof.
  intros Ha Hb.
  assert (Hpos : (0 < inject_Z b)%Q) by (unfold Qlt; simpl; lia).
  split.
  - apply Qle_shift_div_l; [exact Hpos|]. rewrite Qmult_0_l.
    unfold Qle; simpl; lia.
  - apply Qle_shift_div_r; [exact Hpos|]. rewrite Qmult_1_l.
    unfold Qle; simpl; lia.
Qed.

(** X3. Whatever calls the collector receives from its initial state,
    active requests and completions together never exceed the requests
    started; [successful_requests + failed_requests] is the number of
    completions; and the reported [success_rate] lies between 0 and 1. *)
Theorem X3_completions_never_exceed_starts (rt : Py.runtime) (cs : list call) :
  let r := run rt init cs in
  let m := get_current_metrics r.1 in
  cm_active_requests m + cm_successful_requests m + cm_failed_requests m <=
    cm_total_requests m /\
  cm_successful_requests m + cm_failed_requests m = Z.of_nat (length r.2) /\
  (0 <= cm_success_rate m)%Q /\ (cm_success_rate m <= 1)%Q.
Proof.
  intros r m.
  destruct (run_balanced rt cs init 0) as (B1 & B2 & B3 & B4).
  { unfold balanced. simpl. rewrite map_size_empty. lia. }
  fold r in B1, B2, B3, B4. rewrite Z.add_0_l in *.
  subst m. unfold get_current_metrics. cbn.
  destruct (ratio_bounds (successful_requests r.1)
              (Z.max 1 (total_requests r.1))) as [R1 R2]; [lia | lia |].
  repeat apply conj; try lia; assumption.
Qed.

Lemma insert_desc_perm (x : string * Z) (l : list (string * Z)) :
  Permutation (Counter.insert_desc x l) (x :: l).
Proof.
  induction l as [|y l IH]; simpl; [reflexivity|].
  destruct (y.2 <=? x.2); [reflexivity|].
  rewrite IH. apply perm_swap.
Qed.

Lemma insert_desc_HdRel (a x : string * Z) (l : list (string * Z)) :
  no_less a x -> HdRel no_less a l -> HdRel no_less a (Counter.insert_desc x l).
Proof.
  intros Hax Hl. destruct l as [|y l]; simpl.
  - now constructor.
  - destruct (y.2 <=? x.2); constructor; [exact Hax|]. now inversion Hl.
Qed.

Lemma insert_desc_Sorted (x : string * Z) (l : list (string * Z)) :
  Sorted no_less l -> Sorted no_less (Counter.insert_desc x l).
Proof.
  induction 1 as [|y l Hs IH Hd]; simpl.
  - repeat constructor.
  - destruct (Z.leb_spec y.2 x.2) as [Hle | Hlt].
    + constructor; [now constructor|]. now constructor.
    + constructor; [exact IH|].
      apply insert_desc_HdRel; [unfold no_less; lia | exact Hd].
Qed.

Lemma by_count_perm (c : list (string * Z)) :
  Permutation (foldr Counter.insert_desc [] c) c.
Proof.
  induction c as [|x c IH]; simpl; [reflexivity|].
  rewrite insert_desc_perm. now constructor.
Qed.

Lemma by_count_sorted (c : list (string * Z)) :
  StronglySorted no_less (foldr Counter.insert_desc [] c).
Proof.
  apply Sorted.Sorted_StronglySorted.
  - intros x y z Hxy Hyz. unfold no_less in *. lia.
  - induction c as [|x c IH]; simpl; [constructor|].
    now apply insert_desc_Sorted.
Qed.

Lemma StronglySorted_app_inv {A : Type} (R : A -> A -> Prop) (l1 l2 : list A) :
  StronglySorted R (l1 ++ l2) ->
  StronglySorted R l1 /\ forall x y, x ∈ l1 -> y ∈ l2 -> R x y.
Proof.
  induction l1 as [|a l1 IH]; simpl; intros H.
  - split; [constructor|]. intros x y Hx. now apply elem_of_nil in Hx.
  - inversion H as [|? ? Hs Hf]; subst. destruct (IH Hs) as [IH1 IH2].
    rewrite Forall_forall in Hf. split.
    + constructor; [exact IH1|]. apply Forall_forall. intros x Hx.
      apply Hf. apply elem_of_app. now left.
    + intros x y Hx Hy. apply elem_of_cons in Hx as [-> | Hx]; [|auto].
      apply Hf. apply elem_of_app. now right.
Qed.

(** [most_common n] splits the counter: its result and the entries it
    leaves out are together a rearrangement of the counter, the result has
    [n] entries (all of them, if there are fewer) in order of non-increasing
    count, and no entry left out has a larger count than a listed one. *)
Lemma most_common_spec (n : nat) (c : list (string * Z)) :
  exists rest,
    Permutation (Counter.most_common n c ++ rest) c /\
    length (Counter.most_common n c) = (n `min` length c)%nat /\
    StronglySorted no_less (Counter.most_common n c) /\
    forall e x, e ∈ rest -> x ∈ Counter.most_common n c -> e.2 <= x.2.
Proof.
  unfold Counter.most_common.
  set (l := foldr Counter.insert_desc [] c).
  assert (Hp : Permutation l c) by apply by_count_perm.
  assert (Hs : StronglySorted no_less l) by apply by_count_sorted.
  rewrite <- (take_drop n l) in Hs.
  apply StronglySorted_app_inv in Hs as [Hs1 Hs2].
  exists (drop n l). repeat apply conj.
  - now rewrite take_drop.
  - rewrite length_take. now rewrite (Permutation_length Hp).
  - exact Hs1.
  - intros e x He Hx. exact (Hs2 _ _ Hx He).
Qed.

Lemma keys_top_NoDup (top rest c : list (string * Z)) :
  Permutation (top ++ rest) c -> NoDup (Dict.keys c) -> NoDup (Dict.keys top).
Proof.
  unfold Dict.keys. intros Hp Hnd.
  rewrite <- Hp, fmap_app in Hnd. now apply NoDup_app in Hnd as [Hnd _].
Qed.

(** The names of the usage counters stay distinct. *)
Lemma step_usage_NoDup (rt : Py.runtime) (s : t) (cl : call) :
  NoDup (Dict.keys (tool_usage s)) /\ NoDup (Dict.keys (agent_usage s)) ->
  NoDup (Dict.keys (tool_usage (step rt s cl).1)) /\
  NoDup (Dict.keys (agent_usage (step rt s cl).1)).
Proof.
  intros [H1 H2].
  destruct cl as [r u ss now | r tin tout | r nm | r nm | r rs | r m | r ok now];
    cbn [step fst];
    unfold record_llm_call, record_tool_call, record_agent_call,
      record_guardrail_block, record_error, complete_request;
    try (destruct (active_contexts s !! r); cbn [fst tool_usage agent_usage];
         split; try assumption; now apply DictFacts.NoDup_keys_set).
Qed.

Lemma run_usage_NoDup (rt : Py.runtime) (cs : list call) (s : t) :
  NoDup (Dict.keys (tool_usage s)) /\ NoDup (Dict.keys (agent_usage s)) ->
  NoDup (Dict.keys (tool_usage (run rt s cs).1)) /\
  NoDup (Dict.keys (agent_usage (run rt s cs).1)).
Proof.
  revert s. induction cs as [|c cs IH]; intros s Hs; [exact Hs|].
  cbn [run fst]. apply IH. now apply step_usage_NoDup.
Qed.

(** X4. [get_current_metrics] lists as [top_tools] (and [top_agents]) the
    five most used: [top_tools] and the entries left out are together a
    rearrangement of the usage counter, so each listed entry is an entry of
    the counter with its aggregate count, listed as often as it occurs
    there; [top_tools] has five entries (all of them, if there are fewer)
    in order of non-increasing count; and no entry left out has a larger
    count than a listed one.  Where the names of the counter are distinct,
    as they are in every state the collector reaches from its initial
    state, the listed names are distinct. *)
Theorem X4_top_tools_are_the_five_most_used (s : t) :
  let m := get_current_metrics s in
  (forall rt cs, s = (run rt init cs).1 ->
     NoDup (Dict.keys (tool_usage s)) /\ NoDup (Dict.keys (agent_usage s))) /\
  (exists rest,
     Permutation (cm_top_tools m ++ rest) (tool_usage s) /\
     (length (cm_top_tools m) = 5 `min` length (tool_usage s))%nat /\
     StronglySorted no_less (cm_top_tools m) /\
     (forall e x, e ∈ rest -> x ∈ cm_top_tools m -> e.2 <= x.2) /\
     (NoDup (Dict.keys (tool_usage s)) -> NoDup (Dict.keys (cm_top_tools m)))) /\
  (exists rest,
     Permutation (cm_top_agents m ++ rest) (agent_usage s) /\
     (length (cm_top_agents m) = 5 `min` length (agent_usage s))%nat /\
     StronglySorted no_less (cm_top_agents m) /\
     (forall e x, e ∈ rest -> x ∈ cm_top_agents m -> e.2 <= x.2) /\
     (NoDup (Dict.keys (agent_usage s)) -> NoDup (Dict.keys (cm_top_agents m)))).
Proof.
  cbn zeta. unfold get_current_metrics. cbn [cm_top_tools cm_top_agents].
  destruct (most_common_spec 5 (tool_usage s)) as (r1 & A1 & A2 & A3 & A4).
  destruct (most_common_spec 5 (agent_usage s)) as (r2 & B1 & B2 & B3 & B4).
  split; [|split].
  - intros rt cs ->. apply run_usage_NoDup. cbn. split; constructor.
  - exists r1. repeat apply conj; try assumption.
    now apply (keys_top_NoDup _ r1).
  - exists r2. repeat apply conj; try assumption.
    now apply (keys_top_NoDup _ r2).
Qed.

End CollectorExtras.

(** ** The history of the performance tracker over runs *)

Module TrackerRunFacts.
Import PerformanceTracker TrackerTrace TrackerHistory TrackerRun.

Lemma append_capped_nonempty {A : Type} (l : list A) (x : A) :
  Py.append_capped 1000 l x <> [].
Proof.
  unfold Py.append_capped.
  destruct (Z.ltb_spec 1000 (Z.of_nat (length (l ++ [x])))) as [H | H].
  - intros E. apply (f_equal length) in E. rewrite length_drop in E.
    simpl in E. lia.
  - destruct l; discriminate.
Qed.

Lemma append_capped_Forall {A : Type} (P : A -> Prop) (l : list A) (x : A) :
  Forall P l -> P x -> Forall P (Py.append_capped 1000 l x).
Proof.
  intros Hl Hx. unfold Py.append_capped.
  assert (H : Forall P (l ++ [x])) by (apply Forall_app; auto).
  destruct (_ <? _); [now apply Forall_drop | exact H].
Qed.

Lemma init_filed (rt : Py.runtime) (dir : string) : filed (init rt dir).
Proof.
  unfold filed. cbn. repeat apply conj.
  - constructor.
  - constructor.
  - apply map_Forall_empty.
Qed.

Lemma step_filed (rt : Py.runtime) (s : t) (c : call) :
  filed s -> filed (step rt s c).
Proof.
  intros (H1 & H2 & H3).
  destruct c as [name category rid parent md n0 n1 | id ok now | category thr].
  - unfold filed. cbn [step start_trace fst historical_data traces].
    repeat apply conj; [exact H1 | exact H2 |].
    apply map_Forall_insert_2; [|exact H3]. split; reflexivity.
  - cbn [step]. unfold end_trace.
    destruct (traces s !! id) as [tr|] eqn:E; [|now repeat apply conj].
    unfold filed. cbn [fst historical_data traces].
    repeat apply conj.
    + now apply DictFacts.NoDup_keys_set.
    + apply DictFacts.Forall_set; [exact H2|]. cbn [fst snd].
      set (cat := PerformanceData.category tr).
      assert (Hold : (length (default [] (Dict.get cat (historical_data s))) <= 1000)%nat /\
                     Forall (completed cat) (default [] (Dict.get cat (historical_data s)))).
      { destruct (Dict.get cat (historical_data s)) as [old|] eqn:Eo; simpl;
          [|split; [lia | constructor]].
        apply DictFacts.get_elem_of in Eo.
        rewrite Forall_forall in H2. destruct (H2 _ Eo) as (_ & A & B).
        split; assumption. }
      destruct Hold as [Hlen Hall].
      repeat apply conj.
      * apply append_capped_nonempty.
      * assert (Hz : Z.of_nat (length (default [] (Dict.get cat (historical_data s))))
                     <= 1000) by lia.
        match goal with
        | |- (length (Py.append_capped 1000 ?l ?r) <= 1000)%nat =>
            pose proof (CapFacts.append_capped_length 1000 l r ltac:(lia) Hz) as Hc
        end.
        lia.
      * apply append_capped_Forall; [exact Hall|].
        split; [reflexivity|]. exists now. split; reflexivity.
    + apply map_Forall_delete. exact H3.
  - exact (conj H1 (conj H2 H3)).
Qed.

Lemma run_filed (rt : Py.runtime) (cs : list call) (s : t) :
  filed s -> filed (run rt s cs).
Proof.
  revert s. induction cs as [|c cs IH]; intros s Hs; [exact Hs|].
  apply IH. now apply step_filed.
Qed.

Lemma durations_completed (category : string) (trs : list PerformanceData.t) :
  Forall (completed category) trs -> length (durations_of trs) = length trs.
Proof.
  unfold durations_of. induction 1 as [|d trs (_ & e & _ & Hd) _ IH]; [reflexivity|].
  cbn [omap list_omap]. rewrite Hd. cbn [length]. f_equal. exact IH.
Qed.

(** The entry of a category whose spans all have a duration. *)
Lemma metrics_of_completed (s : t) (category : string)
    (trs : list PerformanceData.t) :
  trs <> [] -> Forall (completed category) trs ->
  exists m, metrics_of_category s category trs = Some m /\
            count m = Z.of_nat (length trs).
Proof.
  intros Hne Hall. pose proof (durations_completed _ _ Hall) as Hlen.
  unfold metrics_of_category.
  destruct (durations_of trs) as [|d ds] eqn:E.
  - destruct trs; [contradiction | discriminate Hlen].
  - eexists. split; [reflexivity|]. cbn [count]. now rewrite Hlen.
Qed.

Lemma metrics_keys (s : t) (h : list (string * list PerformanceData.t)) :
  Forall (fun kv => is_Some (metrics_of_category s kv.1 kv.2)) h ->
  Dict.keys (omap (fun kv => (fun m => (kv.1, m)) <$> metrics_of_category s kv.1 kv.2) h)
  = Dict.keys h /\
  forall k, Dict.get k
      (omap (fun kv => (fun m => (kv.1, m)) <$> metrics_of_category s kv.1 kv.2) h)
    = Dict.get k h ≫= metrics_of_category s k.
Proof.
  unfold Dict.keys. induction 1 as [|[k0 trs] h [m Hm] _ [IH1 IH2]].
  - split; [reflexivity | intros k; reflexivity].
  - cbn [omap list_omap fst snd]. cbn [fst snd] in Hm. rewrite Hm.
    cbn [fmap option_fmap option_map]. split.
    + rewrite !fmap_cons. cbn [fst]. f_equal. exact IH1.
    + intros k. cbn [Dict.get]. destruct (decide (k = k0)) as [-> | Hne].
      * cbn [mbind option_bind]. now rewrite Hm.
      * apply IH2.
Qed.

End TrackerRunFacts.

(** ** Statistics over recorded durations *)

Module StatFacts.
Import PerformanceTracker.

Lemma minimum_fold (l : list Q) (x : Q) :
  let r := foldl (fun m y => if Py.lt y m then y else m) x l in
  (r = x \/ r ∈ l) /\ (r <= x)%Q /\ forall d, d ∈ l -> (r <= d)%Q.
Proof.
  revert x. induction l as [|y l IH]; intros x; cbn zeta; cbn [foldl].
  - split; [now left|]. split; [apply Qle_refl|].
    intros d Hd. now apply elem_of_nil in Hd.
  - specialize (IH (if Py.lt y x then y else x)). cbn zeta in IH.
    destruct IH as (I1 & I2 & I3).
    destruct (Py.lt y x) eqn:E.
    + apply AlertFacts.lt_true_iff in E. repeat apply conj.
      * right. destruct I1 as [-> | I1];
          [apply list_elem_of_here | now apply list_elem_of_further].
      * lra.
      * intros d Hd. apply elem_of_cons in Hd as [-> | Hd]; [exact I2 | auto].
    + assert (Hxy : (x <= y)%Q).
      { unfold Py.lt in E. apply negb_false_iff in E. now apply Qle_bool_iff in E. }
      repeat apply conj.
      * destruct I1 as [-> | I1]; [now left | right; now apply list_elem_of_further].
      * exact I2.
      * intros d Hd. apply elem_of_cons in Hd as [-> | Hd]; [lra | auto].
Qed.

Lemma maximum_fold (l : list Q) (x : Q) :
  let r := foldl (fun m y => if Py.gt y m then y else m) x l in
  (r = x \/ r ∈ l) /\ (x <= r)%Q /\ forall d, d ∈ l -> (d <= r)%Q.
Proof.
  revert x. induction l as [|y l IH]; intros x; cbn zeta; cbn [foldl].
  - split; [now left|]. split; [apply Qle_refl|].
    intros d Hd. now apply elem_of_nil in Hd.
  - specialize (IH (if Py.gt y x then y else x)). cbn zeta in IH.
    destruct IH as (I1 & I2 & I3).
    destruct (Py.gt y x) eqn:E.
    + apply AlertFacts.gt_true_iff in E. repeat apply conj.
      * right. destruct I1 as [-> | I1];
          [apply list_elem_of_here | now apply list_elem_of_further].
      * lra.
      * intros d Hd. apply elem_of_cons in Hd as [-> | Hd]; [exact I2 | auto].
    + assert (Hxy : (y <= x)%Q).
      { unfold Py.gt in E. apply negb_false_iff in E. now apply Qle_bool_iff in E. }
      repeat apply conj.
      * destruct I1 as [-> | I1]; [now left | right; now apply list_elem_of_further].
      * exact I2.
      * intros d Hd. apply elem_of_cons in Hd as [-> | Hd]; [lra | auto].
Qed.

(** [min] returns an element of a non-empty list that no element is below. *)
Lemma minimum_spec (l : list Q) :
  l <> [] -> minimum l ∈ l /\ forall d, d ∈ l -> (minimum l <= d)%Q.
Proof.
  destruct l as [|x l]; [contradiction|]. intros _. cbn [minimum].
  destruct (minimum_fold l x) as (I1 & I2 & I3). split.
  - destruct I1 as [-> | I1];
      [apply list_elem_of_here | now apply list_elem_of_further].
  - intros d Hd. apply elem_of_cons in Hd as [-> | Hd]; [exact I2 | auto].
Qed.

Lemma maximum_spec (l : list Q) :
  l <> [] -> maximum l ∈ l /\ forall d, d ∈ l -> (d <= maximum l)%Q.
Proof.
  destruct l as [|x l]; [contradiction|]. intros _. cbn [maximum].
  destruct (maximum_fold l x) as (I1 & I2 & I3). split.
  - destruct I1 as [-> | I1];
      [apply list_elem_of_here | now apply list_elem_of_further].
  - intros d Hd. apply elem_of_cons in Hd as [-> | Hd]; [exact I2 | auto].
Qed.

Lemma sum_fold_bounds (a b : Q) (l : list Q) :
  (forall d, d ∈ l -> (a <= d)%Q /\ (d <= b)%Q) ->
  forall acc,
    (acc + a * inject_Z (Z.of_nat (length l)) <= foldl Qplus acc l)%Q /\
    (foldl Qplus acc l <= acc + b * inject_Z (Z.of_nat (length l)))%Q.
Proof.
  induction l as [|x l IH]; intros Hb acc.
  - cbn [length foldl]. change (inject_Z (Z.of_nat 0)) with 0%Q. split; lra.
  - destruct (Hb x) as [Hax Hxb]; [apply list_elem_of_here|].
    destruct (IH (fun d Hd => Hb d (list_elem_of_further _ _ _ Hd)) (acc + x)%Q)
      as [I1 I2].
    cbn [foldl length]. rewrite Nat2Z.inj_succ. unfold Z.succ.
    rewrite inject_Z_plus. change (inject_Z 1) with 1%Q. split; lra.
Qed.

(** The mean of a non-empty list lies between any bounds of its elements. *)
Lemma mean_bounds (a b : Q) (l : list Q) :
  l <> [] -> (forall d, d ∈ l -> (a <= d)%Q /\ (d <= b)%Q) ->
  (a <= mean l)%Q /\ (mean l <= b)%Q.
Proof.
  intros Hne Hb. unfold mean, Py.sum.
  destruct (sum_fold_bounds a b l Hb 0%Q) as [I1 I2].
  assert (Hpos : (0 < inject_Z (Z.of_nat (length l)))%Q).
  { destruct l; [contradiction|]. unfold Qlt. simpl. lia. }
  split.
  - apply Qle_shift_div_l; [exact Hpos | lra].
  - apply Qle_shift_div_r; [exact Hpos | lra].
Qed.

Lemma sorted_elem_of (l : list Q) (d : Q) : d ∈ Py.sorted l <-> d ∈ l.
Proof. now rewrite (TrackerFacts.sorted_perm l). Qed.

Lemma nth_elem_of (l : list Q) (i : nat) :
  (i < length l)%nat -> nth i l 0%Q ∈ l.
Proof.
  intros Hi. apply list_elem_of_In. now apply nth_In.
Qed.

(** The median of a non-empty list lies between any bounds of its elements. *)
Lemma median_bounds (a b : Q) (l : list Q) :
  l <> [] -> (forall d, d ∈ l -> (a <= d)%Q /\ (d <= b)%Q) ->
  (a <= median l)%Q /\ (median l <= b)%Q.
Proof.
  intros Hne Hb. unfold median.
  pose proof (TrackerFacts.sorted_length l) as Hlen.
  assert (Hpos : (0 < length (Py.sorted l))%nat).
  { rewrite Hlen. destruct l; [contradiction | simpl; lia]. }
  assert (Hdiv : (length (Py.sorted l) / 2 < length (Py.sorted l))%nat)
    by (apply Nat.div_lt; lia).
  assert (Hin : forall i, (i < length (Py.sorted l))%nat ->
                  (a <= nth i (Py.sorted l) 0)%Q /\ (nth i (Py.sorted l) 0 <= b)%Q).
  { intros i Hi. apply Hb, sorted_elem_of, nth_elem_of, Hi. }
  destruct (Nat.even (length (Py.sorted l))).
  - destruct (Hin (length (Py.sorted l) / 2 - 1)%nat) as [A1 A2]; [lia|].
    destruct (Hin (length (Py.sorted l) / 2)%nat) as [B1 B2]; [lia|].
    unfold Qdiv. change (/ 2)%Q with (1 # 2)%Q. split; lra.
  - apply Hin, Hdiv.
Qed.

Lemma StronglySorted_lookup {A : Type} (R : A -> A -> Prop) (l : list A) :
  StronglySorted R l ->
  forall i j x y, l !! i = Some x -> l !! j = Some y -> (i < j)%nat -> R x y.
Proof.
  induction 1 as [|a l Hs IH Hf]; intros i j x y Hi Hj Hij.
  - discriminate Hi.
  - destruct j as [|j]; [lia|]. cbn in Hj. destruct i as [|i].
    + cbn in Hi. injection Hi as <-. rewrite Forall_forall in Hf.
      apply Hf. eapply list_elem_of_lookup_2. exact Hj.
    + cbn in Hi. apply (IH i j); [assumption | assumption | lia].
Qed.

(** In [sorted(l)], a later position holds no smaller value. *)
Lemma sorted_lookup_le (l : list Q) (i j : nat) (x y : Q) :
  Py.sorted l !! i = Some x -> Py.sorted l !! j = Some y -> (i <= j)%nat ->
  (x <= y)%Q.
Proof.
  intros Hi Hj Hij. destruct (decide (i = j)) as [-> | Hne].
  - rewrite Hi in Hj. injection Hj as ->. apply Qle_refl.
  - apply (StronglySorted_lookup Qle (Py.sorted l)) with (i := i) (j := j);
      [|assumption|assumption|lia].
    apply Sorted.Sorted_StronglySorted; [|apply TrackerFacts.sorted_Sorted].
    intros u v w. apply Qle_trans.
Qed.

End StatFacts.

(** ** Threshold warnings against the reported counts *)

Module WarningFacts.
Import PerformanceTracker TrackerTrace TrackerHistory TrackerWarnings TrackerRun.

Lemma exceeded_total_exceeding (s : t) :
  exceeded_total s = exceeding_all (thresholds s) (historical_data s).
Proof.
  unfold exceeded_total, get_performance_metrics, exceeding_all.
  induction (historical_data s) as [|[c trs] h IH]; [reflexivity|].
  cbn [omap list_omap fst snd]. rewrite fmap_cons. cbn [foldr fst snd].
  rewrite <- IH. unfold metrics_of_category, exceeding.
  destruct (durations_of trs) as [|d ds].
  - cbn [fmap option_fmap option_map]. destruct (thresholds s !! c); reflexivity.
  - cbn [fmap option_fmap option_map]. rewrite !fmap_cons.
    cbn [foldr snd threshold_exceeded_count]. reflexivity.
Qed.

Lemma exceeding_app (T : gmap string Q) (c : string)
    (l1 l2 : list PerformanceData.t) :
  exceeding T c (l1 ++ l2) = exceeding T c l1 + exceeding T c l2.
Proof.
  unfold exceeding, durations_of. destruct (T !! c); [|reflexivity].
  rewrite omap_app, filter_app, length_app. lia.
Qed.

Lemma exceeding_nonneg (T : gmap string Q) (c : string)
    (l : list PerformanceData.t) : 0 <= exceeding T c l.
Proof. unfold exceeding. destruct (T !! c); lia. Qed.

Lemma exceeding_nil (T : gmap string Q) (c : string) : exceeding T c [] = 0.
Proof. unfold exceeding. now destruct (T !! c). Qed.

Lemma exceeding_all_set (T : gmap string Q) (c : string)
    (new : list PerformanceData.t) (h : list (string * list PerformanceData.t)) :
  exceeding_all T (Dict.set c new h) =
  exceeding_all T h - exceeding T c (default [] (Dict.get c h)) + exceeding T c new.
Proof.
  unfold exceeding_all. induction h as [|[k v] h IH].
  - cbn. rewrite exceeding_nil. lia.
  - cbn [Dict.set Dict.get]. destruct (decide (c = k)) as [-> | Hne].
    + rewrite !fmap_cons. cbn [foldr fst snd]. change (default [] (Some v)) with v. lia.
    + rewrite !fmap_cons. cbn [foldr fst snd]. rewrite IH. lia.
Qed.

Lemma exceeding_append_capped (T : gmap string Q) (c : string)
    (old : list PerformanceData.t) (x : PerformanceData.t) :
  exceeding T c (Py.append_capped 1000 old x) <= exceeding T c old + exceeding T c [x] /\
  ((length (Py.append_capped 1000 old x) < 1000)%nat ->
   (length old < 1000)%nat /\
   exceeding T c (Py.append_capped 1000 old x) = exceeding T c old + exceeding T c [x]).
Proof.
  unfold Py.append_capped.
  destruct (Z.ltb_spec 1000 (Z.of_nat (length (old ++ [x])))) as [H | H].
  - split.
    + rewrite <- exceeding_app. destruct (old ++ [x]) as [|y l]; [simpl in H; lia|].
      change (y :: l) with ([y] ++ l). rewrite exceeding_app.
      rewrite drop_app_length' by reflexivity.
      pose proof (exceeding_nonneg T c [y]). lia.
    + rewrite length_drop. lia.
  - rewrite exceeding_app, length_app. cbn [length]. split; [lia|]. intros Hl.
    split; lia.
Qed.

Lemma warnings_app (l1 l2 : list Py.log_record) :
  warnings (l1 ++ l2) = warnings l1 + warnings l2.
Proof. unfold warnings. rewrite filter_app, length_app. lia. Qed.

(** [_check_threshold] logs one warning exactly for a span that counts as
    exceeding. *)
Lemma warnings_check_threshold (rt : Py.runtime) (s : t) (trace : PerformanceData.t) :
  warnings (_check_threshold rt s trace) =
  exceeding (thresholds s) (PerformanceData.category trace) [trace].
Proof.
  unfold _check_threshold, exceeding, durations_of. cbn [omap list_omap].
  destruct (thresholds s !! PerformanceData.category trace) as [thr|];
    [|reflexivity].
  destruct (PerformanceData.duration_ms trace) as [d|]; [|reflexivity].
  destruct (Py.gt d thr) eqn:E.
  - rewrite filter_cons_True by exact E. reflexivity.
  - rewrite filter_cons_False by (rewrite E; discriminate). reflexivity.
Qed.

Lemma below_set (c : string) (new : list PerformanceData.t)
    (h : list (string * list PerformanceData.t)) :
  (length (default [] (Dict.get c h)) < 1000)%nat ->
  Forall (fun kv : string * list PerformanceData.t => (length kv.2 < 1000)%nat)
    (Dict.set c new h) ->
  Forall (fun kv : string * list PerformanceData.t => (length kv.2 < 1000)%nat) h.
Proof.
  induction h as [|[k v] h IH]; intros Hold Hs; [constructor|].
  cbn [Dict.set Dict.get] in *. destruct (decide (c = k)) as [-> | Hne].
  - inversion Hs; subst. constructor; assumption.
  - inversion Hs; subst. constructor; auto.
Qed.

Lemma get_set_Forall (P : string * list PerformanceData.t -> Prop) (c : string)
    (new : list PerformanceData.t) (h : list (string * list PerformanceData.t)) :
  Forall P (Dict.set c new h) -> P (c, new).
Proof.
  induction h as [|[k v] h IH]; cbn [Dict.set]; intros Hs.
  - now inversion Hs.
  - destruct (decide (c = k)); inversion Hs; subst; auto.
Qed.

(** A call other than [set_threshold] never lowers the gap, and keeps it
    where no category is left at its bound. *)
Lemma step_gap (rt : Py.runtime) (s : t) (c : call) :
  keeps_thresholds c = true ->
  gap s <= gap (step rt s c) /\
  (below_capacity (step rt s c) -> below_capacity s /\ gap (step rt s c) = gap s).
Proof.
  intros Hk.
  destruct c as [name category rid parent md n0 n1 | id ok now | category thr];
    [| |discriminate Hk].
  - cbn [step start_trace fst]. unfold gap, below_capacity.
    cbn [log thresholds historical_data]. split; [lia | auto].
  - cbn [step]. unfold end_trace.
    destruct (traces s !! id) as [tr|] eqn:E; [|cbn [fst]; split; [lia | auto]].
    cbn [fst]. unfold gap, below_capacity.
    cbn [log thresholds historical_data].
    set (trace := PerformanceData.with_metadata _ _).
    set (cat := PerformanceData.category trace).
    set (old := default [] (Dict.get cat (historical_data s))).
    rewrite warnings_app, warnings_check_threshold, exceeding_all_set.
    fold cat. fold old.
    destruct (exceeding_append_capped (thresholds s) cat old trace) as [A B].
    split; [lia|]. intros Hb.
    pose proof (get_set_Forall _ _ _ _ Hb) as Hnew. cbn [snd] in Hnew.
    destruct (B Hnew) as [Hold Heq]. split; [|lia].
    now apply (below_set cat (Py.append_capped 1000 old trace)).
Qed.

Lemma run_snoc (rt : Py.runtime) (s : t) (cs : list call) (c : call) :
  run rt s (cs ++ [c]) = step rt (run rt s cs) c.
Proof. unfold run. now rewrite foldl_app. Qed.

Lemma run_gap (rt : Py.runtime) (s : t) (cs : list call) :
  forallb keeps_thresholds cs = true ->
  gap s <= gap (run rt s cs) /\
  (below_capacity (run rt s cs) -> below_capacity s /\ gap (run rt s cs) = gap s).
Proof.
  induction cs as [|c cs IH] using rev_ind; intros Hk.
  - cbn. split; [lia | auto].
  - rewrite forallb_app in Hk. apply andb_prop in Hk as [Hk1 Hk2].
    cbn [forallb] in Hk2. rewrite andb_true_r in Hk2.
    destruct (IH Hk1) as [I1 I2]. rewrite run_snoc.
    destruct (step_gap rt (run rt s cs) c Hk2) as [S1 S2].
    split; [lia|]. intros Hb. destruct (S2 Hb) as [Hb' Hg].
    destruct (I2 Hb') as [Hb0 Hg0]. split; [exact Hb0 | lia].
Qed.

Lemma init_gap (rt : Py.runtime) (dir : string) : gap (init rt dir) = 0.
Proof. reflexivity. Qed.

End WarningFacts.

(** ** Further properties of the performance tracker *)

Module TrackerExtras.
Import PerformanceTracker TrackerSpec TrackerTrace TrackerHistory TrackerFacts.
Import TrackerWarnings TrackerRunFacts WarningFacts.

Lemma get_app (k : string) (d1 d2 : list (string * Py.value)) :
  Dict.get k (d1 ++ d2) =
  match Dict.get k d1 with Some v => Some v | None => Dict.get k d2 end.
Proof.
  induction d1 as [|[k0 v0] d1 IH]; simpl; [reflexivity|].
  destruct (decide (k = k0)); [reflexivity | exact IH].
Qed.

Lemma get_foldl_set (k : string) (l d0 : list (string * Py.value)) :
  Dict.get k (foldl (fun d kv => Dict.set kv.1 kv.2 d) d0 l) =
  match Dict.get k (reverse l) with
  | Some v => Some v
  | None => Dict.get k d0
  end.
Proof.
  revert d0. induction l as [|[k' v'] l IH]; intros d0; simpl; [reflexivity|].
  rewrite IH, reverse_cons, get_app. cbn [fst snd].
  destruct (Dict.get k (reverse l)) as [v|]; [reflexivity|].
  rewrite DictFacts.get_set. simpl.
  destruct (decide (k = k')); reflexivity.
Qed.

Lemma end_trace_open (rt : Py.runtime) (s : t) (trace_id : string)
    (tr : PerformanceData.t) (success : bool) (now : Q) :
  traces s !! trace_id = Some tr ->
  end_trace rt s trace_id success now =
  ({| traces := delete trace_id (traces s);
      historical_data :=
        Dict.set (PerformanceData.category tr)
          (Py.append_capped 1000
             (default [] (Dict.get (PerformanceData.category tr) (historical_data s)))
             (ended tr success now))
          (historical_data s);
      thresholds := thresholds s;
      log := log s ++ _check_threshold rt s (ended tr success now) |},
   Some (ended tr success now)).
Proof. intros H. unfold end_trace. rewrite H. reflexivity. Qed.

Lemma end_trace_unknown (rt : Py.runtime) (s : t) (trace_id : string)
    (success : bool) (now : Q) :
  traces s !! trace_id = None -> end_trace rt s trace_id success now = (s, None).
Proof. intros H. unfold end_trace. now rewrite H. Qed.

(** X5. The id returned by [start_trace] is accepted once by [end_trace]:
    the span returned has the name, category and parent given at the start,
    [duration_ms = (end_time - start_time) * 1000] and the success flag in
    its metadata; it has left the open traces and is the newest span of its
    category's history.  Ending the same id again returns none and changes
    nothing. *)
Theorem X5_start_then_end_trace (rt : Py.runtime) (s : t)
    (name category : string) (request_id parent : option string)
    (metadata : option (list (string * Py.value)))
    (now_id now_start now now' : Q) (success success' : bool) :
  let r1 := start_trace rt s name category request_id parent metadata
              now_id now_start in
  let r2 := end_trace rt r1.1 r1.2 success now in
  (exists span,
     r2.2 = Some span /\
     PerformanceData.name span = name /\
     PerformanceData.category span = category /\
     PerformanceData.parent span = parent /\
     PerformanceData.start_time span = now_start /\
     PerformanceData.end_time span = Some now /\
     PerformanceData.duration_ms span = Some ((now - now_start) * 1000)%Q /\
     PerformanceData.metadata span ≫= Dict.get "success" =
       Some (Py.VBool success) /\
     Dict.get category (historical_data r2.1) ≫= last = Some span) /\
  traces r2.1 !! r1.2 = None /\
  end_trace rt r2.1 r1.2 success' now' = (r2.1, None).
Proof.
  intros r1 r2.
  assert (Hopen : traces r1.1 !! r1.2 =
                  Some {| PerformanceData.name := name;
                          PerformanceData.category := category;
                          PerformanceData.start_time := now_start;
                          PerformanceData.end_time := None;
                          PerformanceData.duration_ms := None;
                          PerformanceData.metadata :=
                            Some (initial_metadata request_id metadata);
                          PerformanceData.parent := parent |}).
  { subst r1. cbn [start_trace fst snd traces]. apply lookup_insert_eq. }
  pose proof (end_trace_open rt r1.1 r1.2 _ success now Hopen) as E.
  fold r2 in E. rewrite E. cbn [fst snd traces historical_data].
  split; [|split].
  - eexists. split; [reflexivity|].
    repeat apply conj; try reflexivity.
    + cbn. rewrite DictFacts.get_set. now rewrite decide_True.
    + cbn [PerformanceData.category].
      rewrite DictFacts.get_set, decide_True by reflexivity.
      cbn [mbind option_bind].
      apply CollectorFacts.last_append_capped. lia.
  - apply lookup_delete_eq.
  - apply end_trace_unknown. cbn [traces]. apply lookup_delete_eq.
Qed.

(** X6. The metadata of a started span always has a ["request_id"] entry:
    the one of the caller's metadata if it has one (the last, should the
    caller give several), otherwise the [request_id] argument, [None] when
    there is none.  Every other entry of the caller's metadata is kept. *)
Theorem X6_span_metadata_request_id (rt : Py.runtime) (s : t)
    (name category : string) (request_id parent : option string)
    (metadata : option (list (string * Py.value))) (now_id now_start : Q) :
  let r := start_trace rt s name category request_id parent metadata
             now_id now_start in
  let given := reverse (default [] metadata) in
  exists m,
    PerformanceData.metadata <$> (traces r.1 !! r.2) = Some (Some m) /\
    Dict.get "request_id" m =
      Some (default (from_option Py.VStr Py.VNone request_id)
              (Dict.get "request_id" given)) /\
    forall k, k <> "request_id" -> Dict.get k m = Dict.get k given.
Proof.
  cbn zeta. cbn [start_trace fst snd traces]. rewrite lookup_insert_eq.
  eexists. split; [reflexivity|]. unfold initial_metadata.
  split.
  - rewrite get_foldl_set. destruct (Dict.get "request_id" _); reflexivity.
  - intros k Hk. rewrite get_foldl_set.
    destruct (Dict.get k _); [reflexivity|].
    simpl. now rewrite decide_False.
Qed.

(** X7. Whatever traces are started and ended and whatever thresholds are
    set on a fresh tracker, every category of the history holds between one
    and 1000 spans, each filed under its own category with
    [duration_ms = (end_time - start_time) * 1000], while the open traces
    have neither end time nor duration.  [get_performance_metrics] therefore
    reports every category of the history, in the order of their first
    ended trace, with [count] the number of spans held. *)
Theorem X7_history_holds_completed_spans (rt : Py.runtime) (dir : string)
    (cs : list TrackerRun.call) :
  let s := TrackerRun.run rt (init rt dir) cs in
  filed s /\
  Dict.keys (get_performance_metrics s) = Dict.keys (historical_data s) /\
  forall category trs,
    Dict.get category (historical_data s) = Some trs ->
    exists m, Dict.get category (get_performance_metrics s) = Some m /\
              count m = Z.of_nat (length trs) /\ 1 <= count m <= 1000.
Proof.
  intros s.
  assert (Hf : filed s) by (apply run_filed, init_filed).
  split; [exact Hf|]. destruct Hf as (_ & Hall & _).
  assert (Hm : Forall (fun kv : string * list PerformanceData.t =>
                         is_Some (metrics_of_category s kv.1 kv.2))
                 (historical_data s)).
  { eapply Forall_impl; [exact Hall|]. intros [k trs] (Hne & _ & Hc).
    destruct (metrics_of_completed s k trs Hne Hc) as (m & E & _). eauto. }
  destruct (metrics_keys s _ Hm) as [K G]. split; [exact K|].
  intros category trs Hget. unfold get_performance_metrics. rewrite G, Hget.
  cbn [mbind option_bind].
  apply DictFacts.get_elem_of in Hget. rewrite Forall_forall in Hall.
  destruct (Hall _ Hget) as (Hne & Hlen & Hc). cbn [fst snd] in *.
  destruct (metrics_of_completed s category trs Hne Hc) as (m & E & Ec).
  exists m. split; [exact E|]. split; [exact Ec|].
  rewrite Ec. destruct trs; [contradiction|]. simpl in *. lia.
Qed.

(** X8. As long as no threshold is changed after initialisation, the
    threshold warnings in the tracker's log account for every span that
    [get_performance_metrics] counts in [threshold_exceeded_count]: the sum
    of these counts over all categories never exceeds the number of warnings
    logged, and equals it while no category has reached its bound of 1000
    spans. *)
Theorem X8_warnings_cover_exceeded_counts (rt : Py.runtime) (dir : string)
    (cs : list TrackerRun.call) :
  forallb keeps_thresholds cs = true ->
  let s := TrackerRun.run rt (init rt dir) cs in
  exceeded_total s <= warnings (log s) /\
  (below_capacity s -> exceeded_total s = warnings (log s)).
Proof.
  intros Hk s. rewrite exceeded_total_exceeding.
  destruct (run_gap rt (init rt dir) cs Hk) as [G1 G2].
  fold s in G1, G2. rewrite init_gap in G1, G2. unfold gap in G1, G2.
  split; [lia|]. intros Hb. destruct (G2 Hb) as [_ G]. lia.
Qed.

(** X8 on one trace of 2000 ms under the default threshold of 1000 ms. *)
Lemma X8_witness :
  let cs := [TrackerRun.StartTrace "op" "api_request" None None None 1 1;
             TrackerRun.EndTrace (trace_id_of Sample.rt "op" 1) true 3] in
  let s := TrackerRun.run Sample.rt (init Sample.rt "performance") cs in
  forallb keeps_thresholds cs = true /\
  warnings (log s) = 1 /\ exceeded_total s = 1.
Proof.
  intros cs s.
  assert (H : forallb keeps_thresholds cs = true) by reflexivity.
  split; [exact H|].
  assert (W : warnings (log s) = 1) by (vm_compute; reflexivity).
  split; [exact W|].
  destruct (X8_warnings_cover_exceeded_counts Sample.rt "performance" cs H)
    as [_ E].
  fold s in E. rewrite <- W. apply E.
  assert (Hh : exists trs, historical_data s = [("api_request", trs)] /\
                           length trs = 1%nat)
    by (vm_compute; eauto).
  destruct Hh as (trs & Eh & El). unfold below_capacity. rewrite Eh.
  constructor; [cbn [snd]; lia | constructor].
Defined.

Lemma get_metrics_inv (s : t) (category : string) (m : category_metrics) :
  Dict.get category (get_performance_metrics s) = Some m ->
  exists trs, (category, trs) ∈ historical_data s /\
              metrics_of_category s category trs = Some m.
Proof.
  intros H. apply DictFacts.get_elem_of in H. unfold get_performance_metrics in H.
  apply list_elem_of_omap in H as ([k trs] & Hin & Hf). cbn [fst snd] in Hf.
  destruct (metrics_of_category s k trs) as [m'|] eqn:E; [|discriminate Hf].
  injection Hf as -> ->. eauto.
Qed.

Lemma filter_length_zero {A : Type} (P : A -> Prop) `{forall x, Decision (P x)}
    (l : list A) :
  length (filter P l) = 0%nat <-> forall x, x ∈ l -> ~ P x.
Proof.
  induction l as [|a l IH].
  - split; [|reflexivity]. intros _ x Hx. now apply elem_of_nil in Hx.
  - destruct (decide (P a)) as [Ha | Ha].
    + rewrite filter_cons_True by exact Ha. split; [discriminate|].
      intros Hall. exfalso. apply (Hall a); [apply list_elem_of_here | exact Ha].
    + rewrite filter_cons_False by exact Ha. rewrite IH. split.
      * intros Hall x Hx. apply elem_of_cons in Hx as [-> | Hx]; auto.
      * intros Hall x Hx. apply Hall. now apply list_elem_of_further.
Qed.

(** X9. In every entry of [get_performance_metrics], [min_ms] and [max_ms]
    are durations of spans of that category, [count] is their positive
    number, the median, the average and the p95 (when reported) lie between
    [min_ms] and [max_ms], [threshold_ms] is the tracker's threshold of the
    category, and [threshold_exceeded_count] is between 0 and [count]: it is
    0 exactly when there is no threshold or [max_ms] does not exceed it. *)
Theorem X9_metrics_lie_between_min_and_max (s : t) (category : string)
    (m : category_metrics) :
  Dict.get category (get_performance_metrics s) = Some m ->
  (exists trs, (category, trs) ∈ historical_data s /\
               count m = Z.of_nat (length (durations_of trs)) /\
               min_ms m ∈ durations_of trs /\ max_ms m ∈ durations_of trs /\
               forall d, d ∈ durations_of trs ->
                         (min_ms m <= d)%Q /\ (d <= max_ms m)%Q) /\
  1 <= count m /\
  (min_ms m <= median_ms m)%Q /\ (median_ms m <= max_ms m)%Q /\
  (min_ms m <= average_ms m)%Q /\ (average_ms m <= max_ms m)%Q /\
  (forall p, p95_ms m = Some p -> (min_ms m <= p)%Q /\ (p <= max_ms m)%Q) /\
  threshold_ms m = thresholds s !! category /\
  0 <= threshold_exceeded_count m <= count m /\
  (threshold_exceeded_count m = 0 <->
   forall thr, threshold_ms m = Some thr -> (max_ms m <= thr)%Q).
Proof.
  intros H. destruct (get_metrics_inv s category m H) as (trs & Hin & Hm).
  unfold metrics_of_category in Hm.
  destruct (durations_of trs) as [|d0 ds] eqn:Ed; [discriminate Hm|].
  rewrite <- Ed in Hm. injection Hm as <-.
  cbn [count min_ms max_ms median_ms average_ms p95_ms threshold_ms
       threshold_exceeded_count].
  assert (Hne : durations_of trs <> []) by (rewrite Ed; discriminate).
  destruct (StatFacts.minimum_spec _ Hne) as [Mi1 Mi2].
  destruct (StatFacts.maximum_spec _ Hne) as [Ma1 Ma2].
  assert (Hb : forall d, d ∈ durations_of trs ->
                 (minimum (durations_of trs) <= d)%Q /\
                 (d <= maximum (durations_of trs))%Q) by (split; auto).
  destruct (StatFacts.median_bounds _ _ _ Hne Hb) as [Me1 Me2].
  destruct (StatFacts.mean_bounds _ _ _ Hne Hb) as [Av1 Av2].
  assert (Hpos : 1 <= Z.of_nat (length (durations_of trs)))
    by (rewrite Ed; simpl; lia).
  repeat apply conj; try assumption.
  - exists trs. repeat apply conj; auto.
  - intros p Hp. unfold p95 in Hp.
    destruct (20 <=? _); [|discriminate Hp].
    apply list_elem_of_lookup_2 in Hp.
    apply (proj1 (StatFacts.sorted_elem_of _ _)) in Hp. auto.
  - reflexivity.
  - destruct (thresholds s !! category); lia.
  - destruct (thresholds s !! category) as [thr|]; [|lia].
    pose proof (length_filter (fun d => Py.gt d thr = true) (durations_of trs)). lia.
  - destruct (thresholds s !! category) as [thr|].
    + intros H0 thr' [= <-].
      assert (H1 : length (filter (fun d => Py.gt d thr = true) (durations_of trs))
                   = 0%nat) by lia.
      rewrite filter_length_zero in H1. specialize (H1 _ Ma1).
      destruct (Py.gt (maximum (durations_of trs)) thr) eqn:E; [contradiction|].
      unfold Py.gt in E. apply negb_false_iff in E. now apply Qle_bool_iff.
    + intros _ thr Hthr. discriminate Hthr.
  - destruct (thresholds s !! category) as [thr|]; [|reflexivity].
    intros Hmax. specialize (Hmax thr eq_refl).
    assert (H1 : length (filter (fun d => Py.gt d thr = true) (durations_of trs))
                 = 0%nat); [|lia].
    apply filter_length_zero. intros d Hd Hgt.
    apply AlertFacts.gt_true_iff in Hgt. destruct (Hb d Hd) as [_ Hle]. lra.
Qed.

(** X9 on twenty spans of 1 ms to 20 ms. *)
Lemma X9_witness :
  exists m, Dict.get "api" (get_performance_metrics Sample.twenty_spans) = Some m /\
            (min_ms m <= median_ms m)%Q /\ (median_ms m <= max_ms m)%Q /\
            threshold_exceeded_count m = 0.
Proof.
  destruct (Dict.get "api" (get_performance_metrics Sample.twenty_spans))
    as [m|] eqn:E; [|vm_compute in E; discriminate E].
  exists m. split; [reflexivity|].
  destruct (X9_metrics_lie_between_min_and_max Sample.twenty_spans "api" m E)
    as (_ & _ & A & B & _ & _ & _ & T & _ & _ & Z0).
  split; [exact A|]. split; [exact B|]. apply Z0. intros thr Hthr.
  rewrite T in Hthr. discriminate Hthr.
Defined.

Lemma p95_index_bounds (n : nat) :
  (20 <= n <= 1000)%nat ->
  (n / 2 <= Z.to_nat (Binary64.int_mul_095 (Z.of_nat n)) < n)%nat.
Proof.
  intros Hn. rewrite int_mul_095_floor by lia.
  pose proof (Nat.Div0.mul_div_le n 2) as H2.
  pose proof (Z.mul_succ_div_gt (95 * Z.of_nat n) 100 ltac:(lia)) as H3.
  pose proof (Z.mul_div_le (95 * Z.of_nat n) 100 ltac:(lia)) as H4.
  lia.
Qed.

(** X10. On a tracker driven from its initial state, a category's entry
    reports no p95 exactly when it has fewer than 20 spans, and a reported
    p95 is never below the reported median. *)
Theorem X10_p95_needs_twenty_spans (rt : Py.runtime) (dir : string)
    (cs : list TrackerRun.call) (category : string) (m : category_metrics) :
  let s := TrackerRun.run rt (init rt dir) cs in
  Dict.get category (get_performance_metrics s) = Some m ->
  (p95_ms m = None <-> count m < 20) /\
  forall p, p95_ms m = Some p -> (median_ms m <= p)%Q.
Proof.
  intros s H. destruct (get_metrics_inv s category m H) as (trs & Hin & Hm).
  assert (Hf : filed s) by (apply run_filed, init_filed).
  destruct Hf as (_ & Hall & _). rewrite Forall_forall in Hall.
  destruct (Hall _ Hin) as (_ & Hlen & _). cbn [snd] in Hlen.
  pose proof (durations_length trs) as Hd.
  unfold metrics_of_category in Hm.
  destruct (durations_of trs) as [|d0 ds] eqn:Ed; [discriminate Hm|].
  rewrite <- Ed in Hm, Hd. injection Hm as <-. cbn [count p95_ms median_ms].
  clear Ed d0 ds. set (l := durations_of trs) in *. unfold p95.
  pose proof (sorted_length l) as Hsl.
  destruct (Z.leb_spec 20 (Z.of_nat (length l))) as [H20 | H20].
  - destruct (p95_index_bounds (length l)) as [I1 I2]; [lia|].
    destruct (lookup_lt_is_Some_2 (Py.sorted l)
                (Z.to_nat (Binary64.int_mul_095 (Z.of_nat (length l)))))
      as [v Hv]; [lia|].
    rewrite Hv. split; [split; [discriminate | lia]|].
    intros p [= <-]. unfold median. rewrite Hsl.
    assert (Hle : forall i, (i <= length l / 2)%nat ->
                    (nth i (Py.sorted l) 0 <= v)%Q).
    { intros i Hi.
      destruct (lookup_lt_is_Some_2 (Py.sorted l) i) as [x Hx]; [lia|].
      rewrite (nth_lookup_Some _ _ _ _ Hx).
      apply (StatFacts.sorted_lookup_le l i _ x v Hx Hv). lia. }
    destruct (Nat.even (length l)).
    + pose proof (Hle (length l / 2 - 1)%nat ltac:(lia)) as A.
      pose proof (Hle (length l / 2)%nat ltac:(lia)) as B.
      unfold Qdiv. change (/ 2)%Q with (1 # 2)%Q. lra.
    + apply Hle. lia.
  - split; [split; [lia | reflexivity] | discriminate].
Qed.

(** X10 on a tracker that has ended one trace. *)
Lemma X10_witness :
  let cs := [TrackerRun.StartTrace "op" "api" None None None 1 1;
             TrackerRun.EndTrace (trace_id_of Sample.rt "op" 1) true 2] in
  let s := TrackerRun.run Sample.rt (init Sample.rt "performance") cs in
  exists m, Dict.get "api" (get_performance_metrics s) = Some m /\
            count m = 1 /\ p95_ms m = None.
Proof.
  intros cs s.
  destruct (Dict.get "api" (get_performance_metrics s)) as [m|] eqn:E;
    [|vm_compute in E; discriminate E].
  exists m. split; [reflexivity|].
  assert (Hc : count m = 1) by (vm_compute in E; now injection E as <-).
  split; [exact Hc|].
  apply (X10_p95_needs_twenty_spans Sample.rt "performance" cs "api" m E). lia.
Defined.

End TrackerExtras.

(** ** Further facts on dictionaries and on the alert system *)

Module DictLaws.
Section DictLaws.
Context {K V : Type} `{EqDecision K}.
Implicit Types (d : list (K * V)) (k : K) (v : V).

Lemma get_remove k k' d :
  NoDup (Dict.keys d) ->
  Dict.get k (Dict.remove k' d) = if decide (k = k') then None else Dict.get k d.
Proof.
  unfold Dict.keys. induction d as [|[k0 v0] d IH]; intros Hnd.
  - simpl. now destruct (decide (k = k')).
  - rewrite fmap_cons in Hnd. apply NoDup_cons in Hnd as [Hk Hnd].
    cbn [Dict.remove Dict.get fst]. destruct (decide (k' = k0)) as [-> | Hne].
    + destruct (decide (k = k0)) as [-> | Hne']; [|reflexivity].
      now apply DictFacts.get_None_not_key.
    + cbn [Dict.get]. destruct (decide (k = k0)) as [-> | Hne'].
      * now rewrite decide_False by congruence.
      * now apply IH.
Qed.

Lemma Forall_remove (P : K * V -> Prop) k d :
  Forall P d -> Forall P (Dict.remove k d).
Proof.
  induction 1 as [|[k0 v0] d Hx Hd IH]; simpl; [constructor|].
  destruct (decide (k = k0)); [exact Hd | now constructor].
Qed.

Lemma keys_set_mem k v d :
  is_Some (Dict.get k d) -> Dict.keys (Dict.set k v d) = Dict.keys d.
Proof.
  intros [x Hx]. rewrite DictFacts.keys_set. unfold Dict.mem. now rewrite Hx.
Qed.

End DictLaws.
End DictLaws.

Module AlertHistoryFacts.
Import AlertSystem AlertSpec AlertHistory.

Lemma foldl_preserves {A : Type} (P : t -> Prop) (f : t -> A -> t) (l : list A)
    (s : t) :
  (forall s x, P s -> P (f s x)) -> P s -> P (foldl f s l).
Proof.
  intros Hf. revert s. induction l as [|x l IH]; simpl; auto.
Qed.

Lemma trigger_kept (rt : Py.runtime) (s : t) ty sev msg det now :
  kept s -> kept (trigger_alert rt s ty sev msg det now).1.
Proof.
  intros (H1 & H2 & H3 & H4). unfold kept, trigger_alert.
  cbn [fst active_alerts resolved_alerts].
  repeat apply conj; [now apply DictFacts.NoDup_keys_set | | exact H3 | exact H4].
  apply DictFacts.Forall_set; [exact H2|].
  unfold stored_active, classified. cbn. repeat apply conj; eauto.
Qed.

Lemma resolve_kept (s : t) alert_id msg now :
  kept s -> kept (resolve_alert s alert_id msg now).1.
Proof.
  intros (H1 & H2 & H3 & H4). unfold resolve_alert.
  destruct (Dict.get alert_id (active_alerts s)) as [a|] eqn:E;
    [|exact (conj H1 (conj H2 (conj H3 H4)))].
  unfold kept. cbn [fst active_alerts resolved_alerts]. repeat apply conj.
  - now apply DictFacts.NoDup_keys_remove.
  - now apply DictLaws.Forall_remove.
  - apply TrackerRunFacts.append_capped_Forall; [exact H3|].
    apply DictFacts.get_elem_of in E. rewrite Forall_forall in H2.
    destruct (H2 _ E) as (_ & _ & _ & _ & Hc1 & Hc2).
    unfold archived, classified. cbn [snd] in Hc1, Hc2.
    cbn [Alert.resolved Alert.status Alert.resolved_at Alert.resolution_message
         Alert.type Alert.severity].
    repeat apply conj; eauto.
  - pose proof (CapFacts.append_capped_length 1000 (resolved_alerts s)
                  (Alert.resolved a (Py.isoformat now) msg) ltac:(lia) ltac:(lia)).
    lia.
Qed.

Lemma check_category_kept rt now s entry :
  kept s -> kept (check_category rt now s entry).
Proof.
  intros Hs. unfold check_category.
  destruct (Dict.get AlertType.PERFORMANCE (thresholds s)) as [th|]; [|exact Hs].
  destruct (th !! _) as [thr|]; [|exact Hs].
  destruct (PerformanceTracker.p95_ms entry.2) as [p|]; [|exact Hs].
  destruct (_ && _); [|exact Hs].
  destruct (negb _); [|exact Hs].
  now apply trigger_kept.
Qed.

Lemma check_error_rate_kept rt s mc now :
  kept s -> kept (_check_error_rate_alerts rt s mc now).
Proof.
  intros Hs. unfold _check_error_rate_alerts.
  destruct (Dict.get AlertType.ERROR_RATE (thresholds s)) as [th|]; [|exact Hs].
  destruct (_ && _); [|exact Hs].
  destruct (negb _); [|exact Hs].
  now apply trigger_kept.
Qed.

Lemma sweep_item_kept rt pt now s item :
  kept s -> kept (sweep_item rt pt now s item).
Proof.
  intros Hs. unfold sweep_item.
  destruct (recovered pt item.2) as [[[c p] thr]|]; [|exact Hs].
  now apply resolve_kept.
Qed.

Lemma cycle_kept rt s pt mc now : kept s -> kept (monitor_cycle rt s pt mc now).
Proof.
  intros Hs. unfold monitor_cycle, _auto_resolve_alerts, _check_performance_alerts.
  set (s1 := foldl (check_category rt now) s _).
  assert (H1 : kept s1) by (apply foldl_preserves; auto using check_category_kept).
  set (s2 := _check_error_rate_alerts rt s1 mc now).
  assert (H2 : kept s2) by now apply check_error_rate_kept.
  generalize (active_alerts s2). intros l.
  apply foldl_preserves; auto using sweep_item_kept.
Qed.

Lemma init_kept (dir : string) : kept (init dir).
Proof.
  unfold kept. cbn. repeat apply conj; try constructor. lia.
Qed.

Lemma reachable_kept (rt : Py.runtime) (s : t) : reachable rt s -> kept s.
Proof.
  induction 1 as [dir | s ty h _ IH | s ty key v _ IH | s ty sev msg det now _ IH
                  | s id msg now _ IH | s pt mc now _ IH].
  - apply init_kept.
  - exact IH.
  - exact IH.
  - now apply trigger_kept.
  - now apply resolve_kept.
  - now apply cycle_kept.
Qed.

Lemma sweep_stays (rt : Py.runtime) (pt : PerformanceTracker.t) (now : Py.datetime)
    (l : list (string * Alert.t)) (s : t) :
  Forall (stays pt) l -> foldl (sweep_item rt pt now) s l = s.
Proof.
  induction 1 as [|item l Hx _ IH]; [reflexivity|]. cbn [foldl].
  unfold sweep_item at 2. unfold stays in Hx.
  destruct (recovered pt item.2) as [[[c p] thr]|]; [|exact IH].
  exfalso. apply Hx. eauto.
Qed.

Lemma index_of_rank (sev : AlertSeverity.t) :
  index_of (AlertSeverity.value sev) AlertSeverity.values = rank sev.
Proof. destruct sev; reflexivity. Qed.

End AlertHistoryFacts.

(** ** Further properties of the alert system *)

Module AlertExtras.
Import AlertSystem AlertSpec AlertHistory AlertFacts AlertHistoryFacts.

(** X11. In every state the alert system reaches through its operations and
    monitor cycles, with handlers that only read the alert they are given,
    each active alert is stored under its own id with status ["active"] and
    no resolution; each resolved alert has status ["resolved"], a resolution
    time and a resolution message; the type and severity of every alert are
    values of [AlertType] and [AlertSeverity]; and the resolved list holds
    at most 1000 alerts. *)
Theorem X11_alert_records_are_well_formed (rt : Py.runtime) (s : t) :
  reachable rt s ->
  NoDup (Dict.keys (active_alerts s)) /\
  (forall k a, Dict.get k (active_alerts s) = Some a ->
     Alert.id a = k /\ Alert.status a = "active" /\
     Alert.resolved_at a = None /\ Alert.resolution_message a = None /\
     classified a) /\
  (forall a, a ∈ resolved_alerts s ->
     Alert.status a = "resolved" /\ is_Some (Alert.resolved_at a) /\
     is_Some (Alert.resolution_message a) /\ classified a) /\
  (length (resolved_alerts s) <= 1000)%nat.
Proof.
  intros Hr. destruct (reachable_kept rt s Hr) as (H1 & H2 & H3 & H4).
  pose proof (proj1 (Forall_forall _ _) H2) as H2'.
  pose proof (proj1 (Forall_forall _ _) H3) as H3'.
  repeat apply conj; [exact H1 | | | exact H4].
  - intros k a Hk. exact (H2' _ (DictFacts.get_elem_of _ _ _ Hk)).
  - intros a Ha. exact (H3' _ Ha).
Qed.

(** X11 on the state after one detector run. *)
Lemma X11_witness :
  reachable Sample.rt
    (monitor_cycle Sample.rt (init "alerts") (Sample.steady "api_request" 3000)
       (Sample.tally 0 0) (Sample.at_time 12 0 0)) /\
  (length (resolved_alerts
     (monitor_cycle Sample.rt (init "alerts") (Sample.steady "api_request" 3000)
        (Sample.tally 0 0) (Sample.at_time 12 0 0))) <= 1000)%nat.
Proof.
  assert (H : reachable Sample.rt
                (monitor_cycle Sample.rt (init "alerts")
                   (Sample.steady "api_request" 3000) (Sample.tally 0 0)
                   (Sample.at_time 12 0 0)))
    by (apply reach_cycle, reach_init).
  split; [exact H|].
  exact (proj2 (proj2 (proj2 (X11_alert_records_are_well_formed Sample.rt _ H)))).
Defined.

(** X12. An alert that was just triggered is resolved by its id: the call
    returns true, the id is no longer active while every other active alert
    is as before the trigger, and the newest resolved alert is the triggered
    one with status ["resolved"], the resolution time and the resolution
    message.  Resolving the same id once more returns false and changes
    nothing. *)
Theorem X12_trigger_then_resolve (rt : Py.runtime) (s : t) (ty : AlertType.t)
    (sev : AlertSeverity.t) (msg : string) (det : option Alert.details)
    (now now1 now2 : Py.datetime) (msg1 msg2 : string) :
  reachable rt s ->
  let r1 := trigger_alert rt s ty sev msg det now in
  let r2 := resolve_alert r1.1 r1.2 msg1 now1 in
  r2.2 = true /\
  Dict.get r1.2 (active_alerts r2.1) = None /\
  (forall k, k <> r1.2 ->
     Dict.get k (active_alerts r2.1) = Dict.get k (active_alerts s)) /\
  (exists a, last (resolved_alerts r2.1) = Some a /\
             Alert.id a = r1.2 /\ Alert.message a = msg /\
             Alert.type a = AlertType.value ty /\
             Alert.severity a = AlertSeverity.value sev /\
             Alert.status a = "resolved" /\
             Alert.resolved_at a = Some (Py.isoformat now1) /\
             Alert.resolution_message a = Some msg1) /\
  resolve_alert r2.1 r1.2 msg2 now2 = (r2.1, false).
Proof.
  intros Hr r1 r2.
  destruct (reachable_inv rt s Hr) as (Hnd & _).
  set (id := alert_id_of rt ty msg now).
  assert (Hnd1 : NoDup (Dict.keys (active_alerts r1.1)))
    by (subst r1; cbn [trigger_alert fst active_alerts];
        now apply DictFacts.NoDup_keys_set).
  assert (E1 : r1.2 = id) by reflexivity.
  assert (Hget : exists a, Dict.get id (active_alerts r1.1) = Some a /\
                           Alert.id a = id /\ Alert.message a = msg /\
                           Alert.type a = AlertType.value ty /\
                           Alert.severity a = AlertSeverity.value sev).
  { subst r1. cbn [trigger_alert fst active_alerts]. fold id.
    rewrite DictFacts.get_set, decide_True by reflexivity.
    eexists. split; [reflexivity|]. repeat apply conj; reflexivity. }
  destruct Hget as (a & Ha & A1 & A2 & A3 & A4).
  assert (E2 : r2 = ({| alert_handlers := alert_handlers r1.1;
                        thresholds := thresholds r1.1;
                        active_alerts := Dict.remove id (active_alerts r1.1);
                        resolved_alerts :=
                          Py.append_capped 1000 (resolved_alerts r1.1)
                            (Alert.resolved a (Py.isoformat now1) msg1);
                        log := log r1.1 ++
                          [("INFO", "Resolved alert " +:+ id +:+ ": " +:+ msg1)] |},
                     true)).
  { subst r2. rewrite E1. unfold resolve_alert. now rewrite Ha. }
  rewrite E2, E1. cbn [fst snd active_alerts resolved_alerts].
  assert (Hgone : Dict.get id (Dict.remove id (active_alerts r1.1)) = None)
    by (rewrite DictLaws.get_remove by exact Hnd1; now rewrite decide_True).
  repeat apply conj.
  - reflexivity.
  - exact Hgone.
  - intros k Hk. rewrite DictLaws.get_remove by exact Hnd1.
    rewrite decide_False by exact Hk.
    subst r1. cbn [trigger_alert fst active_alerts]. fold id.
    now rewrite DictFacts.get_set, decide_False by exact Hk.
  - exists (Alert.resolved a (Py.isoformat now1) msg1).
    split; [apply CollectorFacts.last_append_capped; lia|].
    repeat apply conj; try assumption; reflexivity.
  - unfold resolve_alert. cbn [active_alerts]. now rewrite Hgone.
Qed.

(** X12 on the freshly initialised alert system. *)
Lemma X12_witness :
  let r1 := trigger_alert Sample.rt (init "alerts") AlertType.SECURITY
              AlertSeverity.INFO "Test alert" None (Sample.at_time 12 0 0) in
  let r2 := resolve_alert r1.1 r1.2 "Manual resolution" (Sample.at_time 12 1 0) in
  reachable Sample.rt (init "alerts") /\
  r2.2 = true /\ Dict.get r1.2 (active_alerts r2.1) = None.
Proof.
  intros r1 r2.
  assert (H : reachable Sample.rt (init "alerts")) by apply reach_init.
  split; [exact H|].
  destruct (X12_trigger_then_resolve Sample.rt (init "alerts") AlertType.SECURITY
              AlertSeverity.INFO "Test alert" None (Sample.at_time 12 0 0)
              (Sample.at_time 12 1 0) (Sample.at_time 12 1 0)
              "Manual resolution" "again" H) as (A & B & _).
  split; [exact A | exact B].
Defined.

(** X13. A second auto-resolution sweep over an unchanged tracker does
    nothing: the state after the first sweep is a fixed point of the sweep,
    at whatever time the second one runs. *)
Theorem X13_second_sweep_changes_nothing (rt : Py.runtime) (s : t)
    (pt : PerformanceTracker.t) (now now' : Py.datetime) :
  reachable rt s ->
  let s1 := _auto_resolve_alerts rt s pt now in
  _auto_resolve_alerts rt s1 pt now' = s1.
Proof.
  intros Hr s1. destruct (reachable_inv rt s Hr) as (Hnd & _).
  destruct (sweep_fold rt pt now (active_alerts s) s [] eq_refl Hnd) as [A _].
  fold (_auto_resolve_alerts rt s pt now) in A. fold s1 in A.
  unfold _auto_resolve_alerts at 1. rewrite A. cbn [app].
  apply sweep_stays. apply Forall_forall. intros item Hitem.
  now apply list_elem_of_filter in Hitem as [Hst _].
Qed.

(** X13 on a state with one recovered performance alert. *)
Lemma X13_witness :
  let s := (trigger_alert Sample.rt (init "alerts") AlertType.PERFORMANCE
              AlertSeverity.WARNING "slow"
              (Some {| Alert.category := Some "api_request";
                       Alert.p95_ms := Some 3000%Q;
                       Alert.threshold_ms := Some 2000%Q;
                       Alert.metrics := None;
                       Alert.error_rate := None; Alert.threshold := None;
                       Alert.failed_requests := None;
                       Alert.total_requests := None;
                       Alert.other := [] |})
              (Sample.at_time 12 0 0)).1 in
  let pt := Sample.steady "api_request" 100 in
  let s1 := _auto_resolve_alerts Sample.rt s pt (Sample.at_time 12 2 0) in
  reachable Sample.rt s /\
  length (resolved_alerts s1) = 1%nat /\
  _auto_resolve_alerts Sample.rt s1 pt (Sample.at_time 12 3 0) = s1.
Proof.
  intros s pt s1.
  assert (H : reachable Sample.rt s) by (apply reach_trigger, reach_init).
  split; [exact H|]. split; [vm_compute; reflexivity|].
  exact (X13_second_sweep_changes_nothing Sample.rt s pt (Sample.at_time 12 2 0)
           (Sample.at_time 12 3 0) H).
Defined.

(** X14. With the handlers that [__init__] registers, [trigger_alert]
    writes the alert line ["ALERT [SEVERITY]: message"] to the log twice, once
    by the log handler and once by itself, whatever the type; between the
    two, the email handler adds its line exactly when the severity is
    CRITICAL. *)
Theorem X14_default_handlers_log (rt : Py.runtime) (s : t) (dir : string)
    (ty : AlertType.t) (sev : AlertSeverity.t) (msg : string)
    (det : option Alert.details) (now : Py.datetime) :
  alert_handlers s = alert_handlers (init dir) ->
  log (trigger_alert rt s ty sev msg det now).1 =
  log s ++ [alert_line sev msg] ++
  match sev with
  | AlertSeverity.CRITICAL =>
      [("CRITICAL", "Would send email for CRITICAL alert: " +:+ msg)]
  | _ => []
  end ++ [alert_line sev msg].
Proof.
  intros H. unfold trigger_alert. cbn [fst log]. rewrite H. f_equal.
  destruct ty, sev; reflexivity.
Qed.

(** X14 on a critical alert of the initial system. *)
Lemma X14_witness :
  alert_handlers (init "alerts") = alert_handlers (init "alerts") /\
  drop (length (log (init "alerts")))
    (log (trigger_alert Sample.rt (init "alerts") AlertType.SYSTEM
            AlertSeverity.CRITICAL "disk full" None (Sample.at_time 12 0 0)).1) =
  [("WARNING", "ALERT [CRITICAL]: disk full");
   ("CRITICAL", "Would send email for CRITICAL alert: disk full");
   ("WARNING", "ALERT [CRITICAL]: disk full")].
Proof.
  split; [reflexivity|].
  rewrite (X14_default_handlers_log Sample.rt (init "alerts") "alerts"
             AlertType.SYSTEM AlertSeverity.CRITICAL "disk full" None
             (Sample.at_time 12 0 0) eq_refl).
  rewrite drop_app_length. reflexivity.
Defined.

(** X15. Two alerts of the same type and message triggered within the same
    second get the same id: the second replaces the first in the active
    alerts, whose keys stay as they were, and the first is not archived
    among the resolved alerts either. *)
Theorem X15_same_second_alerts_collapse (rt : Py.runtime) (s : t)
    (ty : AlertType.t) (msg : string) (sev1 sev2 : AlertSeverity.t)
    (det1 det2 : option Alert.details) (now1 now2 : Py.datetime) :
  Py.strftime_YmdHMS now1 = Py.strftime_YmdHMS now2 ->
  let r1 := trigger_alert rt s ty sev1 msg det1 now1 in
  let r2 := trigger_alert rt r1.1 ty sev2 msg det2 now2 in
  r2.2 = r1.2 /\
  Dict.keys (active_alerts r2.1) = Dict.keys (active_alerts r1.1) /\
  (exists a, Dict.get r1.2 (active_alerts r2.1) = Some a /\
             Alert.severity a = AlertSeverity.value sev2 /\
             Alert.timestamp a = Py.isoformat now2 /\
             Alert.det a = default Alert.no_details det2) /\
  resolved_alerts r2.1 = resolved_alerts s.
Proof.
  intros Hsec r1 r2.
  assert (Eid : alert_id_of rt ty msg now2 = alert_id_of rt ty msg now1)
    by (unfold alert_id_of; now rewrite Hsec).
  subst r1 r2. cbn [trigger_alert fst snd active_alerts resolved_alerts].
  rewrite Eid. repeat apply conj.
  - reflexivity.
  - apply DictLaws.keys_set_mem.
    rewrite DictFacts.get_set, decide_True by reflexivity. eauto.
  - eexists. split.
    + rewrite DictFacts.get_set, decide_True by reflexivity. reflexivity.
    + repeat apply conj; reflexivity.
  - reflexivity.
Qed.

(** X15 on two alerts half a second apart. *)
Lemma X15_witness :
  let now1 := Sample.at_time 12 0 0 in
  let now2 := {| Py.year := 2025; Py.month := 3; Py.day := 14; Py.hour := 12;
                 Py.minute := 0; Py.second := 0; Py.microsecond := 500000 |} in
  let r1 := trigger_alert Sample.rt (init "alerts") AlertType.SECURITY
              AlertSeverity.INFO "login failed" None now1 in
  let r2 := trigger_alert Sample.rt r1.1 AlertType.SECURITY
              AlertSeverity.CRITICAL "login failed" None now2 in
  Py.strftime_YmdHMS now1 = Py.strftime_YmdHMS now2 /\
  r2.2 = r1.2 /\ length (active_alerts r2.1) = 1%nat.
Proof.
  intros now1 now2 r1 r2.
  assert (H : Py.strftime_YmdHMS now1 = Py.strftime_YmdHMS now2) by reflexivity.
  split; [exact H|].
  destruct (X15_same_second_alerts_collapse Sample.rt (init "alerts")
              AlertType.SECURITY "login failed" AlertSeverity.INFO
              AlertSeverity.CRITICAL None None now1 now2 H) as (A & _).
  split; [exact A | vm_compute; reflexivity].
Defined.

(** X16. On every reachable state (handlers only reading the alert they are
    given), [get_active_alerts] returns the active alerts in insertion
    order, keeping exactly those of the given type (if one is given) whose
    severity is at or above the given minimum (if one is given) in the order
    INFO, WARNING, ERROR, CRITICAL; the severity of every active alert is
    found in that order. *)
Theorem X16_get_active_alerts_filters (rt : Py.runtime) (s : t)
    (alert_type : option AlertType.t) (min_severity : option AlertSeverity.t) :
  reachable rt s ->
  sublist (get_active_alerts s alert_type min_severity) (active_alerts s).*2 /\
  (forall a, a ∈ get_active_alerts s alert_type min_severity <->
             a ∈ (active_alerts s).*2 /\ passes alert_type min_severity a) /\
  get_active_alerts s None None = (active_alerts s).*2.
Proof.
  intros Hr. destruct (reachable_kept rt s Hr) as (_ & Hact & _).
  assert (Hcl : forall a, a ∈ (active_alerts s).*2 ->
                  exists sev, Alert.severity a = AlertSeverity.value sev).
  { intros a Ha. apply list_elem_of_fmap in Ha as (kv & -> & Hkv).
    rewrite Forall_forall in Hact.
    destruct (Hact _ Hkv) as (_ & _ & _ & _ & _ & Hsev). exact Hsev. }
  unfold get_active_alerts, passes. repeat apply conj; [| |reflexivity].
  - destruct alert_type as [ty|], min_severity as [sev|]; cbn zeta.
    + etransitivity; apply sublist_filter.
    + apply sublist_filter.
    + apply sublist_filter.
    + reflexivity.
  - intros a.
    destruct alert_type as [ty|], min_severity as [sev|]; cbn zeta;
      rewrite ?list_elem_of_filter.
    + split.
      * intros (Hs & Ht & Ha). split; [exact Ha|]. split.
        -- now intros ty' [= <-].
        -- intros sev' [= <-]. destruct (Hcl a Ha) as (sa & Esa).
           exists sa. split; [exact Esa|].
           rewrite Esa, !index_of_rank in Hs. exact Hs.
      * intros (Ha & Ht & Hs). destruct (Hs sev eq_refl) as (sa & Esa & Hle).
        split; [|split; [now apply Ht | exact Ha]].
        now rewrite Esa, !index_of_rank.
    + split.
      * intros (Ht & Ha). split; [exact Ha|]. split.
        -- now intros ty' [= <-].
        -- intros sev' Hn. discriminate Hn.
      * intros (Ha & Ht & _). split; [now apply Ht | exact Ha].
    + split.
      * intros (Hs & Ha). split; [exact Ha|]. split.
        -- intros ty' Hn. discriminate Hn.
        -- intros sev' [= <-]. destruct (Hcl a Ha) as (sa & Esa).
           exists sa. split; [exact Esa|].
           rewrite Esa, !index_of_rank in Hs. exact Hs.
      * intros (Ha & _ & Hs). destruct (Hs sev eq_refl) as (sa & Esa & Hle).
        split; [|exact Ha]. now rewrite Esa, !index_of_rank.
    + split.
      * intros Ha. split; [exact Ha|]. split; intros x Hn; discriminate Hn.
      * now intros [Ha _].
Qed.

(** X16 on an info and an error alert, filtered from ERROR up. *)
Lemma X16_witness :
  let s1 := (trigger_alert Sample.rt (init "alerts") AlertType.SECURITY
               AlertSeverity.INFO "Info alert" None (Sample.at_time 12 0 0)).1 in
  let s2 := (trigger_alert Sample.rt s1 AlertType.SECURITY
               AlertSeverity.ERROR "Error alert" None (Sample.at_time 12 0 1)).1 in
  reachable Sample.rt s2 /\
  map Alert.message (get_active_alerts s2 None (Some AlertSeverity.ERROR)) =
    ["Error alert"] /\
  sublist (get_active_alerts s2 None (Some AlertSeverity.ERROR))
    (active_alerts s2).*2.
Proof.
  intros s1 s2.
  assert (H : reachable Sample.rt s2)
    by (apply reach_trigger, reach_trigger, reach_init).
  split; [exact H|]. split; [vm_compute; reflexivity|].
  exact (proj1 (X16_get_active_alerts_filters Sample.rt s2 None
                  (Some AlertSeverity.ERROR) H)).
Defined.

End AlertExtras.

(** ** The analytics service *)

Module AnalyticsFacts.
Import MetricsCollector AnalyticsService AnalyticsSpec.

Lemma init_recorded : recorded init.
Proof. unfold recorded. cbn. repeat apply conj; [reflexivity | lia | constructor]. Qed.

Lemma step_recorded (rt : Py.runtime) (s : t) (c : call) :
  recorded s -> recorded (step rt s c).1.
Proof.
  intros (H1 & H2 & H3).
  destruct c as [r u ss now | r tin tout | r nm | r nm | r rs | r m | r ok now];
    cbn [step fst];
    unfold record_llm_call, record_tool_call, record_agent_call,
      record_guardrail_block, record_error, complete_request;
    try (destruct (active_contexts s !! r); exact (conj H1 (conj H2 H3))).
  destruct (active_contexts s !! r) as [ctx|]; [|exact (conj H1 (conj H2 H3))].
  unfold recorded. cbn [fst max_historical historical_metrics]. rewrite H1.
  repeat apply conj.
  - reflexivity.
  - match goal with
    | |- (length (Py.append_capped 1000 ?l ?x) <= 1000)%nat =>
        pose proof (CapFacts.append_capped_length 1000 l x ltac:(lia) ltac:(lia))
    end. lia.
  - apply TrackerRunFacts.append_capped_Forall; [exact H3|].
    unfold timed. cbn. eauto.
Qed.

Lemma run_recorded (rt : Py.runtime) (cs : list call) (s : t) :
  recorded s -> recorded (run rt s cs).1.
Proof.
  revert s. induction cs as [|c cs IH]; intros s Hs; [exact Hs|].
  cbn [run fst]. apply IH. now apply step_recorded.
Qed.

Lemma floats_Some (l : list (option Q)) :
  Forall is_Some l -> exists lat, floats l = Some lat /\ length lat = length l.
Proof.
  intros H. destruct (mapM_is_Some_2 id l) as [lat Hlat].
  { eapply Forall_impl; [exact H|]. auto. }
  exists lat. split; [exact Hlat|]. symmetry. eapply length_mapM. exact Hlat.
Qed.

Lemma foldl_keeps {A B : Type} (P : A -> Prop) (f : A -> B -> A) (l : list B) :
  forall a, (forall a x, x ∈ l -> P a -> P (f a x)) -> P a -> P (foldl f a l).
Proof.
  induction l as [|x l IH]; intros a Hf Ha; [exact Ha|]. cbn [foldl].
  apply IH.
  - intros a' y Hy. apply Hf. now apply list_elem_of_further.
  - apply Hf; [apply list_elem_of_here | exact Ha].
Qed.

(** The per-tool lists hold latencies of the records read. *)
Lemma tool_latencies_timed (metrics : list HistoricalRecord.t) :
  Forall timed metrics ->
  Forall (fun kv : string * list (option Q) => Forall is_Some kv.2)
    (tool_latencies metrics).
Proof.
  intros Hm. unfold tool_latencies.
  apply (foldl_keeps (Forall (fun kv : string * list (option Q) =>
                                Forall is_Some kv.2))); [|constructor].
  intros d m Hin Hd. rewrite Forall_forall in Hm. specialize (Hm _ Hin).
  apply foldl_keeps; [|exact Hd].
  intros d' tool _ Hd'. apply DictFacts.Forall_set; [exact Hd'|]. cbn [snd].
  apply Forall_app. split; [|now repeat constructor].
  destruct (Dict.get tool d') as [old|] eqn:E; [|constructor].
  apply DictFacts.get_elem_of in E. rewrite Forall_forall in Hd'.
  exact (Hd' _ E).
Qed.

Lemma tool_entries_Some (ar : arithmetic)
    (tl : list (string * list (option Q))) :
  Forall (fun kv : string * list (option Q) => Forall is_Some kv.2) tl ->
  is_Some (mapM (fun kv : string * list (option Q) =>
                   (fun e => (kv.1, e)) <$> tool_entry ar kv.2) tl).
Proof.
  intros H. apply mapM_is_Some_2. eapply Forall_impl; [exact H|].
  intros [k l] Hl. cbn [snd fst] in *. unfold compose, tool_entry. cbn [fst snd].
  destruct (floats_Some l Hl) as (lat & E & _). rewrite E. cbn. eauto.
Qed.

Lemma p95_index_any (n : nat) :
  (1 <= n <= 1000)%nat ->
  (n / 2 <= Z.to_nat (Binary64.int_mul_095 (Z.of_nat n)) < n)%nat /\
  ((n <= 20)%nat -> Z.to_nat (Binary64.int_mul_095 (Z.of_nat n)) = (n - 1)%nat).
Proof.
  intros Hn. rewrite TrackerFacts.int_mul_095_floor by lia.
  pose proof (Nat.Div0.mul_div_le n 2) as H2.
  pose proof (Z.mul_succ_div_gt (95 * Z.of_nat n) 100 ltac:(lia)) as H3.
  pose proof (Z.mul_div_le (95 * Z.of_nat n) 100 ltac:(lia)) as H4.
  split; [lia|]. intros H20.
  assert (E : 95 * Z.of_nat n / 100 = Z.of_nat n - 1).
  { symmetry. apply (Z.div_unique_pos _ _ _ (100 - 5 * Z.of_nat n)); lia. }
  rewrite E. lia.
Qed.

(** The order of the figures [_analyze_performance] reads off the sorted
    latencies. *)
Lemma sorted_figures (l : list Q) :
  l <> [] -> (length l <= 1000)%nat ->
  exists med p,
    sorted_at l (length l / 2) = Some med /\
    sorted_at l (Z.to_nat (Binary64.int_mul_095 (Z.of_nat (length l)))) = Some p /\
    med ∈ l /\ p ∈ l /\
    (PerformanceTracker.minimum l <= med)%Q /\ (med <= p)%Q /\
    (p <= PerformanceTracker.maximum l)%Q /\
    ((length l <= 20)%nat -> (p == PerformanceTracker.maximum l)%Q).
Proof.
  intros Hne Hlen.
  assert (Hpos : (1 <= length l)%nat) by (destruct l; [contradiction | simpl; lia]).
  destruct (p95_index_any (length l) ltac:(lia)) as [[I1 I2] I3].
  pose proof (TrackerFacts.sorted_length l) as Hsl.
  destruct (lookup_lt_is_Some_2 (Py.sorted l) (length l / 2)) as [med Hmed];
    [lia|].
  destruct (lookup_lt_is_Some_2 (Py.sorted l)
              (Z.to_nat (Binary64.int_mul_095 (Z.of_nat (length l)))))
    as [p Hp]; [lia|].
  destruct (StatFacts.minimum_spec l Hne) as [_ Hmin].
  destruct (StatFacts.maximum_spec l Hne) as [Hmaxin Hmax].
  exists med, p. unfold sorted_at. destruct l as [|x l']; [contradiction|].
  set (l := x :: l') in *.
  repeat apply conj; try assumption.
  - apply StatFacts.sorted_elem_of. eapply list_elem_of_lookup_2, Hmed.
  - apply StatFacts.sorted_elem_of. eapply list_elem_of_lookup_2, Hp.
  - apply Hmin, StatFacts.sorted_elem_of. eapply list_elem_of_lookup_2, Hmed.
  - exact (StatFacts.sorted_lookup_le l _ _ med p Hmed Hp I1).
  - apply Hmax, StatFacts.sorted_elem_of. eapply list_elem_of_lookup_2, Hp.
  - intros H20. apply Qle_antisym.
    + apply Hmax, StatFacts.sorted_elem_of. eapply list_elem_of_lookup_2, Hp.
    + apply StatFacts.sorted_elem_of in Hmaxin.
      apply list_elem_of_lookup_1 in Hmaxin as [i Hi].
      apply (StatFacts.sorted_lookup_le l i _ _ _ Hi Hp).
      apply lookup_lt_Some in Hi. rewrite I3 by exact H20. lia.
Qed.

End AnalyticsFacts.

(** ** Grouping records by period *)

Module GroupFacts.
Import AnalyticsService AnalyticsSpec.

Lemma over_groups_set {V : Type} (f : V -> Z) (k : string) (v : V)
    (d : list (string * V)) :
  foldr Z.add 0 ((fun kv => f kv.2) <$> Dict.set k v d) =
  foldr Z.add 0 ((fun kv => f kv.2) <$> d) -
  match Dict.get k d with Some old => f old | None => 0 end + f v.
Proof.
  induction d as [|[k0 v0] d IH].
  - cbn. lia.
  - cbn [Dict.set Dict.get]. destruct (decide (k = k0)) as [-> | Hne].
    + rewrite !fmap_cons. cbn [foldr snd]. lia.
    + rewrite !fmap_cons. cbn [foldr snd]. rewrite IH. lia.
Qed.

Lemma group_by_snoc (key : string -> option string)
    (ms : list HistoricalRecord.t) (m : HistoricalRecord.t) :
  group_by key (ms ++ [m]) =
  d ← group_by key ms;
  k ← key (HistoricalRecord.timestamp m);
  Some (Dict.set k (default [] (Dict.get k d) ++ [m]) d).
Proof. unfold group_by. now rewrite foldl_app. Qed.

Lemma successful_of_app (l1 l2 : list HistoricalRecord.t) :
  successful_of (l1 ++ l2) = successful_of l1 + successful_of l2.
Proof. unfold successful_of. rewrite filter_app, length_app. lia. Qed.

Lemma successful_of_bounds (l : list HistoricalRecord.t) :
  0 <= successful_of l <= Z.of_nat (length l).
Proof.
  unfold successful_of.
  pose proof (length_filter (fun m => HistoricalRecord.success m = true) l). lia.
Qed.

(** What the grouping loop builds. *)
Lemma group_by_spec (key : string -> option string)
    (ms : list HistoricalRecord.t) :
  forall d, group_by key ms = Some d ->
    NoDup (Dict.keys d) /\
    Forall (fun kv : string * list HistoricalRecord.t =>
              kv.2 <> [] /\ Forall (fun m => m ∈ ms) kv.2) d /\
    (forall m, m ∈ ms ->
       exists k, key (HistoricalRecord.timestamp m) = Some k /\ k ∈ Dict.keys d) /\
    foldr Z.add 0 ((fun kv => Z.of_nat (length kv.2)) <$> d) =
      Z.of_nat (length ms) /\
    foldr Z.add 0 ((fun kv => successful_of kv.2) <$> d) = successful_of ms.
Proof.
  induction ms as [|m ms IH] using rev_ind; intros d Hd.
  - injection Hd as <-. repeat apply conj; try constructor.
    intros m Hm. now apply elem_of_nil in Hm.
  - rewrite group_by_snoc in Hd.
    destruct (group_by key ms) as [d0|]; [|discriminate Hd].
    cbn [mbind option_bind] in Hd.
    destruct (key (HistoricalRecord.timestamp m)) as [k|] eqn:Ek;
      [|discriminate Hd].
    cbn [mbind option_bind] in Hd. injection Hd as <-.
    destruct (IH d0 eq_refl) as (I1 & I2 & I3 & I4 & I5).
    assert (Hold : Forall (fun m' => m' ∈ ms ++ [m]) (default [] (Dict.get k d0))).
    { destruct (Dict.get k d0) as [old|] eqn:E; [|constructor].
      apply DictFacts.get_elem_of in E. rewrite Forall_forall in I2.
      destruct (I2 _ E) as [_ Ho]. eapply Forall_impl; [exact Ho|].
      intros x Hx. apply elem_of_app. now left. }
    repeat apply conj.
    + now apply DictFacts.NoDup_keys_set.
    + apply DictFacts.Forall_set.
      * eapply Forall_impl; [exact I2|]. intros [k' v'] [Hne Hall].
        split; [exact Hne|]. eapply Forall_impl; [exact Hall|].
        intros x Hx. apply elem_of_app. now left.
      * cbn [snd]. split; [now destruct (default [] (Dict.get k d0))|].
        apply Forall_app. split; [exact Hold|].
        constructor; [|constructor]. apply elem_of_app. right.
        apply list_elem_of_here.
    + intros m' Hm'. rewrite DictFacts.keys_set. unfold Dict.mem.
      apply elem_of_app in Hm' as [Hm' | Hm'].
      * destruct (I3 m' Hm') as (k' & Ek' & Hk'). exists k'. split; [exact Ek'|].
        destruct (Dict.get k d0); [exact Hk' | apply elem_of_app; now left].
      * apply list_elem_of_singleton in Hm' as ->. exists k. split; [exact Ek|].
        destruct (Dict.get k d0) eqn:E.
        -- apply DictFacts.get_elem_of in E.
           now apply (list_elem_of_fmap_2 fst) in E.
        -- apply elem_of_app. right. apply list_elem_of_here.
    + rewrite (over_groups_set (fun v => Z.of_nat (length v))), I4.
      rewrite !length_app. cbn [length].
      destruct (Dict.get k d0); cbn [default from_option id length]; lia.
    + rewrite (over_groups_set successful_of), I5, !successful_of_app.
      destruct (Dict.get k d0); cbn [default from_option id]; [lia|].
      change (successful_of []) with 0. lia.
Qed.

Lemma group_by_Some (key : string -> option string)
    (ms : list HistoricalRecord.t) :
  Forall (fun m => is_Some (key (HistoricalRecord.timestamp m))) ms ->
  is_Some (group_by key ms).
Proof.
  induction ms as [|m ms IH] using rev_ind; intros H; [now eexists|].
  apply Forall_app in H as [H1 H2]. inversion H2 as [|? ? [k Hk] _]; subst.
  destruct (IH H1) as [d Hd]. rewrite group_by_snoc, Hd. cbn [mbind option_bind].
  rewrite Hk. cbn. eauto.
Qed.

Lemma period_entry_consistent (ar : arithmetic) (ms : list HistoricalRecord.t)
    (e : period_stats) :
  ms <> [] -> period_entry ar ms = Some e ->
  consistent e /\ ps_total_requests e = Z.of_nat (length ms) /\
  ps_successful_requests e = successful_of ms.
Proof.
  intros Hne He. unfold period_entry in He.
  destruct (floats _) as [lat|]; [|discriminate He].
  cbn [mbind option_bind] in He. injection He as <-.
  pose proof (successful_of_bounds ms) as Hb.
  assert (Hpos : 1 <= Z.of_nat (length ms))
    by (destruct ms; [contradiction | simpl; lia]).
  unfold consistent.
  cbn [ps_total_requests ps_successful_requests ps_failed_requests ps_success_rate].
  destruct (CollectorExtras.ratio_bounds (successful_of ms) (Z.of_nat (length ms)))
    as [R1 R2]; [lia | lia |].
  destruct ms as [|m ms']; [contradiction|].
  repeat apply conj; try lia; try assumption; reflexivity.
Qed.

(** The report has one consistent entry per group, under the group's key. *)
Lemma entries_spec (ar : arithmetic)
    (d : list (string * list HistoricalRecord.t))
    (stats : list (string * period_stats)) :
  Forall (fun kv : string * list HistoricalRecord.t => kv.2 <> []) d ->
  mapM (fun kv : string * list HistoricalRecord.t =>
          (fun e => (kv.1, e)) <$> period_entry ar kv.2) d = Some stats ->
  Dict.keys stats = Dict.keys d /\
  Forall (fun kv : string * period_stats => consistent kv.2) stats /\
  over_periods ps_total_requests stats =
    foldr Z.add 0 ((fun kv => Z.of_nat (length kv.2)) <$> d) /\
  over_periods ps_successful_requests stats =
    foldr Z.add 0 ((fun kv => successful_of kv.2) <$> d).
Proof.
  intros Hne Hm. apply mapM_Some_1 in Hm. unfold over_periods, Dict.keys.
  induction Hm as [|[k ms] [k' e] d stats Hx _ IH].
  - repeat apply conj; constructor.
  - apply Forall_cons in Hne as [Hne1 Hne2]. cbn [fst snd] in Hx, Hne1.
    destruct (period_entry ar ms) as [e0|] eqn:Ee; [|discriminate Hx].
    cbn in Hx. injection Hx as <- <-.
    destruct (period_entry_consistent ar ms e0 Hne1 Ee) as (C1 & C2 & C3).
    destruct (IH Hne2) as (J1 & J2 & J3 & J4).
    rewrite !fmap_cons. cbn [foldr fst snd].
    repeat apply conj.
    + now f_equal.
    + now constructor.
    + rewrite J3, C2. reflexivity.
    + rewrite J4, C3. reflexivity.
Qed.

End GroupFacts.

(** ** Properties of the analytics service *)

Module AnalyticsExtras.
Import MetricsCollector AnalyticsService AnalyticsSpec AnalyticsFacts GroupFacts.

Lemma floats_elem_of (l : list (option Q)) (lat : list Q) (x : Q) :
  floats l = Some lat -> x ∈ lat -> Some x ∈ l.
Proof.
  intros H. apply mapM_Some_1 in H.
  induction H as [|o y l lat Ho _ IH]; intros Hx.
  - now apply elem_of_nil in Hx.
  - cbn in Ho. subst o. apply elem_of_cons in Hx as [-> | Hx].
    + apply list_elem_of_here.
    + apply list_elem_of_further. auto.
Qed.

(** X17. On the history of a collector driven from its initial state,
    [_analyze_performance] never raises.  It answers "No metrics available"
    exactly when no request has completed; otherwise the minimum, median,
    p95 and maximum it reports are latencies of records of the history,
    with [min <= median <= p95 <= max]; and, as it applies no 20-sample
    rule, the p95 of at most 20 records is the maximum latency. *)
Theorem X17_performance_analysis_of_history (ar : arithmetic)
    (rt : Py.runtime) (cs : list call) :
  let h := historical_metrics (run rt init cs).1 in
  exists r,
    _analyze_performance ar h = Some r /\
    (r = NoMetrics <-> h = []) /\
    forall p, r = Report p ->
      Forall (fun x => Some x ∈ map HistoricalRecord.latency_ms h)
        [min_latency_ms p; median_latency_ms p; p95_latency_ms p;
         max_latency_ms p] /\
      (min_latency_ms p <= median_latency_ms p)%Q /\
      (median_latency_ms p <= p95_latency_ms p)%Q /\
      (p95_latency_ms p <= max_latency_ms p)%Q /\
      ((length h <= 20)%nat -> (p95_latency_ms p == max_latency_ms p)%Q).
Proof.
  intros h. destruct (run_recorded rt cs init init_recorded) as (_ & Hlen & Ht).
  fold h in Hlen, Ht. clearbody h.
  destruct h as [|r0 h'].
  { exists NoMetrics. split; [reflexivity|]. split; [tauto|]. discriminate. }
  set (h := r0 :: h') in *.
  destruct (floats_Some (map HistoricalRecord.latency_ms h)) as (lat & El & Ll).
  { apply Forall_fmap. exact Ht. }
  rewrite length_map in Ll.
  assert (Hne : lat <> []) by (destruct lat; [discriminate Ll | discriminate]).
  destruct (sorted_figures lat Hne ltac:(lia))
    as (med & p & E1 & E2 & M1 & M2 & B1 & B2 & B3 & B4).
  destruct (tool_entries_Some ar _ (tool_latencies_timed h Ht)) as [tools Etools].
  destruct (StatFacts.minimum_spec lat Hne) as [Hmin _].
  destruct (StatFacts.maximum_spec lat Hne) as [Hmax _].
  eexists. split.
  - unfold _analyze_performance. subst h. cbv beta iota.
    rewrite El. cbn [mbind option_bind].
    rewrite E1. cbn [mbind option_bind]. rewrite E2. cbn [mbind option_bind].
    rewrite Etools. cbn [mbind option_bind]. reflexivity.
  - split; [split; discriminate|].
    intros p' [= <-].
    cbn [min_latency_ms median_latency_ms p95_latency_ms max_latency_ms].
    repeat apply conj; try assumption.
    + repeat (apply Forall_cons; split; [now apply (floats_elem_of _ lat)|]).
      constructor.
    + intros H20. apply B4. lia.
Qed.

(** X18. With [hour_key] for
    [datetime.fromisoformat(ts).strftime("%Y-%m-%d %H:00")],
    [_calculate_hourly_stats] raises only where a timestamp does not parse
    or a latency is missing, and answers "No metrics available" exactly for
    no records.  Otherwise its report has one entry per hour
    that occurs, every record's hour among them, and the entries add up: in
    each, [successful_requests + failed_requests = total_requests >= 1] and
    the success rate lies between 0 and 1; over all hours the totals sum to
    the number of records and the successes to the number of successful
    records. *)
Theorem X18_hourly_stats_add_up (ar : arithmetic)
    (hour_key : string -> option string) (metrics : list HistoricalRecord.t) :
  (Forall (fun m => is_Some (hour_key (HistoricalRecord.timestamp m)) /\ timed m)
     metrics ->
   is_Some (_calculate_hourly_stats ar hour_key metrics)) /\
  (_calculate_hourly_stats ar hour_key metrics = Some NoMetrics <-> metrics = []) /\
  forall stats,
    _calculate_hourly_stats ar hour_key metrics = Some (Report stats) ->
    NoDup (Dict.keys stats) /\
    (forall m, m ∈ metrics ->
       exists k, hour_key (HistoricalRecord.timestamp m) = Some k /\
                 k ∈ Dict.keys stats) /\
    Forall (fun kv : string * period_stats => consistent kv.2) stats /\
    over_periods ps_total_requests stats = Z.of_nat (length metrics) /\
    over_periods ps_successful_requests stats = successful_of metrics.
Proof.
  destruct metrics as [|m0 ms].
  { split; [intros _; now eexists|]. split; [tauto|]. discriminate. }
  set (metrics := m0 :: ms).
  assert (Hshape : _calculate_hourly_stats ar hour_key metrics =
                   by_hour ← group_by hour_key metrics;
                   stats ← mapM (fun kv : string * list HistoricalRecord.t =>
                                   (fun e => (kv.1, e)) <$> period_entry ar kv.2)
                                by_hour;
                   Some (Report stats)) by reflexivity.
  rewrite Hshape. clear Hshape. split; [|split].
  - intros Hall.
    destruct (group_by_Some hour_key metrics) as [d Hd].
    { eapply Forall_impl; [exact Hall|]. now intros m [Hk _]. }
    rewrite Hd. cbn [mbind option_bind].
    destruct (group_by_spec hour_key metrics d Hd) as (_ & G2 & _).
    destruct (mapM_is_Some_2
                (fun kv : string * list HistoricalRecord.t =>
                   (fun e => (kv.1, e)) <$> period_entry ar kv.2) d) as [stats Hs].
    { eapply Forall_impl; [exact G2|]. intros [k v] [_ Hin]. cbn [fst snd] in *.
      unfold compose, period_entry. cbn [fst snd].
      destruct (floats_Some (map HistoricalRecord.latency_ms v)) as (lat & E & _).
      { apply Forall_fmap. eapply Forall_impl; [exact Hin|].
        intros m Hm. rewrite Forall_forall in Hall. now destruct (Hall m Hm). }
      rewrite E. cbn. eauto. }
    rewrite Hs. cbn. eauto.
  - split; [|discriminate].
    intros H. destruct (group_by hour_key metrics) as [d|]; [|discriminate H].
    cbn [mbind option_bind] in H.
    destruct (mapM _ d); discriminate H.
  - intros stats H.
    destruct (group_by hour_key metrics) as [d|] eqn:Hd; [|discriminate H].
    cbn [mbind option_bind] in H.
    destruct (mapM _ d) as [st|] eqn:Hs; [|discriminate H].
    cbn in H. injection H as <-.
    destruct (group_by_spec hour_key metrics d Hd) as (G1 & G2 & G3 & G4 & G5).
    destruct (entries_spec ar d st) as (E1 & E2 & E3 & E4); [|exact Hs|].
    { eapply Forall_impl; [exact G2|]. now intros kv [Hne _]. }
    repeat apply conj.
    + now rewrite E1.
    + intros m Hm. rewrite E1. now apply G3.
    + exact E2.
    + now rewrite E3.
    + now rewrite E4.
Qed.

End AnalyticsExtras.
